(** * HR backend: hiring-status state machine, ownership and aggregation

    A shallow embedding of [backend/companies] (models, serializers,
    permissions, views) and of the parts of [backend/accounts] they use.

    - Model rows are records; a table is the list of its rows, newest first
      (every model orders by [-created_at]).
    - Python dictionaries ([request.data], [attrs], [validated_data]) are
      [gmap string value].
    - Exceptions are values of [exn]; a computation that may raise returns
      [result A].  A handler that raises leaves the database as it was, so
      only the successful branch returns a new [DB].
    - The server clock ([timezone.now().date()]) is the explicit argument
      [today]; dates are day numbers.
    - A [Request] is one that authentication has let through: its user is
      the authenticated user.  A view is run against one database state.
    - What the REST framework does on the serializers' behalf is written
      out where the views rely on it: required and optional fields, the
      choice and primary-key fields, the unique validators derived from
      [unique=True], the permission check before the handler, the keyword
      arguments with which a route calls the handler, the rendering of the
      response, and the status code of an exception that leaves a view.
    - What the standard library and the framework compute on texts
      ([str.lower], [int], the character and email fields) is taken as a
      parameter of the environment [Env]. *)

From Stdlib Require Import ZArith String Ascii List Bool Lia.
From stdpp Require Import base strings list gmap pretty.
Import ListNotations.

Open Scope Z_scope.
Open Scope string_scope.

(** ** Exceptions and results *)

(** The payload of a validation error: a bare message or a dictionary from
    field names to messages. *)
#[warnings="-register-all"] Inductive detail :=
| Msg (m : string)
| Dict (d : list (string * detail)).

Inductive exn :=
| DRFValidationError (d : detail)      (* rest_framework.exceptions.ValidationError *)
| DjangoValidationError (d : detail)   (* django.core.exceptions.ValidationError *)
| PermissionDenied (m : string)        (* rest_framework.exceptions.PermissionDenied *)
| Http404                              (* get_object() on a missing row *)
| KeyError (key : string)              (* d[key] on a dictionary without key *)
| TypeError (m : string)               (* a call or an encoding the objects do not allow *)
| DoesNotExist                         (* following a dangling foreign key *)
| IntegrityError (constraint : string) (* a storage-level constraint violated *).

Inductive result (A : Type) :=
| Ok (a : A)
| Raise (e : exn).
Arguments Ok {A} a.
Arguments Raise {A} e.

Global Instance result_bind : MBind result := fun A B k r =>
  match r with
  | Ok a => k a
  | Raise e => Raise e
  end.

(** The status code the REST framework's exception handler answers with:
    it translates its own exceptions and the 404; anything else that escapes
    a view is an unhandled server error. *)
Definition status_code (e : exn) : Z :=
  match e with
  | DRFValidationError _ => 400
  | PermissionDenied _ => 403
  | Http404 => 404
  | DjangoValidationError _ | KeyError _ | TypeError _ | DoesNotExist
  | IntegrityError _ => 500
  end.

(** ** accounts/models.py *)

Module UserRole.
Definition ADMIN := "admin".
Definition MANAGER := "manager".
Definition EMPLOYEE := "employee".
End UserRole.

Record CustomUser := {
  CustomUser_id : Z;
  CustomUser_role : string;
  CustomUser_is_superuser : bool
}.

(** [CustomUser.save]: a blank role is filled in from [is_superuser]; a role
    that was given is kept. *)
Definition CustomUser_save (self : CustomUser) : CustomUser :=
  if String.eqb (CustomUser_role self) EmptyString
  then {| CustomUser_id := CustomUser_id self;
          CustomUser_role := if CustomUser_is_superuser self
                             then UserRole.ADMIN else UserRole.MANAGER;
          CustomUser_is_superuser := CustomUser_is_superuser self |}
  else self.

Definition CustomUser_is_admin (self : CustomUser) : bool :=
  String.eqb (CustomUser_role self) UserRole.ADMIN.

Definition CustomUser_is_manager (self : CustomUser) : bool :=
  String.eqb (CustomUser_role self) UserRole.MANAGER.

(** ** companies/models.py *)

Record Company := {
  Company_id : Z;
  Company_manager : Z;      (* foreign key: the user's id *)
  Company_name : string
}.

Record Department := {
  Department_id : Z;
  Department_company : Z;   (* foreign key: the company's id *)
  Department_name : string
}.

Inductive EmployeeStatus :=
| APPLICATION_RECEIVED
| INTERVIEW_SCHEDULED
| NOT_ACCEPTED
| HIRED.

(** The stored text of each member; a member compares equal to it. *)
Definition value_of (s : EmployeeStatus) : string :=
  match s with
  | APPLICATION_RECEIVED => "application received"
  | INTERVIEW_SCHEDULED => "interview scheduled"
  | NOT_ACCEPTED => "not accepted"
  | HIRED => "hired"
  end.

Definition EmployeeStatus_members : list EmployeeStatus :=
  [APPLICATION_RECEIVED; INTERVIEW_SCHEDULED; NOT_ACCEPTED; HIRED].

Record Employee := {
  Employee_id : Z;
  Employee_department : Z;  (* foreign key: the department's id *)
  Employee_name : string;
  Employee_status : string;
  Employee_email : string;
  Employee_mobile : string;
  Employee_address : string;
  Employee_designation : string;
  Employee_hired_on : option Z
}.

Record DB := {
  companies : list Company;
  departments : list Department;
  employees : list Employee
}.

(** [x in xs] on strings. *)
Definition str_in (x : string) (xs : list string) : bool :=
  existsb (String.eqb x) xs.

(** Truthiness of a nullable date: a date is always true, [None] is false. *)
Definition truthy (d : option Z) : bool :=
  match d with Some _ => true | None => false end.

(** The primary key the store gives to a new row. *)
Definition fresh_id (ids : list Z) : Z :=
  1 + fold_right Z.max 0 ids.

(** *** Related managers *)

Definition Company_departments (db : DB) (self : Company) : list Department :=
  List.filter (fun d => Z.eqb (Department_company d) (Company_id self)) (departments db).

Definition Department_employees (db : DB) (self : Department) : list Employee :=
  List.filter (fun e => Z.eqb (Employee_department e) (Department_id self)) (employees db).

Definition User_companies (db : DB) (u : CustomUser) : list Company :=
  List.filter (fun c => Z.eqb (Company_manager c) (CustomUser_id u)) (companies db).

Definition Department_get_employees_count (db : DB) (self : Department) : Z :=
  Z.of_nat (length (Department_employees db self)).

Definition Company_get_employees_count (db : DB) (self : Company) : Z :=
  fold_right Z.add 0
    (map (Department_get_employees_count db) (Company_departments db self)).

Definition Company_get_departments_count (db : DB) (self : Company) : Z :=
  Z.of_nat (length (Company_departments db self)).

(** Following a foreign key. *)
Definition get_company (db : DB) (pk : Z) : result Company :=
  match find (fun c => Z.eqb (Company_id c) pk) (companies db) with
  | Some c => Ok c
  | None => Raise DoesNotExist
  end.

Definition get_department (db : DB) (pk : Z) : result Department :=
  match find (fun d => Z.eqb (Department_id d) pk) (departments db) with
  | Some d => Ok d
  | None => Raise DoesNotExist
  end.

Definition Employee_department_obj (db : DB) (self : Employee) : result Department :=
  get_department db (Employee_department self).

Definition Department_company_obj (db : DB) (self : Department) : result Company :=
  get_company db (Department_company self).

(** [Employee.company]: the company of the employee's department. *)
Definition Employee_company (db : DB) (self : Employee) : result Company :=
  d ← Employee_department_obj db self;
  Department_company_obj db d.

(** *** Employee.clean and Employee.save *)

Definition Employee_clean (self : Employee) : result unit :=
  if String.eqb (Employee_status self) (value_of HIRED)
     && negb (truthy (Employee_hired_on self))
  then Raise (DjangoValidationError
                (Dict [("hired_on", Msg "Hired date is required when status is HIRED")]))
  else if negb (String.eqb (Employee_status self) (value_of HIRED))
          && truthy (Employee_hired_on self)
  then Raise (DjangoValidationError
                (Dict [("hired_on", Msg "Hired date should only be set when status is HIRED")]))
  else Ok tt.

(** The base [save]: with [force_insert] the row is inserted; otherwise the
    row with the same primary key is replaced, and inserted when there is
    none.  [email] is declared [unique=True]. *)
Definition Employee_base_save (db : DB) (self : Employee) (force_insert : bool)
  : result DB :=
  let same := fun e => Z.eqb (Employee_id e) (Employee_id self) in
  let stored := existsb same (employees db) in
  if force_insert && stored
  then Raise (IntegrityError "companies_employee.id")
  else if existsb (fun e => String.eqb (Employee_email e) (Employee_email self))
            (List.filter (fun e => negb (same e)) (employees db))
  then Raise (IntegrityError "companies_employee.email")
  else
    Ok {| companies := companies db;
          departments := departments db;
          employees :=
            if stored
            then map (fun e => if same e then self else e) (employees db)
            else self :: employees db |}.

Definition Employee_save (db : DB) (self : Employee) (force_insert : bool)
  : result DB :=
  _ ← Employee_clean self;
  Employee_base_save db self force_insert.

(** ** Requests, dictionaries and the serializer machinery *)

(** What a dictionary holds: the values of a JSON body ([VNone], [VStr],
    [VInt]; a primary key is sent as a number or as text) and, after field
    validation, dates and model instances. *)
Inductive value :=
| VNone
| VStr (s : string)
| VInt (z : Z)
| VDate (d : Z)
| VUser (u : CustomUser)
| VCompany (c : Company)
| VDepartment (d : Department).

Record Request := {
  Request_user : CustomUser;
  Request_method : string;
  Request_data : gmap string value
}.

(** What the repository takes from outside itself: the project settings;
    the REST framework's decoding of text fields ([CharField(max_length=255)]
    and [EmailField] with its [EmailValidator]), each giving the validated
    text or the error detail; and two functions of the language on text:
    [str.lower], and [int], which reads a number out of a text or fails. *)
Record Env := {
  EMPLOYEE_STATUS : list string;
  CharField : value -> detail + string;
  EmailField : value -> detail + string;
  lower : string -> string;
  int : string -> option Z
}.

Definition fail {A} (m : string) : result A :=
  Raise (DRFValidationError (Msg m)).

Definition of_sum (r : detail + string) : result value :=
  match r with
  | inl d => Raise (DRFValidationError d)
  | inr s => Ok (VStr s)
  end.

(** A serializer field: its name, whether a full update or a create must
    supply it, and its validation (the field's own, then the serializer's
    [validate_<name>] method when there is one). *)
Record Field := {
  Field_name : string;
  Field_required : bool;
  Field_run : value -> result value
}.

(** One field of [to_internal_value]: [None] when the field is skipped. *)
Definition run_field (partial : bool) (f : Field) (data : gmap string value)
  : option (result value) :=
  match data !! Field_name f with
  | None =>
      if partial then None
      else if Field_required f then Some (fail "This field is required.")
      else None
  | Some VNone => Some (fail "This field may not be null.")
  | Some v => Some (Field_run f v)
  end.

(** [to_internal_value]: every field is run; validation errors are gathered
    by field name, any other exception escapes. *)
Fixpoint run_fields (partial : bool) (fields : list Field) (data : gmap string value)
  : result (gmap string value * list (string * detail)) :=
  match fields with
  | [] => Ok (∅, [])
  | f :: fs =>
      match run_field partial f data with
      | None => run_fields partial fs data
      | Some (Ok v) =>
          '(ret, errors) ← run_fields partial fs data;
          Ok (<[Field_name f := v]> ret, errors)
      | Some (Raise (DRFValidationError d)) =>
          '(ret, errors) ← run_fields partial fs data;
          Ok (ret, (Field_name f, d) :: errors)
      | Some (Raise e) => Raise e
      end
  end.

Definition to_internal_value (partial : bool) (fields : list Field)
    (data : gmap string value) : result (gmap string value) :=
  '(ret, errors) ← run_fields partial fields data;
  match errors with
  | [] => Ok ret
  | _ => Raise (DRFValidationError (Dict errors))
  end.

Definition dquote : string := String (ascii_of_nat 34) EmptyString.

(** [type(v).__name__]. *)
Definition type_name (v : value) : string :=
  match v with
  | VNone => "NoneType"
  | VStr _ => "str"
  | VInt _ => "int"
  | VDate _ => "date"
  | VUser _ => "CustomUser"
  | VCompany _ => "Company"
  | VDepartment _ => "Department"
  end.

(** [str(v)] for what a JSON body sends as a key or a choice. *)
Definition str (v : value) : string :=
  match v with
  | VStr s => s
  | VInt z => pretty z
  | _ => type_name v
  end.

(** [ChoiceField] over the status choices of the model: the text of the
    value is looked up among the choices, and named when it is none. *)
Definition ChoiceField_status (v : value) : result string :=
  match v with
  | VStr s =>
      if str_in s (map value_of EmployeeStatus_members) then Ok s
      else fail (dquote +:+ s +:+ dquote +:+ " is not a valid choice.")
  | _ => fail (dquote +:+ str v +:+ dquote +:+ " is not a valid choice.")
  end.

(** The primary key a related field reads out of the body: a number, or a
    text that [int] reads as one. *)
Definition pk_value (env : Env) (v : value) : option Z :=
  match v with
  | VInt pk => Some pk
  | VStr s => int env s
  | _ => None
  end.

(** [PrimaryKeyRelatedField(queryset=Department.objects.all())]. *)
Definition PrimaryKeyRelatedField_department (env : Env) (db : DB) (v : value)
  : result Department :=
  match pk_value env v with
  | Some pk =>
      match find (fun d => Z.eqb (Department_id d) pk) (departments db) with
      | Some d => Ok d
      | None => fail ("Invalid pk " +:+ dquote +:+ str v +:+ dquote
                      +:+ " - object does not exist.")
      end
  | None => fail ("Incorrect type. Expected pk value, received " +:+ type_name v +:+ ".")
  end.

(** [PrimaryKeyRelatedField(queryset=Company.objects.all())]. *)
Definition PrimaryKeyRelatedField_company (env : Env) (db : DB) (v : value)
  : result Company :=
  match pk_value env v with
  | Some pk =>
      match find (fun c => Z.eqb (Company_id c) pk) (companies db) with
      | Some c => Ok c
      | None => fail ("Invalid pk " +:+ dquote +:+ str v +:+ dquote
                      +:+ " - object does not exist.")
      end
  | None => fail ("Incorrect type. Expected pk value, received " +:+ type_name v +:+ ".")
  end.

(** The mobile pattern [^\+?1?\d{9,15}$]. *)
Definition is_digit (c : ascii) : bool :=
  let n := nat_of_ascii c in (Nat.leb 48 n && Nat.leb n 57)%nat.

Fixpoint all_digits (s : string) : bool :=
  match s with
  | EmptyString => true
  | String c s' => is_digit c && all_digits s'
  end.

Definition digits_9_15 (s : string) : bool :=
  all_digits s && (Nat.leb 9 (String.length s) && Nat.leb (String.length s) 15)%nat.

Definition drop_char (c : ascii) (s : string) : string :=
  match s with
  | String c' s' => if Ascii.eqb c c' then s' else s
  | EmptyString => s
  end.

(** Both optional parts are tried present and absent, as backtracking does. *)
Definition mobile_regex (s : string) : bool :=
  let after_plus := [drop_char "+" s; s] in
  existsb digits_9_15
    (flat_map (fun t => [drop_char "1" t; t]) after_plus).

Definition MobileField (env : Env) (v : value) : result value :=
  s ← of_sum (CharField env v);
  match s with
  | VStr m =>
      if mobile_regex m then Ok s
      else fail "Mobile number must be in international format: +1234567890"
  | _ => Ok s
  end.

(** The validator a model serializer derives from [unique=True]: no other
    row of the queryset may carry the value ([exclude] is the instance being
    updated). *)
Definition UniqueValidator_email (db : DB) (exclude : option Z) (v : string)
  : result unit :=
  if existsb (fun e => String.eqb (Employee_email e) v
                         && match exclude with
                            | Some pk => negb (Z.eqb (Employee_id e) pk)
                            | None => true
                            end) (employees db)
  then fail "Employee with this email already exists."
  else Ok tt.

Definition UniqueValidator_company_name (db : DB) (exclude : option Z) (v : string)
  : result unit :=
  if existsb (fun c => String.eqb (Company_name c) v
                         && match exclude with
                            | Some pk => negb (Z.eqb (Company_id c) pk)
                            | None => true
                            end) (companies db)
  then fail "Company with this name already exists."
  else Ok tt.

(** [d[key]] and [d.get(key)]. *)
Definition getitem (d : gmap string value) (key : string) : result value :=
  match d !! key with
  | Some v => Ok v
  | None => Raise (KeyError key)
  end.

Definition dict_get (d : gmap string value) (key : string) : value :=
  default VNone (d !! key).

(** [manager.companies.filter(id=pk).exists()]. *)
Definition manages (db : DB) (u : CustomUser) (pk : Z) : bool :=
  existsb (fun c => Z.eqb (Company_id c) pk) (User_companies db u).

(** ** companies/serializers.py: employees *)

Definition invalid_status (env : Env) : exn :=
  DRFValidationError
    (Dict [("status",
            Msg ("Invalid status. Status must be one of: "
                 +:+ String.concat ", " (EMPLOYEE_STATUS env)))]).

Definition status_values : list string :=
  [value_of APPLICATION_RECEIVED; value_of INTERVIEW_SCHEDULED;
   value_of HIRED; value_of NOT_ACCEPTED].

(** *** EmployeeCreateSerializer *)

Definition EmployeeCreateSerializer_fields (env : Env) (db : DB) : list Field :=
  [ {| Field_name := "company"; Field_required := true;
       Field_run := fun v => c ← PrimaryKeyRelatedField_company env db v; Ok (VCompany c) |};
    {| Field_name := "department"; Field_required := true;
       Field_run := fun v => d ← PrimaryKeyRelatedField_department env db v; Ok (VDepartment d) |};
    {| Field_name := "name"; Field_required := true;
       Field_run := fun v => of_sum (CharField env v) |};
    {| Field_name := "email"; Field_required := true;
       Field_run := fun v =>
         s ← of_sum (EmailField env v);
         match s with
         | VStr m => _ ← UniqueValidator_email db None m; Ok s
         | _ => Ok s
         end |};
    {| Field_name := "mobile"; Field_required := true;
       Field_run := MobileField env |};
    {| Field_name := "address"; Field_required := true;
       Field_run := fun v => of_sum (CharField env v) |};
    {| Field_name := "designation"; Field_required := true;
       Field_run := fun v => of_sum (CharField env v) |};
    {| Field_name := "status"; Field_required := false;
       Field_run := fun v => s ← ChoiceField_status v; Ok (VStr s) |} ].

Definition EmployeeCreateSerializer_validate (env : Env) (db : DB) (request : Request)
    (attrs : gmap string value) : result (gmap string value) :=
  status ← getitem attrs "status";
  if negb (match status with VStr s => str_in s status_values | _ => false end)
  then Raise (invalid_status env)
  else
    let manger := Request_user request in
    company ← getitem attrs "company";
    department ← getitem attrs "department";
    match company, department with
    | VCompany company, VDepartment department =>
        if negb (manages db manger (Company_id company))
        then fail "Invalid selected company"
        else if negb (existsb (fun d => Z.eqb (Department_id d) (Department_id department))
                        (Company_departments db company))
        then fail "invalid selected department"
        else Ok attrs
    | _, _ => fail "Invalid selected company"
    end.

Definition str_or (d : string) (v : option value) : string :=
  match v with Some (VStr s) => s | _ => d end.

(** [Employee.objects.create] with keyword arguments: the instance is built from the
    keyword arguments and the field defaults, then saved with
    [force_insert]. *)
Definition Employee_objects_create (db : DB) (kwargs : gmap string value)
  : result (DB * Employee) :=
  match kwargs !! "department" with
  | Some (VDepartment d) =>
      let obj :=
        {| Employee_id := fresh_id (map Employee_id (employees db));
           Employee_department := Department_id d;
           Employee_name := str_or EmptyString (kwargs !! "name");
           Employee_status := str_or (value_of APPLICATION_RECEIVED) (kwargs !! "status");
           Employee_email := str_or EmptyString (kwargs !! "email");
           Employee_mobile := str_or EmptyString (kwargs !! "mobile");
           Employee_address := str_or EmptyString (kwargs !! "address");
           Employee_designation := str_or EmptyString (kwargs !! "designation");
           Employee_hired_on :=
             match kwargs !! "hired_on" with Some (VDate d) => Some d | _ => None end |} in
      db' ← Employee_save db obj true;
      Ok (db', obj)
  | _ => Raise (IntegrityError "companies_employee.department_id")
  end.

Definition EmployeeCreateSerializer_create (db : DB) (validated_data : gmap string value)
  : result (DB * Employee) :=
  _ ← getitem validated_data "company";
  Employee_objects_create db (delete "company" validated_data).

(** *** EmployeeUpdateSerializer *)

Definition EmployeeUpdateSerializer_validate_email (env : Env) (db : DB)
    (instance : Employee) (value : string) : result string :=
  if existsb (fun e => String.eqb (Employee_email e) value
                         && negb (Z.eqb (Employee_id e) (Employee_id instance)))
       (employees db)
  then fail "Email address must be unique"
  else Ok (lower env value).

Definition EmployeeUpdateSerializer_validate_department (db : DB) (instance : Employee)
    (value : Department) : result Department :=
  vc ← Department_company_obj db value;
  d ← Employee_department_obj db instance;
  ic ← Department_company_obj db d;
  if negb (Z.eqb (Company_id vc) (Company_id ic))
  then fail "Cannot transfer employee to a department in a different company"
  else Ok value.

Definition valid_transitions : gmap string (list string) :=
  {[ value_of APPLICATION_RECEIVED :=
       [value_of INTERVIEW_SCHEDULED; value_of NOT_ACCEPTED];
     value_of INTERVIEW_SCHEDULED :=
       [value_of HIRED; value_of NOT_ACCEPTED] ]}.

Definition EmployeeUpdateSerializer_validate_status (env : Env)
    (instance : option Employee) (value : string) : result string :=
  if negb (str_in value status_values) then Raise (invalid_status env)
  else
    match instance with
    | None => Ok value
    | Some instance =>
        if String.eqb value (Employee_status instance) then Ok value
        else if str_in (Employee_status instance) [value_of HIRED; value_of NOT_ACCEPTED]
        then fail "Cannot update status of already hired or not accepted employees"
        else
          let allowed_statuses :=
            default [] (valid_transitions !! Employee_status instance) in
          if negb (str_in value allowed_statuses)
          then fail ("Cannot transition from " +:+ Employee_status instance
                     +:+ " to " +:+ value)
          else Ok value
    end.

Definition EmployeeUpdateSerializer_fields (env : Env) (db : DB) (instance : Employee)
  : list Field :=
  [ {| Field_name := "department"; Field_required := true;
       Field_run := fun v =>
         d ← PrimaryKeyRelatedField_department env db v;
         d' ← EmployeeUpdateSerializer_validate_department db instance d;
         Ok (VDepartment d') |};
    {| Field_name := "name"; Field_required := true;
       Field_run := fun v => of_sum (CharField env v) |};
    {| Field_name := "email"; Field_required := true;
       Field_run := fun v =>
         s ← of_sum (EmailField env v);
         match s with
         | VStr m =>
             _ ← UniqueValidator_email db (Some (Employee_id instance)) m;
             m' ← EmployeeUpdateSerializer_validate_email env db instance m;
             Ok (VStr m')
         | _ => Ok s
         end |};
    {| Field_name := "mobile"; Field_required := true;
       Field_run := MobileField env |};
    {| Field_name := "address"; Field_required := true;
       Field_run := fun v => of_sum (CharField env v) |};
    {| Field_name := "designation"; Field_required := true;
       Field_run := fun v => of_sum (CharField env v) |};
    {| Field_name := "status"; Field_required := false;
       Field_run := fun v =>
         s ← ChoiceField_status v;
         s' ← EmployeeUpdateSerializer_validate_status env (Some instance) s;
         Ok (VStr s') |} ].

Definition EmployeeUpdateSerializer_validate (db : DB) (request : Request)
    (instance : Employee) (attrs : gmap string value) : result (gmap string value) :=
  let manager := Request_user request in
  d ← Employee_department_obj db instance;
  c ← Department_company_obj db d;
  if negb (manages db manager (Company_id c))
  then fail "You do not have permission to update this employee"
  else Ok attrs.

(** [setattr(instance, attr, value)] for every item of [validated_data]. *)
Definition Employee_setattrs (instance : Employee) (validated_data : gmap string value)
  : Employee :=
  {| Employee_id := Employee_id instance;
     Employee_department :=
       match validated_data !! "department" with
       | Some (VDepartment d) => Department_id d
       | _ => Employee_department instance
       end;
     Employee_name := str_or (Employee_name instance) (validated_data !! "name");
     Employee_status := str_or (Employee_status instance) (validated_data !! "status");
     Employee_email := str_or (Employee_email instance) (validated_data !! "email");
     Employee_mobile := str_or (Employee_mobile instance) (validated_data !! "mobile");
     Employee_address := str_or (Employee_address instance) (validated_data !! "address");
     Employee_designation :=
       str_or (Employee_designation instance) (validated_data !! "designation");
     Employee_hired_on :=
       match validated_data !! "hired_on" with
       | Some (VDate d) => Some d
       | Some VNone => None
       | _ => Employee_hired_on instance
       end |}.

(** The model serializer's own [update]: set the attributes, then save. *)
Definition ModelSerializer_update (db : DB) (instance : Employee)
    (validated_data : gmap string value) : result (DB * Employee) :=
  let instance' := Employee_setattrs instance validated_data in
  db' ← Employee_save db instance' false;
  Ok (db', instance').

Definition is_hired (v : value) : bool :=
  match v with VStr s => String.eqb s (value_of HIRED) | _ => false end.

Definition EmployeeUpdateSerializer_update (db : DB) (today : Z) (instance : Employee)
    (validated_data : gmap string value) : result (DB * Employee) :=
  let validated_data :=
    if is_hired (dict_get validated_data "status")
    then <["hired_on" := VDate today]> validated_data
    else validated_data in
  ModelSerializer_update db instance validated_data.

(** [is_valid(raise_exception=True)] of the update serializer. *)
Definition EmployeeUpdateSerializer_is_valid (env : Env) (db : DB) (request : Request)
    (instance : Employee) (data : gmap string value) (partial : bool)
  : result (gmap string value) :=
  attrs ← to_internal_value partial (EmployeeUpdateSerializer_fields env db instance) data;
  EmployeeUpdateSerializer_validate db request instance attrs.

Definition EmployeeCreateSerializer_is_valid (env : Env) (db : DB) (request : Request)
    (data : gmap string value) : result (gmap string value) :=
  attrs ← to_internal_value false (EmployeeCreateSerializer_fields env db) data;
  EmployeeCreateSerializer_validate env db request attrs.

(** ** companies/models.py: the options of [Department] *)

Record UniqueConstraint := {
  UniqueConstraint_fields : list string;
  UniqueConstraint_name : string
}.

Record Options := {
  verbose_name : string;
  verbose_name_plural : string;
  ordering : list string;
  constraints : list UniqueConstraint;
  indexes : list (list string)
}.

(** The body of [class Department] holds two [class Meta] statements, in
    this order. *)
Definition Department_class_body : list (string * Options) :=
  [ ("Meta",
     {| verbose_name := "Department";
        verbose_name_plural := "Departments";
        ordering := ["-created_at"];
        constraints :=
          [ {| UniqueConstraint_fields := ["company"; "name"];
               UniqueConstraint_name := "unique_department_name_per_company" |} ];
        indexes := [["-created_at"]] |});
    ("Meta",
     {| verbose_name := "Department";
        verbose_name_plural := "Departments";
        ordering := ["-created_at"];
        constraints := [];
        indexes := [["-created_at"]] |}) ].

(** A class body is executed top to bottom: a later binding of a name
    replaces an earlier one. *)
Fixpoint class_attr {A} (body : list (string * A)) (name : string) : option A :=
  match body with
  | [] => None
  | (n, a) :: rest =>
      match class_attr rest name with
      | Some a' => Some a'
      | None => if String.eqb n name then Some a else None
      end
  end.

Definition no_options : Options :=
  {| verbose_name := EmptyString; verbose_name_plural := EmptyString;
     ordering := []; constraints := []; indexes := [] |}.

Definition Department_meta : Options :=
  default no_options (class_attr Department_class_body "Meta").

Definition Department_field_eq (f : string) (a b : Department) : bool :=
  if String.eqb f "company" then Z.eqb (Department_company a) (Department_company b)
  else if String.eqb f "name" then String.eqb (Department_name a) (Department_name b)
  else if String.eqb f "id" then Z.eqb (Department_id a) (Department_id b)
  else false.

(** A row of the table that agrees with [self] on every field of the
    constraint. *)
Definition violates (uc : UniqueConstraint) (rows : list Department) (self : Department)
  : bool :=
  existsb (fun r => forallb (fun f => Department_field_eq f r self)
                      (UniqueConstraint_fields uc)) rows.

(** [Department.objects.create]: the store checks the constraints the model
    options declare, then inserts. *)
Definition Department_objects_create (db : DB) (company : Company) (name : string)
  : result (DB * Department) :=
  let obj := {| Department_id := fresh_id (map Department_id (departments db));
                Department_company := Company_id company;
                Department_name := name |} in
  match find (fun uc => violates uc (departments db) obj) (constraints Department_meta) with
  | Some uc => Raise (IntegrityError (UniqueConstraint_name uc))
  | None =>
      Ok ({| companies := companies db;
             departments := obj :: departments db;
             employees := employees db |}, obj)
  end.

(** [Company.objects.create]: [name] is declared [unique=True]. *)
Definition Company_objects_create (db : DB) (manager : CustomUser) (name : string)
  : result (DB * Company) :=
  let obj := {| Company_id := fresh_id (map Company_id (companies db));
                Company_manager := CustomUser_id manager;
                Company_name := name |} in
  if existsb (fun c => String.eqb (Company_name c) name) (companies db)
  then Raise (IntegrityError "companies_company.name")
  else
    Ok ({| companies := obj :: companies db;
           departments := departments db;
           employees := employees db |}, obj).

(** ** companies/serializers.py: departments and companies *)

Definition DepartmentCreateSerializer_fields (env : Env) (db : DB) : list Field :=
  [ {| Field_name := "name"; Field_required := true;
       Field_run := fun v => of_sum (CharField env v) |};
    {| Field_name := "company"; Field_required := true;
       Field_run := fun v => c ← PrimaryKeyRelatedField_company env db v; Ok (VCompany c) |} ].

Definition DepartmentCreateSerializer_validate (db : DB) (request : Request)
    (attrs : gmap string value) : result (gmap string value) :=
  company ← getitem attrs "company";
  match company with
  | VCompany company =>
      if negb (Z.eqb (Company_manager company) (CustomUser_id (Request_user request)))
      then fail "You do not have permission to create a department in this company"
      else
        name ← getitem attrs "name";
        if existsb (fun d => Z.eqb (Department_company d) (Company_id company)
                               && match name with
                                  | VStr n => String.eqb (Department_name d) n
                                  | _ => false
                                  end) (departments db)
        then fail "Department name must be unique within company"
        else Ok attrs
  | _ => fail "You do not have permission to create a department in this company"
  end.

Definition DepartmentCreateSerializer_is_valid (env : Env) (db : DB) (request : Request)
    (data : gmap string value) : result (gmap string value) :=
  attrs ← to_internal_value false (DepartmentCreateSerializer_fields env db) data;
  DepartmentCreateSerializer_validate db request attrs.

Definition DepartmentCreateSerializer_create (db : DB) (validated_data : gmap string value)
  : result (DB * Department) :=
  match validated_data !! "company", validated_data !! "name" with
  | Some (VCompany c), Some (VStr n) => Department_objects_create db c n
  | _, _ => Raise (IntegrityError "companies_department.company_id")
  end.

Definition CompanyCreateSerializer_fields (env : Env) (db : DB) : list Field :=
  [ {| Field_name := "name"; Field_required := true;
       Field_run := fun v =>
         s ← of_sum (CharField env v);
         match s with
         | VStr n => _ ← UniqueValidator_company_name db None n; Ok s
         | _ => Ok s
         end |} ].

Definition CompanyCreateSerializer_validate (db : DB) (request : Request)
    (attrs : gmap string value) : result (gmap string value) :=
  let name := dict_get attrs "name" in
  let manager := Request_user request in
  if existsb (fun c => Z.eqb (Company_manager c) (CustomUser_id manager)
                         && match name with
                            | VStr n => String.eqb (Company_name c) n
                            | _ => false
                            end) (companies db)
  then fail "Company name must be unique"
  else Ok (<["manager" := VUser manager]> attrs).

Definition CompanyCreateSerializer_is_valid (env : Env) (db : DB) (request : Request)
    (data : gmap string value) : result (gmap string value) :=
  attrs ← to_internal_value false (CompanyCreateSerializer_fields env db) data;
  CompanyCreateSerializer_validate db request attrs.

Definition CompanyCreateSerializer_create (db : DB) (validated_data : gmap string value)
  : result (DB * Company) :=
  match validated_data !! "manager", validated_data !! "name" with
  | Some (VUser m), Some (VStr n) => Company_objects_create db m n
  | _, _ => Raise (IntegrityError "companies_company.manager_id")
  end.

(** ** companies/permissions.py *)

Definition safe_method (m : string) : bool := str_in m ["GET"; "HEAD"; "OPTIONS"].

Definition IsMangerOrReadOnly_has_permission (request : Request) : bool :=
  if safe_method (Request_method request) then true
  else String.eqb (CustomUser_role (Request_user request)) "manager".

Definition IsMangerOrReadOnly_has_object_permission (request : Request) (obj : Company)
  : bool :=
  if safe_method (Request_method request) then true
  else Z.eqb (Company_manager obj) (CustomUser_id (Request_user request)).

Definition IsCompanyManager_has_permission (db : DB) (request : Request) (company_pk : Z)
  : bool :=
  existsb (fun c => Z.eqb (Company_id c) company_pk
                      && Z.eqb (Company_manager c) (CustomUser_id (Request_user request)))
    (companies db).

(** The framework checks the view's permissions before it runs the handler. *)
Definition check_permissions (allowed : bool) : result unit :=
  if allowed then Ok tt
  else Raise (PermissionDenied "You do not have permission to perform this action.").

(** ** companies/views.py *)

(** *** CompanyViewSet *)

Definition CompanyViewSet_get_queryset (db : DB) (request : Request) : list Company :=
  if CustomUser_is_superuser (Request_user request) then companies db
  else List.filter
         (fun c => Z.eqb (Company_manager c) (CustomUser_id (Request_user request)))
         (companies db).

(** The rows of [companies LEFT OUTER JOIN departments LEFT OUTER JOIN
    employees], which is what an aggregate over [departments] and
    [departments__employees] is computed on: a company without departments,
    and a department without employees, still gives one row, with nulls. *)
Definition joined_rows (db : DB) : list (Company * option Department * option Employee) :=
  flat_map
    (fun c =>
       match Company_departments db c with
       | [] => [(c, None, None)]
       | ds =>
           flat_map
             (fun d =>
                match Department_employees db d with
                | [] => [(c, Some d, None)]
                | es => map (fun e => (c, Some d, Some e)) es
                end) ds
       end) (companies db).

(** [Count(column)]: the number of joined rows where the column is not null. *)
Definition Count {A} (column : Company * option Department * option Employee -> option A)
    (rows : list (Company * option Department * option Employee)) : Z :=
  Z.of_nat (length (List.filter (fun r => bool_decide (is_Some (column r))) rows)).

Record Statistics := {
  total_companies : Z;
  total_departments : Z;
  total_employees : Z
}.

Definition Company_objects_aggregate (db : DB) : Statistics :=
  let rows := joined_rows db in
  {| total_companies := Count (fun r => Some (Company_id r.1.1)) rows;
     total_departments := Count (fun r => Department_id <$> r.1.2) rows;
     total_employees := Count (fun r => Employee_id <$> r.2) rows |}.

(** What the read-only serializers render. *)
Record DepartmentData := {
  DepartmentData_department : Department;
  DepartmentData_employees : list Employee;
  DepartmentData_employees_count : Z
}.

Record CompanyData := {
  CompanyData_company : Company;
  CompanyData_departments : option (list DepartmentData);
  CompanyData_employees_count : Z;
  CompanyData_departments_count : Z
}.

Definition ReadOnlyDepartmentSerializer (db : DB) (obj : Department) : DepartmentData :=
  {| DepartmentData_department := obj;
     DepartmentData_employees := Department_employees db obj;
     DepartmentData_employees_count := Department_get_employees_count db obj |}.

Definition ReadOnlyCompanySerializer (db : DB) (obj : Company) : CompanyData :=
  {| CompanyData_company := obj;
     CompanyData_departments :=
       Some (map (ReadOnlyDepartmentSerializer db) (Company_departments db obj));
     CompanyData_employees_count := Company_get_employees_count db obj;
     CompanyData_departments_count := Company_get_departments_count db obj |}.

Definition ReadOnlyAdminCompanySerializer (db : DB) (obj : Company) : CompanyData :=
  {| CompanyData_company := obj;
     CompanyData_departments := None;
     CompanyData_employees_count := Company_get_employees_count db obj;
     CompanyData_departments_count := Company_get_departments_count db obj |}.

Definition CompanyViewSet_get_serializer (db : DB) (request : Request)
  : Company -> CompanyData :=
  if CustomUser_is_superuser (Request_user request)
  then ReadOnlyAdminCompanySerializer db
  else ReadOnlyCompanySerializer db.

(** The body of the list response: with the admin statistics it is an object
    with two keys, without them the bare list. *)
Record ListResponse := {
  statistics : option Statistics;
  listed : list CompanyData
}.

(** *** The data of an employee and its rendering *)

(** [ReadOnlyEmployeeSerializer.get_company] returns the company itself, not
    its key: the instance is the [company] entry of the employee's data. *)
Definition ReadOnlyEmployeeSerializer_get_company (db : DB) (obj : Employee)
  : result Company :=
  d ← Employee_department_obj db obj;
  Department_company_obj db d.

(** The [company] entries of the employees a response holds, computed when
    the handler reads [serializer.data]. *)
Fixpoint company_entries (db : DB) (es : list Employee) : result (list value) :=
  match es with
  | [] => Ok []
  | e :: es' =>
      c ← ReadOnlyEmployeeSerializer_get_company db e;
      vs ← company_entries db es';
      Ok (VCompany c :: vs)
  end.

(** The JSON renderer encodes null, text, numbers and dates; any other
    object makes it raise [TypeError], which names the class of the object
    ([type_name]). *)
Definition encodable (v : value) : bool :=
  match v with
  | VNone | VStr _ | VInt _ | VDate _ => true
  | VUser _ | VCompany _ | VDepartment _ => false
  end.

Fixpoint JSONRenderer_render (vs : list value) : result unit :=
  match vs with
  | [] => Ok tt
  | v :: vs' =>
      if encodable v then JSONRenderer_render vs'
      else Raise (TypeError ("Object of type " +:+ type_name v
                             +:+ " is not JSON serializable"))
  end.

(** A response whose data holds the employees [nested]: their data are
    built in the handler, the whole is rendered after it. *)
Definition Response {A} (db : DB) (nested : list Employee) (data : A) : result A :=
  entries ← company_entries db nested;
  _ ← JSONRenderer_render entries;
  Ok data.

Definition DepartmentData_nested (ds : list DepartmentData) : list Employee :=
  flat_map DepartmentData_employees ds.

Definition CompanyData_nested (cs : list CompanyData) : list Employee :=
  flat_map (fun cd => match CompanyData_departments cd with
                      | Some ds => DepartmentData_nested ds
                      | None => []
                      end) cs.

Definition CompanyViewSet_list (db : DB) (request : Request) : result ListResponse :=
  _ ← check_permissions (IsMangerOrReadOnly_has_permission request);
  let queryset := CompanyViewSet_get_queryset db request in
  let data := map (CompanyViewSet_get_serializer db request) queryset in
  if CustomUser_is_superuser (Request_user request)
  then
    let stats := Company_objects_aggregate db in
    Response db (CompanyData_nested data) {| statistics := Some stats; listed := data |}
  else
    Response db (CompanyData_nested data) {| statistics := None; listed := data |}.

Definition CompanyViewSet_create (env : Env) (db : DB) (request : Request)
  : result (DB * Company) :=
  _ ← check_permissions (IsMangerOrReadOnly_has_permission request);
  validated_data ← CompanyCreateSerializer_is_valid env db request (Request_data request);
  CompanyCreateSerializer_create db validated_data.

(** *** DepartmentViewSet *)

Definition DepartmentViewSet_get_queryset (db : DB) (company_pk : Z) : list Department :=
  List.filter (fun d => Z.eqb (Department_company d) company_pk) (departments db).

Definition DepartmentViewSet_list (db : DB) (request : Request) (company_pk : Z)
  : result (list DepartmentData) :=
  _ ← check_permissions (IsCompanyManager_has_permission db request company_pk);
  let data :=
    map (ReadOnlyDepartmentSerializer db) (DepartmentViewSet_get_queryset db company_pk) in
  Response db (DepartmentData_nested data) data.

Definition DepartmentViewSet_create (env : Env) (db : DB) (request : Request)
    (company_pk : Z) : result (DB * Department) :=
  _ ← check_permissions (IsCompanyManager_has_permission db request company_pk);
  validated_data ← DepartmentCreateSerializer_is_valid env db request (Request_data request);
  DepartmentCreateSerializer_create db validated_data.

(** *** EmployeeViewSet *)

Definition EmployeeViewSet_get_queryset (db : DB) (company_pk : Z) : list Employee :=
  List.filter
    (fun e => existsb (fun d => Z.eqb (Department_id d) (Employee_department e)
                                  && Z.eqb (Department_company d) company_pk)
                (departments db))
    (employees db).

Definition EmployeeViewSet_get_object (db : DB) (company_pk pk : Z) : result Employee :=
  match find (fun e => Z.eqb (Employee_id e) pk) (EmployeeViewSet_get_queryset db company_pk) with
  | Some e => Ok e
  | None => Raise Http404
  end.

Definition EmployeeViewSet_list (db : DB) (request : Request) (company_pk : Z)
  : result (list Employee) :=
  _ ← check_permissions (IsCompanyManager_has_permission db request company_pk);
  let data := EmployeeViewSet_get_queryset db company_pk in
  Response db data data.

Definition EmployeeViewSet_create (env : Env) (db : DB) (request : Request)
    (company_pk : Z) : result (DB * Employee) :=
  _ ← check_permissions (IsCompanyManager_has_permission db request company_pk);
  validated_data ← EmployeeCreateSerializer_is_valid env db request (Request_data request);
  EmployeeCreateSerializer_create db validated_data.

(** [update] ([partial = false]) and [partial_update] ([partial = true]), as
    the model view set provides them. *)
Definition EmployeeViewSet_update (env : Env) (db : DB) (today : Z) (request : Request)
    (company_pk pk : Z) (partial : bool) : result (DB * Employee) :=
  _ ← check_permissions (IsCompanyManager_has_permission db request company_pk);
  instance ← EmployeeViewSet_get_object db company_pk pk;
  validated_data ←
    EmployeeUpdateSerializer_is_valid env db request instance (Request_data request) partial;
  EmployeeUpdateSerializer_update db today instance validated_data.

(** The body of [update_status(self, request, company_pk=None, pk=None)]. *)
Definition EmployeeViewSet_update_status_handler (env : Env) (db : DB) (today : Z)
    (request : Request) (company_pk pk : Z) : result (DB * Employee) :=
  employee ← EmployeeViewSet_get_object db company_pk pk;
  d ← Employee_department_obj db employee;
  c ← Department_company_obj db d;
  if negb (Z.eqb (Company_manager c) (CustomUser_id (Request_user request)))
  then Raise (PermissionDenied "You do not have permission to update this employee's status")
  else
    let data : gmap string value :=
      {[ "status" := dict_get (Request_data request) "status" ]} in
    validated_data ← EmployeeUpdateSerializer_is_valid env db request employee data true;
    EmployeeUpdateSerializer_update db today employee validated_data.

(** ** companies/urls.py *)

(** Employees are registered under departments, and departments under
    companies: a request to an employee view carries the keys of the
    company, of the department and of the employee as keyword arguments. *)
Definition employees_route_kwargs : list string := ["company_pk"; "department_pk"; "pk"].

(** Calling the function [qualname] with keyword arguments: one that the
    function does not declare raises [TypeError]. *)
Definition call_with_kwargs {A} (qualname : string) (declared kwargs : list string)
    (body : result A) : result A :=
  match find (fun k => negb (str_in k declared)) kwargs with
  | Some k =>
      Raise (TypeError (qualname +:+ "() got an unexpected keyword argument '"
                        +:+ k +:+ "'"))
  | None => body
  end.

(** The [update_status] action as the router reaches it: the permissions of
    the view, then the call of the handler with the keyword arguments of the
    route. *)
Definition EmployeeViewSet_update_status (env : Env) (db : DB) (today : Z)
    (request : Request) (company_pk pk : Z) : result (DB * Employee) :=
  _ ← check_permissions (IsCompanyManager_has_permission db request company_pk);
  call_with_kwargs "EmployeeViewSet.update_status" ["company_pk"; "pk"]
    employees_route_kwargs
    (EmployeeViewSet_update_status_handler env db today request company_pk pk).

(** * The rest of the models, serializers and views *)

(** ** companies/models.py and accounts/models.py *)

(** [Employee.get_days_employed], read on the day [today]. *)
Definition Employee_get_days_employed (today : Z) (self : Employee) : Z :=
  match Employee_hired_on self with
  | None => 0
  | Some hired_on => today - hired_on
  end.

Definition CustomUser_is_employee (self : CustomUser) : bool :=
  String.eqb (CustomUser_role self) UserRole.EMPLOYEE.

(** [Company.save] is the base save: the row with the same primary key is
    replaced, and inserted when there is none.  [name] is declared
    [unique=True]. *)
Definition Company_save (db : DB) (self : Company) : result DB :=
  let same := fun c => Z.eqb (Company_id c) (Company_id self) in
  if existsb (fun c => String.eqb (Company_name c) (Company_name self))
       (List.filter (fun c => negb (same c)) (companies db))
  then Raise (IntegrityError "companies_company.name")
  else
    Ok {| companies :=
            if existsb same (companies db)
            then map (fun c => if same c then self else c) (companies db)
            else self :: companies db;
          departments := departments db;
          employees := employees db |}.

(** [Department.save] is the base save as well; the store checks the
    constraints of the model options against the other rows. *)
Definition Department_save (db : DB) (self : Department) : result DB :=
  let same := fun d => Z.eqb (Department_id d) (Department_id self) in
  let others := List.filter (fun d => negb (same d)) (departments db) in
  match find (fun uc => violates uc others self) (constraints Department_meta) with
  | Some uc => Raise (IntegrityError (UniqueConstraint_name uc))
  | None =>
      Ok {| companies := companies db;
            departments :=
              if existsb same (departments db)
              then map (fun d => if same d then self else d) (departments db)
              else self :: departments db;
            employees := employees db |}
  end.

(** Deleting follows the foreign keys declared [on_delete=CASCADE]: a
    department goes with its employees, a company with its departments and
    their employees. *)
Definition Employee_delete (db : DB) (self : Employee) : DB :=
  {| companies := companies db;
     departments := departments db;
     employees :=
       List.filter (fun e => negb (Z.eqb (Employee_id e) (Employee_id self)))
         (employees db) |}.

Definition Department_delete (db : DB) (self : Department) : DB :=
  {| companies := companies db;
     departments :=
       List.filter (fun d => negb (Z.eqb (Department_id d) (Department_id self)))
         (departments db);
     employees :=
       List.filter (fun e => negb (Z.eqb (Employee_department e) (Department_id self)))
         (employees db) |}.

Definition Company_delete (db : DB) (self : Company) : DB :=
  let gone := Company_departments db self in
  {| companies :=
       List.filter (fun c => negb (Z.eqb (Company_id c) (Company_id self)))
         (companies db);
     departments :=
       List.filter (fun d => negb (Z.eqb (Department_company d) (Company_id self)))
         (departments db);
     employees :=
       List.filter
         (fun e => negb (existsb (fun d => Z.eqb (Department_id d) (Employee_department e))
                           gone))
         (employees db) |}.

(** ** companies/serializers.py: updates of companies and departments *)

(** The fields of [CompanyCreateSerializer] bound to an instance: the unique
    validator leaves the instance itself out. *)
Definition CompanyCreateSerializer_fields_bound (env : Env) (db : DB) (instance : Company)
  : list Field :=
  [ {| Field_name := "name"; Field_required := true;
       Field_run := fun v =>
         s ← of_sum (CharField env v);
         match s with
         | VStr n =>
             _ ← UniqueValidator_company_name db (Some (Company_id instance)) n; Ok s
         | _ => Ok s
         end |} ].

Definition CompanyCreateSerializer_update (db : DB) (instance : Company)
    (validated_data : gmap string value) : result (DB * Company) :=
  let instance' :=
    {| Company_id := Company_id instance;
       Company_manager := Company_manager instance;
       Company_name := str_or (Company_name instance) (validated_data !! "name") |} in
  db' ← Company_save db instance';
  Ok (db', instance').

Definition DepartmentCreateSerializer_update (db : DB) (instance : Department)
    (validated_data : gmap string value) : result (DB * Department) :=
  let instance' :=
    {| Department_id := Department_id instance;
       Department_company := Department_company instance;
       Department_name := str_or (Department_name instance) (validated_data !! "name") |} in
  db' ← Department_save db instance';
  Ok (db', instance').

(** ** companies/views.py: updates and deletions *)

(** [get_object]: the row of the view's queryset with the primary key, then
    the object-level permissions. *)
Definition CompanyViewSet_get_object (db : DB) (request : Request) (pk : Z)
  : result Company :=
  match find (fun c => Z.eqb (Company_id c) pk) (CompanyViewSet_get_queryset db request) with
  | Some obj =>
      _ ← check_permissions (IsMangerOrReadOnly_has_object_permission request obj);
      Ok obj
  | None => Raise Http404
  end.

Definition CompanyViewSet_retrieve (db : DB) (request : Request) (pk : Z)
  : result CompanyData :=
  _ ← check_permissions (IsMangerOrReadOnly_has_permission request);
  obj ← CompanyViewSet_get_object db request pk;
  let data := CompanyViewSet_get_serializer db request obj in
  Response db (CompanyData_nested [data]) data.

Definition CompanyViewSet_update (env : Env) (db : DB) (request : Request) (pk : Z)
    (partial : bool) : result (DB * Company) :=
  _ ← check_permissions (IsMangerOrReadOnly_has_permission request);
  instance ← CompanyViewSet_get_object db request pk;
  attrs ← to_internal_value partial (CompanyCreateSerializer_fields_bound env db instance)
            (Request_data request);
  validated_data ← CompanyCreateSerializer_validate db request attrs;
  CompanyCreateSerializer_update db instance validated_data.

Definition CompanyViewSet_destroy (db : DB) (request : Request) (pk : Z) : result DB :=
  _ ← check_permissions (IsMangerOrReadOnly_has_permission request);
  instance ← CompanyViewSet_get_object db request pk;
  Ok (Company_delete db instance).

Definition DepartmentViewSet_get_object (db : DB) (company_pk pk : Z) : result Department :=
  match find (fun d => Z.eqb (Department_id d) pk)
          (DepartmentViewSet_get_queryset db company_pk) with
  | Some obj => Ok obj
  | None => Raise Http404
  end.

Definition DepartmentViewSet_update (env : Env) (db : DB) (request : Request)
    (company_pk pk : Z) (partial : bool) : result (DB * Department) :=
  _ ← check_permissions (IsCompanyManager_has_permission db request company_pk);
  instance ← DepartmentViewSet_get_object db company_pk pk;
  attrs ← to_internal_value partial (DepartmentCreateSerializer_fields env db)
            (Request_data request);
  validated_data ← DepartmentCreateSerializer_validate db request attrs;
  DepartmentCreateSerializer_update db instance validated_data.

Definition DepartmentViewSet_destroy (db : DB) (request : Request) (company_pk pk : Z)
  : result DB :=
  _ ← check_permissions (IsCompanyManager_has_permission db request company_pk);
  instance ← DepartmentViewSet_get_object db company_pk pk;
  Ok (Department_delete db instance).

Definition EmployeeViewSet_destroy (db : DB) (request : Request) (company_pk pk : Z)
  : result DB :=
  _ ← check_permissions (IsCompanyManager_has_permission db request company_pk);
  instance ← EmployeeViewSet_get_object db company_pk pk;
  Ok (Employee_delete db instance).

(** [ReadOnlyEmployeeSerializer]: the row with its computed fields. *)
Record EmployeeData := {
  EmployeeData_employee : Employee;
  EmployeeData_days_employed : Z;
  EmployeeData_company : Company;
  EmployeeData_company_name : string;
  EmployeeData_department_name : string
}.

Definition ReadOnlyEmployeeSerializer (db : DB) (today : Z) (obj : Employee)
  : result EmployeeData :=
  d ← Employee_department_obj db obj;
  c ← ReadOnlyEmployeeSerializer_get_company db obj;
  Ok {| EmployeeData_employee := obj;
        EmployeeData_days_employed := Employee_get_days_employed today obj;
        EmployeeData_company := c;
        EmployeeData_company_name := Company_name c;
        EmployeeData_department_name := Department_name d |}.

Definition EmployeeViewSet_retrieve (db : DB) (today : Z) (request : Request)
    (company_pk pk : Z) : result EmployeeData :=
  _ ← check_permissions (IsCompanyManager_has_permission db request company_pk);
  obj ← EmployeeViewSet_get_object db company_pk pk;
  data ← ReadOnlyEmployeeSerializer db today obj;
  _ ← JSONRenderer_render [VCompany (EmployeeData_company data)];
  Ok data.

(** * Vocabulary of the properties *)

(** Substring test, used to say that a message names a state. *)
Fixpoint contains (sub s : string) : bool :=
  String.prefix sub s
  || match s with
     | EmptyString => false
     | String _ s' => contains sub s'
     end.

(** The invariant of an employee row. *)
Definition consistent (e : Employee) : Prop :=
  Employee_hired_on e <> None <-> Employee_status e = value_of HIRED.

(** With distinct field names, the entry of a field is what that field's own
    run gave; a field that failed left its error and no entry. *)
Definition field_outcome (partial : bool) (f : Field) (data ret : gmap string value)
    (errs : list (string * detail)) : Prop :=
  match run_field partial f data with
  | None => ret !! Field_name f = None
  | Some (Ok v) => ret !! Field_name f = Some v
  | Some (Raise (DRFValidationError d)) =>
      ret !! Field_name f = None /\ In (Field_name f, d) errs
  | Some (Raise _) => False
  end.

(** A computation that raises nothing but the framework's validation error. *)
Definition validation_only {A} (r : result A) : Prop :=
  forall e, r = Raise e -> exists d, e = DRFValidationError d.

(** The row of [employee] once moved to [dest]. *)
Definition moved_to (employee : Employee) (dest : Department) : Employee :=
  {| Employee_id := Employee_id employee;
     Employee_department := Department_id dest;
     Employee_name := Employee_name employee;
     Employee_status := Employee_status employee;
     Employee_email := Employee_email employee;
     Employee_mobile := Employee_mobile employee;
     Employee_address := Employee_address employee;
     Employee_designation := Employee_designation employee;
     Employee_hired_on := Employee_hired_on employee |}.

(** The transition table as the specification words it, and acceptance of a
    requested status: the table, or a request for the current status. *)
Definition table_allows (current requested : EmployeeStatus) : bool :=
  match current, requested with
  | APPLICATION_RECEIVED, INTERVIEW_SCHEDULED
  | APPLICATION_RECEIVED, NOT_ACCEPTED
  | INTERVIEW_SCHEDULED, HIRED
  | INTERVIEW_SCHEDULED, NOT_ACCEPTED => true
  | _, _ => false
  end.

Definition same_status (a b : EmployeeStatus) : bool :=
  String.eqb (value_of a) (value_of b).

Definition spec_accepts (current requested : EmployeeStatus) : bool :=
  same_status current requested || table_allows current requested.

Definition terminal (s : EmployeeStatus) : bool :=
  match s with
  | HIRED | NOT_ACCEPTED => true
  | _ => false
  end.

(** ** A small tenant used in the examples *)

Module Example.
(** [str.lower] as it acts on texts of ASCII characters. *)
Definition lower_char (c : ascii) : ascii :=
  let n := nat_of_ascii c in
  if (Nat.leb 65 n && Nat.leb n 90)%nat then ascii_of_nat (n + 32) else c.

Fixpoint ascii_lower (s : string) : string :=
  match s with
  | EmptyString => EmptyString
  | String c s' => String (lower_char c) (ascii_lower s')
  end.

(** [int] as it acts on plain decimal numerals. *)
Fixpoint decimal_from (acc : Z) (s : string) : option Z :=
  match s with
  | EmptyString => Some acc
  | String c s' =>
      if is_digit c
      then decimal_from (10 * acc + Z.of_nat (nat_of_ascii c - 48)) s'
      else None
  end.

Definition decimal (s : string) : option Z :=
  match s with
  | EmptyString => None
  | _ => decimal_from 0 s
  end.

Definition env : Env :=
  {| EMPLOYEE_STATUS := status_values;
     CharField := fun v =>
       match v with VStr s => inr s | _ => inl (Msg "Not a valid string.") end;
     EmailField := fun v =>
       match v with VStr s => inr s | _ => inl (Msg "Enter a valid email address.") end;
     lower := ascii_lower;
     int := decimal |}.

Definition mona : CustomUser :=
  {| CustomUser_id := 1; CustomUser_role := "manager"; CustomUser_is_superuser := false |}.
Definition omar : CustomUser :=
  {| CustomUser_id := 2; CustomUser_role := "manager"; CustomUser_is_superuser := false |}.
Definition root : CustomUser :=
  {| CustomUser_id := 3; CustomUser_role := "admin"; CustomUser_is_superuser := true |}.
(** An account given the admin role without being a superuser. *)
Definition aida : CustomUser :=
  {| CustomUser_id := 4; CustomUser_role := "admin"; CustomUser_is_superuser := false |}.

Definition acme : Company :=
  {| Company_id := 1; Company_manager := 1; Company_name := "Acme" |}.
Definition bolt : Company :=
  {| Company_id := 2; Company_manager := 2; Company_name := "Bolt" |}.

Definition eng : Department :=
  {| Department_id := 1; Department_company := 1; Department_name := "Eng" |}.
Definition ops : Department :=
  {| Department_id := 2; Department_company := 1; Department_name := "Ops" |}.
Definition lab : Department :=
  {| Department_id := 3; Department_company := 2; Department_name := "Lab" |}.

Definition ann : Employee :=
  {| Employee_id := 1; Employee_department := 1; Employee_name := "Ann";
     Employee_status := value_of INTERVIEW_SCHEDULED;
     Employee_email := "ann@acme.io"; Employee_mobile := "+1234567890";
     Employee_address := "1 Main St"; Employee_designation := "Engineer";
     Employee_hired_on := None |}.
Definition ben : Employee :=
  {| Employee_id := 2; Employee_department := 1; Employee_name := "Ben";
     Employee_status := value_of HIRED;
     Employee_email := "ben@acme.io"; Employee_mobile := "+1234567891";
     Employee_address := "2 Main St"; Employee_designation := "Analyst";
     Employee_hired_on := Some 90 |}.

Definition db : DB :=
  {| companies := [bolt; acme]; departments := [lab; ops; eng]; employees := [ben; ann] |}.

Definition request (u : CustomUser) (method : string) (data : gmap string value)
  : Request :=
  {| Request_user := u; Request_method := method; Request_data := data |}.

Definition today : Z := 100.

(** A creation body that leaves [status] out. *)
Definition new_hire_body : gmap string value :=
  {[ "company" := VInt 1; "department" := VInt 1; "name" := VStr "Bob";
     "email" := VStr "bob@acme.io"; "mobile" := VStr "+1234567892";
     "address" := VStr "3 Main St"; "designation" := VStr "Tester" ]}.
End Example.

(** ** Invariants of the store *)

(** Primary keys are pairwise distinct. *)
Definition keys_unique (db : DB) : Prop :=
  NoDup (map Company_id (companies db))
  /\ NoDup (map Department_id (departments db))
  /\ NoDup (map Employee_id (employees db)).

(** Every foreign key points at a row. *)
Definition references_resolve (db : DB) : Prop :=
  (forall d, In d (departments db) ->
             exists c, In c (companies db) /\ Company_id c = Department_company d)
  /\ (forall e, In e (employees db) ->
                exists d, In d (departments db) /\ Department_id d = Employee_department e).

(** No two employees share an email. *)
Definition emails_unique (db : DB) : Prop :=
  NoDup (map Employee_email (employees db)).

(** Company names are pairwise distinct. *)
Definition company_names_unique (db : DB) : Prop :=
  NoDup (map Company_name (companies db)).

Definition well_formed (db : DB) : Prop :=
  keys_unique db /\ references_resolve db /\ emails_unique db
  /\ company_names_unique db /\ Forall consistent (employees db).

Definition empty_db : DB := {| companies := []; departments := []; employees := [] |}.

(** One successful request to a view that writes. *)
Inductive step (env : Env) (db : DB) : DB -> Prop :=
| step_company_create request c db' :
    CompanyViewSet_create env db request = Ok (db', c) -> step env db db'
| step_company_update request pk partial c db' :
    CompanyViewSet_update env db request pk partial = Ok (db', c) -> step env db db'
| step_company_destroy request pk db' :
    CompanyViewSet_destroy db request pk = Ok db' -> step env db db'
| step_department_create request company_pk d db' :
    DepartmentViewSet_create env db request company_pk = Ok (db', d) -> step env db db'
| step_department_update request company_pk pk partial d db' :
    DepartmentViewSet_update env db request company_pk pk partial = Ok (db', d) ->
    step env db db'
| step_department_destroy request company_pk pk db' :
    DepartmentViewSet_destroy db request company_pk pk = Ok db' -> step env db db'
| step_employee_create request company_pk e db' :
    EmployeeViewSet_create env db request company_pk = Ok (db', e) -> step env db db'
| step_employee_update today request company_pk pk partial e db' :
    EmployeeViewSet_update env db today request company_pk pk partial = Ok (db', e) ->
    step env db db'
| step_employee_update_status today request company_pk pk e db' :
    EmployeeViewSet_update_status env db today request company_pk pk = Ok (db', e) ->
    step env db db'
| step_employee_destroy request company_pk pk db' :
    EmployeeViewSet_destroy db request company_pk pk = Ok db' -> step env db db'.

(** The joined rows one department contributes, and one company. *)
Definition department_rows (db : DB) (c : Company) (d : Department)
  : list (Company * option Department * option Employee) :=
  match Department_employees db d with
  | [] => [(c, Some d, None)]
  | es => map (fun e => (c, Some d, Some e)) es
  end.

Definition company_rows (db : DB) (c : Company)
  : list (Company * option Department * option Employee) :=
  match Company_departments db c with
  | [] => [(c, None, None)]
  | ds => flat_map (department_rows db c) ds
  end.

(** The pairs along which the status may move. *)
Definition moves_along_table (before after : string) : Prop :=
  after = before
  \/ (before = value_of APPLICATION_RECEIVED
      /\ (after = value_of INTERVIEW_SCHEDULED \/ after = value_of NOT_ACCEPTED))
  \/ (before = value_of INTERVIEW_SCHEDULED
      /\ (after = value_of HIRED \/ after = value_of NOT_ACCEPTED)).

(** * Properties *)

(** ** Tools *)

Lemma bind_Ok {A B} (r : result A) (k : A -> result B) (b : B) :
  r ≫= k = Ok b -> exists a, r = Ok a /\ k a = Ok b.
Proof.
  destruct r as [a|e]; simpl; intros H; [eauto | discriminate].
Qed.

Lemma bind_Ok_l {A B} (a : A) (k : A -> result B) : Ok a ≫= k = k a.
Proof. reflexivity. Qed.

Lemma bind_Raise_l {A B} (e : exn) (k : A -> result B) : Raise e ≫= k = Raise e.
Proof. reflexivity. Qed.

Lemma check_permissions_Ok (b : bool) (u : unit) :
  check_permissions b = Ok u -> b = true.
Proof. destruct b; simpl; [reflexivity | discriminate]. Qed.

Ltac inv_bind H :=
  let a := fresh "a" in
  let Ha := fresh "Ha" in
  apply bind_Ok in H; destruct H as [a [Ha H]].

Tactic Notation "inv_bind_as" hyp(H) ident(a) ident(Ha) :=
  apply bind_Ok in H; destruct H as [a [Ha H]].

Lemma Employee_clean_Ok (self : Employee) (u : unit) :
  Employee_clean self = Ok u -> consistent self.
Proof.
  unfold Employee_clean, consistent.
  destruct (String.eqb_spec (Employee_status self) (value_of HIRED)) as [E|E];
    destruct (Employee_hired_on self) as [d|]; simpl in *; intros H;
    try discriminate; split; intros H'; congruence.
Qed.

Lemma Employee_clean_Raise (self : Employee) :
  ~ consistent self ->
  exists m, Employee_clean self = Raise (DjangoValidationError (Dict [("hired_on", Msg m)])).
Proof.
  unfold Employee_clean, consistent.
  destruct (String.eqb_spec (Employee_status self) (value_of HIRED)) as [E|E];
    destruct (Employee_hired_on self) as [d|]; simpl in *; intros H; eauto.
  - exfalso; apply H; split; intros; congruence.
  - exfalso; apply H; split; intros; congruence.
Qed.

Lemma In_replace (self : Employee) (rows : list Employee) :
  existsb (fun e => Z.eqb (Employee_id e) (Employee_id self)) rows = true ->
  In self (map (fun e => if Z.eqb (Employee_id e) (Employee_id self) then self else e) rows).
Proof.
  induction rows as [|r rows IH]; simpl; [discriminate|].
  destruct (Z.eqb (Employee_id r) (Employee_id self)); simpl; auto.
Qed.

Lemma Employee_base_save_In (db db' : DB) (self : Employee) (fi : bool) :
  Employee_base_save db self fi = Ok db' -> In self (employees db').
Proof.
  unfold Employee_base_save.
  destruct (fi && _); [discriminate|].
  destruct (existsb _ (List.filter _ _)); [discriminate|].
  intros H; injection H as <-; simpl.
  destruct (existsb _ (employees db)) eqn:E.
  - now apply In_replace.
  - now left.
Qed.

(** Every row after a base save is the saved row or a row from before. *)
Lemma Employee_base_save_rows (db db' : DB) (self : Employee) (fi : bool) :
  Employee_base_save db self fi = Ok db' ->
  forall e, In e (employees db') -> e = self \/ In e (employees db).
Proof.
  unfold Employee_base_save.
  destruct (fi && _); [discriminate|].
  destruct (existsb _ (List.filter _ _)); [discriminate|].
  intros H; injection H as <-; simpl. intros e.
  destruct (existsb _ (employees db)).
  - rewrite in_map_iff. intros [r [Hr Hin]].
    destruct (Z.eqb (Employee_id r) (Employee_id self)); subst; auto.
  - simpl. intuition.
Qed.

Lemma Employee_save_Ok (db db' : DB) (self : Employee) (fi : bool) :
  Employee_save db self fi = Ok db' ->
  consistent self /\ Employee_base_save db self fi = Ok db'.
Proof.
  unfold Employee_save. intros H. inv_bind H.
  split; [now apply Employee_clean_Ok in Ha | exact H].
Qed.

(** ** What [to_internal_value] returns *)

Lemma run_fields_notin (partial : bool) (fs : list Field) (data ret : gmap string value)
    (errs : list (string * detail)) (k : string) :
  run_fields partial fs data = Ok (ret, errs) ->
  ~ In k (map Field_name fs) ->
  ret !! k = None.
Proof.
  revert ret errs. induction fs as [|f fs IH]; simpl; intros ret errs H Hk.
  - injection H as <- <-. apply lookup_empty.
  - destruct (run_field partial f data) as [[v|[]]|]; try discriminate.
    + inv_bind H. destruct a as [ret0 errs0]. injection H as <- <-.
      rewrite lookup_insert_ne by (intros E; apply Hk; now left). eapply IH; eauto.
    + inv_bind H. destruct a as [ret0 errs0]. injection H as <- <-.
      eapply IH; eauto.
    + eapply IH; eauto.
Qed.

Lemma run_fields_outcome (partial : bool) (fs : list Field) (data ret : gmap string value)
    (errs : list (string * detail)) :
  NoDup (map Field_name fs) ->
  run_fields partial fs data = Ok (ret, errs) ->
  forall f, In f fs -> field_outcome partial f data ret errs.
Proof.
  revert ret errs. induction fs as [|f0 fs IH]; simpl; intros ret errs ND H f Hf;
    [contradiction|].
  apply NoDup_cons in ND as [Hn ND]. rewrite list_elem_of_In in Hn.
  assert (Hne : In f fs -> Field_name f0 <> Field_name f).
  { intros Hin E. apply Hn. rewrite E. now apply in_map. }
  unfold field_outcome.
  destruct (run_field partial f0 data) as [[v0|e0]|] eqn:E0.
  - inv_bind H. destruct a as [ret0 errs0]. injection H as <- <-.
    destruct Hf as [<-|Hin].
    + rewrite E0. apply lookup_insert_eq.
    + specialize (IH _ _ ND Ha f Hin). unfold field_outcome in IH.
      rewrite lookup_insert_ne by auto. exact IH.
  - destruct e0; try discriminate.
    inv_bind H. destruct a as [ret0 errs0]. injection H as <- <-.
    destruct Hf as [<-|Hin].
    + rewrite E0. split; [|now left].
      eapply run_fields_notin; eauto.
    + specialize (IH _ _ ND Ha f Hin). unfold field_outcome in IH.
      destruct (run_field partial f data) as [[v|[]]|]; simpl; intuition.
  - destruct Hf as [<-|Hin].
    + rewrite E0. eapply run_fields_notin; eauto.
    + exact (IH _ _ ND H f Hin).
Qed.

Lemma run_fields_cons (partial : bool) (f : Field) (fs : list Field)
    (data : gmap string value) :
  run_fields partial (f :: fs) data
  = match run_field partial f data with
    | None => run_fields partial fs data
    | Some (Ok v) =>
        '(ret, errors) ← run_fields partial fs data;
        Ok (<[Field_name f := v]> ret, errors)
    | Some (Raise (DRFValidationError d)) =>
        '(ret, errors) ← run_fields partial fs data;
        Ok (ret, (Field_name f, d) :: errors)
    | Some (Raise e) => Raise e
    end.
Proof. reflexivity. Qed.

Lemma to_internal_value_Ok (partial : bool) (fs : list Field)
    (data attrs : gmap string value) :
  to_internal_value partial fs data = Ok attrs ->
  run_fields partial fs data = Ok (attrs, []).
Proof.
  unfold to_internal_value. intros H. inv_bind H.
  destruct a as [ret [|err errs]]; [|discriminate].
  now injection H as <-.
Qed.

Lemma EmployeeUpdateSerializer_fields_NoDup (env : Env) (db : DB) (instance : Employee) :
  NoDup (map Field_name (EmployeeUpdateSerializer_fields env db instance)).
Proof. apply (bool_decide_unpack _). vm_compute. exact I. Qed.

Lemma EmployeeCreateSerializer_fields_NoDup (env : Env) (db : DB) :
  NoDup (map Field_name (EmployeeCreateSerializer_fields env db)).
Proof. apply (bool_decide_unpack _). vm_compute. exact I. Qed.

(** No serializer for employees has a field named [hired_on]: whatever the
    body carries under that key never reaches the validated data. *)
Lemma update_attrs_no_hired_on (env : Env) (db : DB) (instance : Employee)
    (partial : bool) (data attrs : gmap string value) :
  to_internal_value partial (EmployeeUpdateSerializer_fields env db instance) data = Ok attrs ->
  attrs !! "hired_on" = None.
Proof.
  intros H. apply to_internal_value_Ok in H.
  eapply run_fields_notin; [exact H|].
  simpl. intuition discriminate.
Qed.

Lemma create_attrs_no_hired_on (env : Env) (db : DB) (data attrs : gmap string value) :
  to_internal_value false (EmployeeCreateSerializer_fields env db) data = Ok attrs ->
  attrs !! "hired_on" = None.
Proof.
  intros H. apply to_internal_value_Ok in H.
  eapply run_fields_notin; [exact H|].
  simpl. intuition discriminate.
Qed.

(** ** The hire-date invariant on every save *)

Lemma saved_row (db db' : DB) (e : Employee) (fi : bool) :
  Employee_save db e fi = Ok db' ->
  consistent e /\ In e (employees db')
  /\ (Forall consistent (employees db) -> Forall consistent (employees db')).
Proof.
  intros H. apply Employee_save_Ok in H as [Hc Hs].
  split; [exact Hc|]. split; [eapply Employee_base_save_In; eauto|].
  rewrite !List.Forall_forall. intros Hall r Hr.
  destruct (Employee_base_save_rows _ _ _ _ Hs r Hr) as [->|Hin]; auto.
Qed.

Lemma ModelSerializer_update_Ok (db db' : DB) (instance e : Employee)
    (validated_data : gmap string value) :
  ModelSerializer_update db instance validated_data = Ok (db', e) ->
  e = Employee_setattrs instance validated_data /\ Employee_save db e false = Ok db'.
Proof.
  unfold ModelSerializer_update. intros H. inv_bind H.
  injection H as <- <-. auto.
Qed.

Lemma EmployeeUpdateSerializer_update_saved (db db' : DB) (today : Z)
    (instance e : Employee) (validated_data : gmap string value) :
  EmployeeUpdateSerializer_update db today instance validated_data = Ok (db', e) ->
  Employee_save db e false = Ok db'.
Proof.
  unfold EmployeeUpdateSerializer_update. intros H.
  now apply ModelSerializer_update_Ok in H as [_ H].
Qed.

Lemma Employee_objects_create_saved (db db' : DB) (kwargs : gmap string value)
    (e : Employee) :
  Employee_objects_create db kwargs = Ok (db', e) ->
  Employee_save db e true = Ok db'.
Proof.
  unfold Employee_objects_create.
  destruct (kwargs !! "department") as [[]|]; try discriminate.
  intros H. inv_bind H. injection H as <- <-. exact Ha.
Qed.

Lemma EmployeeViewSet_create_saved (env : Env) (db db' : DB) (request : Request)
    (company_pk : Z) (e : Employee) :
  EmployeeViewSet_create env db request company_pk = Ok (db', e) ->
  Employee_save db e true = Ok db'.
Proof.
  unfold EmployeeViewSet_create, EmployeeCreateSerializer_create.
  intros H. inv_bind H. inv_bind H. inv_bind H.
  now apply Employee_objects_create_saved in H.
Qed.

Lemma EmployeeViewSet_update_saved (env : Env) (db db' : DB) (today : Z)
    (request : Request) (company_pk pk : Z) (partial : bool) (e : Employee) :
  EmployeeViewSet_update env db today request company_pk pk partial = Ok (db', e) ->
  Employee_save db e false = Ok db'.
Proof.
  unfold EmployeeViewSet_update.
  intros H. inv_bind H. inv_bind H. inv_bind H.
  now apply EmployeeUpdateSerializer_update_saved in H.
Qed.

(** The handler of [update_status] does not declare the department key
    that the route passes. *)
Lemma call_update_status_handler {A} (body : result A) :
  call_with_kwargs "EmployeeViewSet.update_status" ["company_pk"; "pk"]
    employees_route_kwargs body
  = Raise (TypeError
             "EmployeeViewSet.update_status() got an unexpected keyword argument 'department_pk'").
Proof. reflexivity. Qed.

Lemma EmployeeViewSet_update_status_not_Ok (env : Env) (db : DB) (today : Z)
    (request : Request) (company_pk pk : Z) (r : DB * Employee) :
  EmployeeViewSet_update_status env db today request company_pk pk = Ok r -> False.
Proof.
  unfold EmployeeViewSet_update_status. intros H. inv_bind H.
  rewrite call_update_status_handler in H. discriminate.
Qed.

Lemma EmployeeViewSet_update_status_handler_saved (env : Env) (db db' : DB) (today : Z)
    (request : Request) (company_pk pk : Z) (e : Employee) :
  EmployeeViewSet_update_status_handler env db today request company_pk pk = Ok (db', e) ->
  Employee_save db e false = Ok db'.
Proof.
  unfold EmployeeViewSet_update_status_handler.
  intros H. inv_bind H. inv_bind H. inv_bind H.
  destruct (negb _); [discriminate|].
  inv_bind H.
  now apply EmployeeUpdateSerializer_update_saved in H.
Qed.

Lemma EmployeeViewSet_update_status_saved (env : Env) (db db' : DB) (today : Z)
    (request : Request) (company_pk pk : Z) (e : Employee) :
  EmployeeViewSet_update_status env db today request company_pk pk = Ok (db', e) ->
  Employee_save db e false = Ok db'.
Proof.
  intros H. now apply EmployeeViewSet_update_status_not_Ok in H.
Qed.

(** C1.  A save that succeeds stores the row exactly as it was handed in,
    and that row has [hired_on] set if and only if its status is [hired]; a
    row violating either direction makes the save raise a validation error
    on [hired_on].  Every employee that create, update, partial update and
    update_status persist went through such a save, so it satisfies the
    equivalence, is in the table afterwards, and a table whose rows all
    satisfy it keeps that property. *)
Theorem hired_on_iff_hired_on_every_save :
  (forall db self force_insert db',
      Employee_save db self force_insert = Ok db' ->
      consistent self /\ In self (employees db'))
  /\ (forall db self force_insert,
        ~ consistent self ->
        exists m, Employee_save db self force_insert
                  = Raise (DjangoValidationError (Dict [("hired_on", Msg m)])))
  /\ (forall env db today request company_pk pk partial db' e,
        EmployeeViewSet_create env db request company_pk = Ok (db', e)
        \/ EmployeeViewSet_update env db today request company_pk pk partial = Ok (db', e)
        \/ EmployeeViewSet_update_status env db today request company_pk pk = Ok (db', e) ->
        consistent e /\ In e (employees db')
        /\ (Forall consistent (employees db) -> Forall consistent (employees db'))).
Proof.
  split; [|split].
  - intros db self fi db' H. apply saved_row in H. tauto.
  - intros db self fi H. apply Employee_clean_Raise in H as [m H].
    exists m. unfold Employee_save. now rewrite H.
  - intros env db today request cpk pk partial db' e [H|[H|H]].
    + apply EmployeeViewSet_create_saved in H. now apply saved_row in H.
    + apply EmployeeViewSet_update_saved in H. now apply saved_row in H.
    + apply EmployeeViewSet_update_status_saved in H. now apply saved_row in H.
Qed.

(** Ann moves from interview to hired through a partial update. *)
Lemma hired_on_iff_hired_witness :
  let hired_ann := Employee_setattrs Example.ann
                     {[ "status" := VStr (value_of HIRED); "hired_on" := VDate Example.today ]} in
  consistent hired_ann
  /\ In hired_ann
       (employees {| companies := companies Example.db;
                     departments := departments Example.db;
                     employees := [Example.ben; hired_ann] |}).
Proof.
  intros hired_ann.
  destruct (proj2 (proj2 hired_on_iff_hired_on_every_save)
              Example.env Example.db Example.today
              (Example.request Example.mona "PATCH" {[ "status" := VStr (value_of HIRED) ]})
              1 1 true
              {| companies := companies Example.db;
                 departments := departments Example.db;
                 employees := [Example.ben; hired_ann] |}
              hired_ann) as [Hc [Hin _]].
  - right; left. vm_compute. reflexivity.
  - split; assumption.
Defined.

(** ** The transition table *)

(** C2, as the code has it.  For every current and requested status the
    validation accepts exactly the pairs of the table and every request for
    the current status.  Every other pair is rejected with a validation
    error: from [application received] or [interview scheduled] the message
    names the current and the requested status; from [hired] or
    [not accepted] it is one fixed message that does not name the requested
    status. *)
Theorem validate_status_follows_table
    (env : Env) (instance : Employee) (current requested : EmployeeStatus) :
  Employee_status instance = value_of current ->
  EmployeeUpdateSerializer_validate_status env (Some instance) (value_of requested)
  = if spec_accepts current requested then Ok (value_of requested)
    else if terminal current
    then fail "Cannot update status of already hired or not accepted employees"
    else fail ("Cannot transition from " +:+ value_of current
               +:+ " to " +:+ value_of requested).
Proof.
  intros H. unfold EmployeeUpdateSerializer_validate_status. rewrite H.
  destruct current, requested; vm_compute; reflexivity.
Qed.

Lemma validate_status_follows_table_witness :
  EmployeeUpdateSerializer_validate_status Example.env (Some Example.ann) (value_of HIRED)
  = Ok (value_of HIRED).
Proof.
  exact (validate_status_follows_table Example.env Example.ann
           INTERVIEW_SCHEDULED HIRED eq_refl).
Defined.

(** The claim as written asks that every rejection names source and target.
    Ben is hired; asking to schedule an interview for him is rejected, as the
    table says, but the message does not name the requested status. *)
Lemma terminal_rejection_does_not_name_target :
  Employee_status Example.ben = value_of HIRED
  /\ spec_accepts HIRED INTERVIEW_SCHEDULED = false
  /\ ~ (exists m,
          EmployeeUpdateSerializer_validate_status Example.env (Some Example.ben)
            (value_of INTERVIEW_SCHEDULED) = Raise (DRFValidationError (Msg m))
          /\ contains (value_of HIRED) m = true
          /\ contains (value_of INTERVIEW_SCHEDULED) m = true).
Proof.
  split; [reflexivity|]. split; [reflexivity|].
  intros [m [E [_ C]]].
  vm_compute in E. injection E as <-.
  vm_compute in C. discriminate.
Qed.

(** ** Status updates: the hire date and the frame *)

Lemma validate_status_returns_value (env : Env) (instance : option Employee)
    (value value' : string) :
  EmployeeUpdateSerializer_validate_status env instance value = Ok value' ->
  value' = value.
Proof.
  unfold EmployeeUpdateSerializer_validate_status.
  destruct (negb (str_in value status_values)); [discriminate|].
  destruct instance as [i|]; [|congruence].
  destruct (String.eqb value (Employee_status i)); [congruence|].
  destruct (str_in (Employee_status i) _); [discriminate|].
  destruct (negb (str_in value _)); [discriminate | congruence].
Qed.

Lemma ChoiceField_status_Ok (v : value) (s : string) :
  ChoiceField_status v = Ok s -> v = VStr s.
Proof.
  unfold ChoiceField_status, fail.
  destruct v as [ |s0| | | | | ]; try discriminate.
  destruct (str_in s0 _); [congruence | discriminate].
Qed.

Lemma ChoiceField_status_Raise (v : value) (e : exn) :
  ChoiceField_status v = Raise e -> exists d, e = DRFValidationError d.
Proof.
  unfold ChoiceField_status, fail.
  destruct v as [ |s0| | | | | ]; try (intros H; injection H as <-; eauto).
  destruct (str_in s0 _); [discriminate|].
  intros H; injection H as <-; eauto.
Qed.

(** The validated status is the text the body carried, and it passed the
    transition check against the instance. *)
Lemma update_attrs_status (env : Env) (db : DB) (instance : Employee) (partial : bool)
    (data attrs : gmap string value) :
  to_internal_value partial (EmployeeUpdateSerializer_fields env db instance) data = Ok attrs ->
  match data !! "status" with
  | Some (VStr s) =>
      attrs !! "status" = Some (VStr s)
      /\ EmployeeUpdateSerializer_validate_status env (Some instance) s = Ok s
  | Some _ => False
  | None => attrs !! "status" = None
  end.
Proof.
  intros H. apply to_internal_value_Ok in H.
  pose proof (run_fields_outcome _ _ _ _ _
                (EmployeeUpdateSerializer_fields_NoDup env db instance) H) as Hall.
  specialize (Hall (nth 6 (EmployeeUpdateSerializer_fields env db instance)
                       {| Field_name := EmptyString; Field_required := false;
                          Field_run := Ok |})).
  simpl nth in Hall. specialize (Hall ltac:(simpl; auto 10)).
  unfold field_outcome, run_field in Hall.
  cbn [Field_name Field_required Field_run] in Hall.
  destruct (data !! "status") as [v|]; [|destruct partial; exact Hall].
  assert (Hrun :
    match ChoiceField_status v ≫= (fun s =>
            EmployeeUpdateSerializer_validate_status env (Some instance) s
            ≫= fun s' => Ok (VStr s')) with
    | Ok v' => attrs !! "status" = Some v'
    | Raise _ => False
    end).
  { destruct v; simpl in Hall |- *; try tauto;
      destruct (_ ≫= _) as [|[]]; tauto. }
  clear Hall.
  destruct (ChoiceField_status v) as [s|e] eqn:EC; simpl in Hrun; [|contradiction].
  apply ChoiceField_status_Ok in EC as ->.
  destruct (EmployeeUpdateSerializer_validate_status env (Some instance) s)
    as [s'|e] eqn:E; simpl in Hrun; [|contradiction].
  apply validate_status_returns_value in E as E'. subst s'. auto.
Qed.

(** In a partial update a key the body does not carry is not validated. *)
Lemma run_fields_partial_absent (fs : list Field) (data ret : gmap string value)
    (errs : list (string * detail)) (k : string) :
  run_fields true fs data = Ok (ret, errs) ->
  data !! k = None ->
  ret !! k = None.
Proof.
  revert ret errs. induction fs as [|f fs IH]; simpl; intros ret errs H Hk.
  - injection H as <- <-. apply lookup_empty.
  - unfold run_field in H.
    destruct (String.eqb_spec (Field_name f) k) as [E|E].
    + rewrite E, Hk in H. eauto.
    + destruct (data !! Field_name f) as [v|]; [|eauto].
      destruct (match v with VNone => _ | _ => _ end) as [[v'|[]]|];
        try discriminate; try (eapply IH; eassumption);
        inv_bind H; destruct a as [ret0 errs0]; injection H as <- <-;
        rewrite ?lookup_insert_ne by exact E; eauto.
Qed.

Lemma stamped_lookup_ne (today : Z) (attrs : gmap string value) (k : string) :
  k <> "hired_on" ->
  (if is_hired (dict_get attrs "status")
   then <["hired_on" := VDate today]> attrs else attrs) !! k = attrs !! k.
Proof.
  intros Hk. destruct (is_hired _); [|reflexivity].
  now rewrite lookup_insert_ne.
Qed.

(** What an accepted update made of the status and the hire date. *)
Lemma update_status_and_date (env : Env) (db db' : DB) (today : Z) (request : Request)
    (instance e : Employee) (data attrs : gmap string value) (partial : bool) (s : string) :
  EmployeeUpdateSerializer_is_valid env db request instance data partial = Ok attrs ->
  EmployeeUpdateSerializer_update db today instance attrs = Ok (db', e) ->
  data !! "status" = Some (VStr s) ->
  Employee_status e = s
  /\ (s = value_of HIRED -> Employee_hired_on e = Some today)
  /\ (s <> value_of HIRED -> Employee_hired_on e = None).
Proof.
  intros Hv Hu Hs.
  unfold EmployeeUpdateSerializer_is_valid in Hv. inv_bind Hv.
  assert (attrs = a) as ->.
  { unfold EmployeeUpdateSerializer_validate in Hv.
    inv_bind Hv. inv_bind Hv. destruct (negb _); [discriminate | congruence]. }
  pose proof (update_attrs_status _ _ _ _ _ _ Ha) as Hst. rewrite Hs in Hst.
  destruct Hst as [Hst _].
  pose proof (EmployeeUpdateSerializer_update_saved _ _ _ _ _ _ Hu) as Hsave.
  apply saved_row in Hsave as [Hc _].
  unfold EmployeeUpdateSerializer_update in Hu.
  apply ModelSerializer_update_Ok in Hu as [He _].
  assert (Est : Employee_status e = s).
  { rewrite He. simpl. rewrite stamped_lookup_ne by discriminate. now rewrite Hst. }
  split; [exact Est|]. split.
  - intros ->. rewrite He. simpl.
    unfold dict_get. rewrite Hst. simpl.
    now rewrite lookup_insert_eq.
  - intros Hne. destruct (Employee_hired_on e) as [d|] eqn:Ed; [|reflexivity].
    exfalso. apply Hne. rewrite <- Est. apply Hc. congruence.
Qed.

Lemma dict_get_VStr (d : gmap string value) (k s : string) :
  dict_get d k = VStr s <-> d !! k = Some (VStr s).
Proof.
  unfold dict_get. destruct (d !! k) as [v|]; simpl; split; intros H;
    try congruence; discriminate.
Qed.

Lemma get_object_found (db : DB) (company_pk pk : Z) (employee : Employee) :
  EmployeeViewSet_get_object db company_pk pk = Ok employee ->
  In employee (employees db) /\ Employee_id employee = pk.
Proof.
  unfold EmployeeViewSet_get_object, EmployeeViewSet_get_queryset.
  destruct (find _ _) as [r|] eqn:E; [|discriminate].
  intros H; injection H as <-.
  apply find_some in E as [Hin Hid].
  apply filter_In in Hin as [Hin _].
  split; [exact Hin | now apply Z.eqb_eq].
Qed.

Lemma Employee_base_save_replace (db db' : DB) (self old : Employee) :
  Employee_base_save db self false = Ok db' ->
  In old (employees db) ->
  Employee_id self = Employee_id old ->
  companies db' = companies db
  /\ departments db' = departments db
  /\ employees db'
     = map (fun r => if Z.eqb (Employee_id r) (Employee_id self) then self else r)
         (employees db).
Proof.
  unfold Employee_base_save. simpl.
  destruct (existsb _ (List.filter _ _)); [discriminate|].
  intros H Hin Hid. injection H as <-. simpl.
  assert (E : existsb (fun e => Z.eqb (Employee_id e) (Employee_id self)) (employees db)
              = true).
  { apply existsb_exists. exists old. split; [exact Hin|]. apply Z.eqb_eq. congruence. }
  rewrite E. auto.
Qed.

(** An update stores the row under the key of the instance, and leaves the
    other rows and tables as they were. *)
Lemma EmployeeViewSet_update_stores (env : Env) (db db' : DB) (today : Z)
    (request : Request) (company_pk pk : Z) (partial : bool) (e : Employee) :
  EmployeeViewSet_update env db today request company_pk pk partial = Ok (db', e) ->
  exists instance,
    EmployeeViewSet_get_object db company_pk pk = Ok instance
    /\ Employee_id e = pk
    /\ companies db' = companies db
    /\ departments db' = departments db
    /\ employees db'
       = map (fun r => if Z.eqb (Employee_id r) pk then e else r) (employees db)
    /\ In e (employees db').
Proof.
  intros H.
  pose proof (EmployeeViewSet_update_saved _ _ _ _ _ _ _ _ _ H) as Hsave.
  apply Employee_save_Ok in Hsave as [_ Hsave].
  unfold EmployeeViewSet_update in H.
  inv_bind H. inv_bind_as H instance Hget. inv_bind_as H attrs Hv.
  exists instance. split; [exact Hget|].
  apply get_object_found in Hget as [Hin Hpk].
  unfold EmployeeUpdateSerializer_update in H.
  apply ModelSerializer_update_Ok in H as [He _].
  assert (Hid : Employee_id e = Employee_id instance) by (rewrite He; reflexivity).
  destruct (Employee_base_save_replace _ _ _ _ Hsave Hin Hid) as [Hcs [Hds Hes]].
  rewrite Hid, Hpk in Hes.
  split; [congruence|]. repeat (split; [assumption|]).
  eapply Employee_base_save_In; eauto.
Qed.

(** C3.  Whenever update or partial update (or update_status) accepts a body
    whose status is [s] (the body may carry anything else, a [hired_on]
    included), the row stored under the employee's key, the only row that
    changed, has status [s]; if [s] is [hired] its [hired_on] is the server's
    date of the day, and otherwise its [hired_on] is null.  A row with
    [hired_on] set and a status other than [hired] makes the save raise the
    validation error on [hired_on]. *)
Theorem hire_date_is_stamped_by_the_server :
  (forall env db today request company_pk pk partial db' e s,
      EmployeeViewSet_update_status env db today request company_pk pk = Ok (db', e)
      \/ EmployeeViewSet_update env db today request company_pk pk partial = Ok (db', e) ->
      Request_data request !! "status" = Some (VStr s) ->
      Employee_id e = pk
      /\ employees db'
         = map (fun r => if Z.eqb (Employee_id r) pk then e else r) (employees db)
      /\ In e (employees db')
      /\ Employee_status e = s
      /\ (s = value_of HIRED -> Employee_hired_on e = Some today)
      /\ (s <> value_of HIRED -> Employee_hired_on e = None))
  /\ (forall db self force_insert d,
        Employee_hired_on self = Some d ->
        Employee_status self <> value_of HIRED ->
        Employee_save db self force_insert
        = Raise (DjangoValidationError
                   (Dict [("hired_on",
                           Msg "Hired date should only be set when status is HIRED")]))).
Proof.
  split.
  - intros env db today request cpk pk partial db' e s [H|H] Hs.
    + now apply EmployeeViewSet_update_status_not_Ok in H.
    + destruct (EmployeeViewSet_update_stores _ _ _ _ _ _ _ _ _ H)
        as [instance [_ [Hid [_ [_ [Hes Hin]]]]]].
      repeat (split; [assumption|]).
      unfold EmployeeViewSet_update in H.
      inv_bind H. inv_bind H. inv_bind H.
      eapply update_status_and_date; eauto.
  - intros db self fi d Hd Hs. unfold Employee_save, Employee_clean.
    rewrite Hd. apply String.eqb_neq in Hs. rewrite Hs. reflexivity.
Qed.

(** The body asks for [hired] and tries to date the hire on day 5; the
    stored date is the server's. *)
Lemma hire_date_is_stamped_witness :
  let hired_ann := Employee_setattrs Example.ann
                     {[ "status" := VStr (value_of HIRED); "hired_on" := VDate Example.today ]} in
  In hired_ann [Example.ben; hired_ann]
  /\ Employee_hired_on hired_ann = Some Example.today.
Proof.
  intros hired_ann.
  destruct (proj1 hire_date_is_stamped_by_the_server
              Example.env Example.db Example.today
              (Example.request Example.mona "PATCH"
                 {[ "status" := VStr (value_of HIRED); "hired_on" := VDate 5 ]})
              1 1 true
              {| companies := companies Example.db;
                 departments := departments Example.db;
                 employees := [Example.ben; hired_ann] |}
              hired_ann (value_of HIRED))
    as [_ [_ [Hin [_ [Hd _]]]]].
  - right. vm_compute. reflexivity.
  - vm_compute. reflexivity.
  - split; [exact Hin | exact (Hd eq_refl)].
Defined.

(** ** The update_status action *)

(** What the body of the handler does when it is called with the keys it
    declares: the employee's identity, name, email, mobile, address,
    designation and department stay as they were, the hire date changes only
    when the stored status is [hired], and no other row is touched. *)
Lemma update_status_handler_changes_only_status_and_hire_date
    (env : Env) (db db' : DB) (today : Z) (request : Request) (company_pk pk : Z)
    (e : Employee) :
  EmployeeViewSet_update_status_handler env db today request company_pk pk = Ok (db', e) ->
  exists employee,
    EmployeeViewSet_get_object db company_pk pk = Ok employee
    /\ Employee_id e = Employee_id employee
    /\ Employee_name e = Employee_name employee
    /\ Employee_email e = Employee_email employee
    /\ Employee_mobile e = Employee_mobile employee
    /\ Employee_address e = Employee_address employee
    /\ Employee_designation e = Employee_designation employee
    /\ Employee_department e = Employee_department employee
    /\ (Employee_status e <> value_of HIRED ->
        Employee_hired_on e = Employee_hired_on employee)
    /\ companies db' = companies db
    /\ departments db' = departments db
    /\ employees db'
       = map (fun r => if Z.eqb (Employee_id r) (Employee_id e) then e else r)
           (employees db).
Proof.
  intros H.
  pose proof (EmployeeViewSet_update_status_handler_saved _ _ _ _ _ _ _ _ H) as Hsave.
  apply Employee_save_Ok in Hsave as [_ Hsave].
  unfold EmployeeViewSet_update_status_handler in H.
  inv_bind_as H employee Hget.
  inv_bind H. inv_bind H.
  destruct (negb _); [discriminate|]. inv_bind_as H attrs Hv.
  exists employee. split; [exact Hget|].
  apply get_object_found in Hget as [Hin _].
  unfold EmployeeUpdateSerializer_is_valid in Hv. inv_bind_as Hv a2 Ha2.
  assert (attrs = a2) as ->.
  { unfold EmployeeUpdateSerializer_validate in Hv.
    inv_bind Hv. inv_bind Hv. destruct (negb _); [discriminate | congruence]. }
  pose proof (update_attrs_no_hired_on _ _ _ _ _ _ Ha2) as Hho.
  pose proof (update_attrs_status _ _ _ _ _ _ Ha2) as Hst.
  apply to_internal_value_Ok in Ha2.
  assert (Habs : forall k, k <> "status" -> a2 !! k = None).
  { intros k Hk. eapply run_fields_partial_absent; [exact Ha2|].
    now apply lookup_singleton_ne. }
  unfold EmployeeUpdateSerializer_update in H.
  apply ModelSerializer_update_Ok in H as [He _].
  assert (Hid : Employee_id e = Employee_id employee) by (rewrite He; reflexivity).
  split; [exact Hid|].
  repeat match goal with
         | |- _ = _ /\ _ =>
             split; [rewrite He; simpl; rewrite stamped_lookup_ne by discriminate;
                     rewrite Habs by discriminate; reflexivity|]
         end.
  split.
  - intros Hne. rewrite He in Hne |- *. simpl in Hne |- *.
    rewrite stamped_lookup_ne in Hne by discriminate.
    rewrite lookup_singleton_eq in Hst.
    destruct (dict_get (Request_data request) "status"); try contradiction.
    destruct Hst as [Hst _]. rewrite Hst in Hne. simpl in Hne.
    unfold dict_get. rewrite Hst. simpl.
    apply String.eqb_neq in Hne. rewrite Hne. now rewrite Hho.
  - eapply Employee_base_save_replace; eauto.
Qed.

(** C10, where the code departs from it.  A request to update_status that
    passes the permission check of the view never reaches the body of the
    handler: the route passes the department key as a keyword argument, the
    handler declares only the company key and the employee key, and the call
    raises [TypeError], a server error.  No status update is accepted through
    this action, and the store is left as it was. *)
Theorem update_status_route_raises_TypeError
    (env : Env) (db : DB) (today : Z) (request : Request) (company_pk pk : Z) :
  IsCompanyManager_has_permission db request company_pk = true ->
  EmployeeViewSet_update_status env db today request company_pk pk
  = Raise (TypeError
             "EmployeeViewSet.update_status() got an unexpected keyword argument 'department_pk'")
  /\ status_code
       (TypeError
          "EmployeeViewSet.update_status() got an unexpected keyword argument 'department_pk'")
     = 500.
Proof.
  intros Hperm. split; [|reflexivity].
  unfold EmployeeViewSet_update_status. rewrite Hperm. simpl check_permissions.
  rewrite bind_Ok_l. apply call_update_status_handler.
Qed.

(** Mona sends Ann's next status to the action. *)
Lemma update_status_route_witness :
  EmployeeViewSet_update_status Example.env Example.db Example.today
    (Example.request Example.mona "POST" {[ "status" := VStr (value_of HIRED) ]}) 1 1
  = Raise (TypeError
             "EmployeeViewSet.update_status() got an unexpected keyword argument 'department_pk'")
  /\ status_code
       (TypeError
          "EmployeeViewSet.update_status() got an unexpected keyword argument 'department_pk'")
     = 500.
Proof.
  apply (update_status_route_raises_TypeError Example.env Example.db Example.today
           (Example.request Example.mona "POST" {[ "status" := VStr (value_of HIRED) ]})
           1 1).
  reflexivity.
Defined.

(** Called with the keys it declares, the handler would carry the change
    out. *)
Example update_status_handler_on_declared_keys :
  exists db' e,
    EmployeeViewSet_update_status_handler Example.env Example.db Example.today
      (Example.request Example.mona "POST" {[ "status" := VStr (value_of HIRED) ]}) 1 1
    = Ok (db', e)
    /\ Employee_status e = value_of HIRED
    /\ Employee_hired_on e = Some Example.today.
Proof. eexists _, _. vm_compute. repeat split. Qed.

(** ** Transfers between departments *)

Lemma validation_only_Ok {A} (a : A) : validation_only (Ok a).
Proof. intros e H; discriminate. Qed.

Lemma validation_only_fail {A} (m : string) : validation_only (@fail A m).
Proof. intros e H; injection H as <-; eauto. Qed.

Lemma validation_only_bind {A B} (r : result A) (k : A -> result B) :
  validation_only r -> (forall a, validation_only (k a)) -> validation_only (r ≫= k).
Proof.
  intros Hr Hk e. destruct r as [a|e']; simpl.
  - apply Hk.
  - intros H; injection H as <-. now apply Hr.
Qed.

Lemma validation_only_of_sum (r : detail + string) : validation_only (of_sum r).
Proof. destruct r; intros e H; [injection H as <-; eauto | discriminate]. Qed.

Lemma validation_only_validate_status (env : Env) (instance : option Employee)
    (value : string) :
  validation_only (EmployeeUpdateSerializer_validate_status env instance value).
Proof.
  unfold EmployeeUpdateSerializer_validate_status, invalid_status, fail.
  intros e. repeat (destruct (negb _) || destruct (String.eqb _ _)
                    || destruct (str_in _ _) || destruct instance);
    intros H; try discriminate; injection H as <-; eauto.
Qed.

Lemma run_fields_validation_only (partial : bool) (fs : list Field)
    (data : gmap string value) :
  (forall f v, In f fs -> validation_only (Field_run f v)) ->
  exists ret errs, run_fields partial fs data = Ok (ret, errs).
Proof.
  induction fs as [|f fs IH]; simpl; intros Hall; [eauto|].
  destruct IH as [ret [errs IH]]; [intros; apply Hall; auto|].
  assert (Hf : forall r, run_field partial f data = Some r -> validation_only r).
  { unfold run_field. intros r.
    destruct (data !! Field_name f) as [v|].
    - destruct v; intros H; injection H as <-;
        try (apply Hall; now left); apply validation_only_fail.
    - destruct partial; [discriminate|].
      destruct (Field_required f); [|discriminate].
      intros H; injection H as <-. apply validation_only_fail. }
  destruct (run_field partial f data) as [[v|e]|]; rewrite ?IH; simpl; eauto.
  destruct (Hf _ eq_refl e eq_refl) as [d ->]. simpl. eauto.
Qed.

(** The fields of the update serializer after [department]. *)
Lemma update_fields_after_department (env : Env) (db : DB) (instance : Employee)
    (partial : bool) (data : gmap string value) :
  exists ret errs,
    run_fields partial (tl (EmployeeUpdateSerializer_fields env db instance)) data
    = Ok (ret, errs).
Proof.
  apply run_fields_validation_only. simpl.
  intros f v [<-|[<-|[<-|[<-|[<-|[<-|[]]]]]]]; simpl.
  - apply validation_only_of_sum.
  - apply validation_only_bind; [apply validation_only_of_sum|].
    intros [ |m| | | | | ]; try apply validation_only_Ok.
    apply validation_only_bind.
    { unfold UniqueValidator_email. destruct (existsb _ _);
        [apply validation_only_fail | apply validation_only_Ok]. }
    intros _. apply validation_only_bind; [|intros; apply validation_only_Ok].
    unfold EmployeeUpdateSerializer_validate_email. destruct (existsb _ _);
      [apply validation_only_fail | apply validation_only_Ok].
  - unfold MobileField. apply validation_only_bind; [apply validation_only_of_sum|].
    intros [ |m| | | | | ]; try apply validation_only_Ok.
    destruct (mobile_regex m); [apply validation_only_Ok | apply validation_only_fail].
  - apply validation_only_of_sum.
  - apply validation_only_of_sum.
  - apply validation_only_bind.
    { intros e H. now apply ChoiceField_status_Raise in H. }
    intros s. apply validation_only_bind; [|intros; apply validation_only_Ok].
    apply validation_only_validate_status.
Qed.

Lemma run_field_present (partial : bool) (f : Field) (data : gmap string value)
    (v : value) :
  data !! Field_name f = Some v ->
  v <> VNone ->
  run_field partial f data = Some (Field_run f v).
Proof.
  unfold run_field. intros -> Hv. destruct v; congruence.
Qed.

Lemma PrimaryKeyRelatedField_department_not_null (env : Env) (db : DB) (v : value)
    (d : Department) :
  PrimaryKeyRelatedField_department env db v = Ok d -> v <> VNone.
Proof. intros H ->. discriminate H. Qed.

Lemma PrimaryKeyRelatedField_department_get (env : Env) (db : DB) (v : value) (pk : Z)
    (d : Department) :
  pk_value env v = Some pk ->
  get_department db pk = Ok d ->
  PrimaryKeyRelatedField_department env db v = Ok d.
Proof.
  unfold get_department, PrimaryKeyRelatedField_department. intros ->.
  destruct (find _ _); [congruence | discriminate].
Qed.

Lemma PrimaryKeyRelatedField_department_Ok (env : Env) (db : DB) (v : value)
    (d : Department) :
  PrimaryKeyRelatedField_department env db v = Ok d ->
  exists pk, pk_value env v = Some pk /\ get_department db pk = Ok d /\ Department_id d = pk.
Proof.
  unfold PrimaryKeyRelatedField_department, get_department.
  destruct (pk_value env v) as [pk|]; [|discriminate].
  destruct (find _ _) as [d'|] eqn:E; [|discriminate].
  intros H; injection H as <-. exists pk. split; [reflexivity|].
  split; [now rewrite E|].
  apply find_some in E as [_ E]. now apply Z.eqb_eq.
Qed.

Lemma validate_department_Ok (db : DB) (instance : Employee) (value value' : Department) :
  EmployeeUpdateSerializer_validate_department db instance value = Ok value' ->
  value' = value
  /\ exists cur c c',
       Employee_department_obj db instance = Ok cur
       /\ Department_company_obj db value = Ok c
       /\ Department_company_obj db cur = Ok c'
       /\ Company_id c = Company_id c'.
Proof.
  unfold EmployeeUpdateSerializer_validate_department. intros H.
  inv_bind H. inv_bind H. inv_bind H.
  destruct (Z.eqb_spec (Company_id a) (Company_id a1)) as [E|E]; simpl in H;
    [|discriminate].
  injection H as <-. split; [reflexivity|]. eauto 10.
Qed.

Lemma Employee_base_save_tables (db db' : DB) (self : Employee) (fi : bool) :
  Employee_base_save db self fi = Ok db' ->
  companies db' = companies db /\ departments db' = departments db.
Proof.
  unfold Employee_base_save.
  destruct (fi && _); [discriminate|].
  destruct (existsb _ (List.filter _ _)); [discriminate|].
  intros H; injection H as <-. auto.
Qed.

Lemma Employee_company_tables (db db' : DB) (e : Employee) :
  companies db' = companies db ->
  departments db' = departments db ->
  Employee_company db' e = Employee_company db e.
Proof.
  unfold Employee_company, Employee_department_obj, Department_company_obj,
    get_department, get_company.
  now intros -> ->.
Qed.

(** The validated department of an accepted update. *)
Lemma update_attrs_department (env : Env) (db : DB) (instance : Employee) (partial : bool)
    (data attrs : gmap string value) (v : value) :
  to_internal_value partial (EmployeeUpdateSerializer_fields env db instance) data = Ok attrs ->
  data !! "department" = Some v ->
  exists dest,
    attrs !! "department" = Some (VDepartment dest)
    /\ PrimaryKeyRelatedField_department env db v = Ok dest
    /\ EmployeeUpdateSerializer_validate_department db instance dest = Ok dest.
Proof.
  intros H Hd. apply to_internal_value_Ok in H.
  pose proof (run_fields_outcome _ _ _ _ _
                (EmployeeUpdateSerializer_fields_NoDup env db instance) H) as Hall.
  specialize (Hall (nth 0 (EmployeeUpdateSerializer_fields env db instance)
                       {| Field_name := EmptyString; Field_required := false;
                          Field_run := Ok |})).
  simpl nth in Hall. specialize (Hall ltac:(simpl; auto)).
  unfold field_outcome, run_field in Hall.
  cbn [Field_name Field_required Field_run] in Hall. rewrite Hd in Hall.
  assert (Hrun :
    match PrimaryKeyRelatedField_department env db v ≫= (fun d =>
            EmployeeUpdateSerializer_validate_department db instance d
            ≫= fun d' => Ok (VDepartment d')) with
    | Ok v' => attrs !! "department" = Some v'
    | Raise _ => False
    end).
  { destruct v; simpl in Hall |- *; try tauto;
      destruct (_ ≫= _) as [|[]]; tauto. }
  clear Hall.
  destruct (PrimaryKeyRelatedField_department env db v) as [d|] eqn:E1; simpl in Hrun;
    [|contradiction].
  destruct (EmployeeUpdateSerializer_validate_department db instance d) as [d'|] eqn:E2;
    simpl in Hrun; [|contradiction].
  apply validate_department_Ok in E2 as E3. destruct E3 as [-> _].
  exists d. auto.
Qed.

Lemma run_fields_partial_skip (fs : list Field) (data : gmap string value) :
  (forall f, In f fs -> data !! Field_name f = None) ->
  run_fields true fs data = Ok (∅, []).
Proof.
  induction fs as [|f fs IH]; intros Hall; [reflexivity|].
  rewrite run_fields_cons. unfold run_field.
  rewrite (Hall f) by now left.
  apply IH. intros; apply Hall; now right.
Qed.

Lemma Employee_clean_consistent (self : Employee) :
  consistent self -> Employee_clean self = Ok tt.
Proof.
  intros H. destruct (Employee_clean self) as [[]|e] eqn:E; [reflexivity|].
  exfalso. unfold Employee_clean, consistent in *.
  destruct (String.eqb_spec (Employee_status self) (value_of HIRED)) as [Es|Es];
    destruct (Employee_hired_on self) as [d|]; simpl in *; try discriminate.
  - apply (proj2 H); auto.
  - apply Es, H. discriminate.
Qed.

(** A partial update that names only a department of the same company, by
    the company's manager, on a consistent row whose email no other row
    carries, is carried out. *)
Lemma same_company_transfer_succeeds (env : Env) (db : DB) (today : Z) (request : Request)
    (company_pk pk : Z) (v : value) (employee : Employee) (dest cur : Department)
    (c c' : Company) :
  IsCompanyManager_has_permission db request company_pk = true ->
  EmployeeViewSet_get_object db company_pk pk = Ok employee ->
  Request_data request = {[ "department" := v ]} ->
  PrimaryKeyRelatedField_department env db v = Ok dest ->
  Employee_department_obj db employee = Ok cur ->
  Department_company_obj db dest = Ok c ->
  Department_company_obj db cur = Ok c' ->
  Company_id c = Company_id c' ->
  Company_manager c' = CustomUser_id (Request_user request) ->
  consistent employee ->
  (forall r, In r (employees db) -> Employee_id r <> Employee_id employee ->
             Employee_email r <> Employee_email employee) ->
  exists db',
    EmployeeViewSet_update env db today request company_pk pk true
    = Ok (db', moved_to employee dest)
    /\ employees db'
       = map (fun r => if Z.eqb (Employee_id r) pk then moved_to employee dest else r)
           (employees db)
    /\ In (moved_to employee dest) (employees db')
    /\ Employee_company db' (moved_to employee dest) = Ok c.
Proof.
  intros Hperm Hget Hdata Hpk Hcur Hc Hc' Heq Hman Hcons Hmail.
  assert (Hattrs :
    to_internal_value true (EmployeeUpdateSerializer_fields env db employee)
      (Request_data request) = Ok (<["department" := VDepartment dest]> ∅)).
  { unfold to_internal_value, EmployeeUpdateSerializer_fields.
    rewrite run_fields_cons, Hdata.
    rewrite (run_field_present _ _ _ v);
      [|cbn [Field_name]; apply lookup_singleton_eq
       |eapply PrimaryKeyRelatedField_department_not_null; eauto].
    cbn [Field_name Field_required Field_run].
    rewrite Hpk.
    unfold EmployeeUpdateSerializer_validate_department.
    rewrite bind_Ok_l, Hc, bind_Ok_l, Hcur, bind_Ok_l, Hc', bind_Ok_l.
    rewrite Heq, Z.eqb_refl. simpl negb. cbv iota. rewrite !bind_Ok_l.
    rewrite run_fields_partial_skip; [reflexivity|].
    simpl. intros f [<-|[<-|[<-|[<-|[<-|[<-|[]]]]]]]; reflexivity. }
  assert (Hmanages : manages db (Request_user request) (Company_id c') = true).
  { unfold manages, User_companies. apply existsb_exists. exists c'.
    split; [|apply Z.eqb_refl]. apply filter_In. split; [|now apply Z.eqb_eq].
    unfold Department_company_obj, get_company in Hc'.
    destruct (find _ _) as [x|] eqn:E; [|discriminate].
    injection Hc' as ->. now apply find_some in E as [E _]. }
  assert (Hclash :
    existsb (fun e => String.eqb (Employee_email e)
                        (Employee_email (moved_to employee dest)))
      (List.filter (fun e => negb (Z.eqb (Employee_id e)
                                     (Employee_id (moved_to employee dest))))
         (employees db)) = false).
  { apply not_true_is_false. intros H. apply existsb_exists in H as [r [Hr He]].
    apply filter_In in Hr as [Hr Hid]. apply String.eqb_eq in He.
    apply negb_true_iff, Z.eqb_neq in Hid. exact (Hmail r Hr Hid He). }
  assert (Hup : exists db',
             EmployeeViewSet_update env db today request company_pk pk true
             = Ok (db', moved_to employee dest)).
  { eexists.
    unfold EmployeeViewSet_update. rewrite Hperm, Hget. simpl check_permissions.
    rewrite !bind_Ok_l.
    unfold EmployeeUpdateSerializer_is_valid. rewrite Hattrs, bind_Ok_l.
    unfold EmployeeUpdateSerializer_validate.
    rewrite Hcur, bind_Ok_l, Hc', bind_Ok_l, Hmanages. simpl negb. cbv iota.
    rewrite bind_Ok_l.
    unfold EmployeeUpdateSerializer_update, ModelSerializer_update.
    change (Employee_setattrs employee _) with (moved_to employee dest).
    unfold Employee_save.
    rewrite (Employee_clean_consistent (moved_to employee dest)) by exact Hcons.
    rewrite bind_Ok_l. unfold Employee_base_save. rewrite Hclash.
    simpl andb. cbv iota. rewrite bind_Ok_l. reflexivity. }
  destruct Hup as [db' Hup]. exists db'. split; [exact Hup|].
  destruct (EmployeeViewSet_update_stores _ _ _ _ _ _ _ _ _ Hup)
    as [_ [_ [_ [Hcs [Hds [Hes Hin]]]]]].
  repeat (split; [assumption|]).
  rewrite (Employee_company_tables _ _ _ Hcs Hds).
  apply PrimaryKeyRelatedField_department_Ok in Hpk as [dpk [_ [Hgd Hid]]].
  unfold Employee_company, Employee_department_obj. simpl.
  rewrite Hid, Hgd. exact Hc.
Qed.

(** C8.  (1) An update or partial update whose body names a department, by
    its key as a number or as text, is accepted only when that department
    exists and its company is the company of the employee's current
    department; the row stored under the employee's key, the only row that
    changed, then belongs to the named department and its derived company is
    that department's.  (2) When the named department's company differs, the
    request is refused with a validation error whose [department] entry is
    the cross-company message, whatever else the body holds.  (3) A partial
    update naming only a department of the same company, sent by the
    company's manager for a consistent row with an email of its own,
    succeeds: the employee is stored in the new department and its derived
    company is that department's. *)
Theorem transfer_only_within_company :
  (forall env db today request company_pk pk partial db' e v,
      EmployeeViewSet_update env db today request company_pk pk partial = Ok (db', e) ->
      Request_data request !! "department" = Some v ->
      exists employee dest cur c c',
        EmployeeViewSet_get_object db company_pk pk = Ok employee
        /\ PrimaryKeyRelatedField_department env db v = Ok dest
        /\ pk_value env v = Some (Department_id dest)
        /\ In dest (departments db)
        /\ Employee_department_obj db employee = Ok cur
        /\ Department_company_obj db dest = Ok c
        /\ Department_company_obj db cur = Ok c'
        /\ Company_id c = Company_id c'
        /\ Employee_id e = pk
        /\ employees db'
           = map (fun r => if Z.eqb (Employee_id r) pk then e else r) (employees db)
        /\ In e (employees db')
        /\ Employee_department e = Department_id dest
        /\ Employee_company db' e = Ok c)
  /\ (forall env db today request company_pk pk partial employee v dest cur c c',
        IsCompanyManager_has_permission db request company_pk = true ->
        EmployeeViewSet_get_object db company_pk pk = Ok employee ->
        Request_data request !! "department" = Some v ->
        PrimaryKeyRelatedField_department env db v = Ok dest ->
        Employee_department_obj db employee = Ok cur ->
        Department_company_obj db dest = Ok c ->
        Department_company_obj db cur = Ok c' ->
        Company_id c <> Company_id c' ->
        exists errs,
          EmployeeViewSet_update env db today request company_pk pk partial
          = Raise (DRFValidationError
                     (Dict (("department",
                             Msg "Cannot transfer employee to a department in a different company")
                            :: errs))))
  /\ (forall env db today request company_pk pk v employee dest cur c c',
        IsCompanyManager_has_permission db request company_pk = true ->
        EmployeeViewSet_get_object db company_pk pk = Ok employee ->
        Request_data request = {[ "department" := v ]} ->
        PrimaryKeyRelatedField_department env db v = Ok dest ->
        Employee_department_obj db employee = Ok cur ->
        Department_company_obj db dest = Ok c ->
        Department_company_obj db cur = Ok c' ->
        Company_id c = Company_id c' ->
        Company_manager c' = CustomUser_id (Request_user request) ->
        consistent employee ->
        (forall r, In r (employees db) -> Employee_id r <> Employee_id employee ->
                   Employee_email r <> Employee_email employee) ->
        exists db',
          EmployeeViewSet_update env db today request company_pk pk true
          = Ok (db', moved_to employee dest)
          /\ employees db'
             = map (fun r => if Z.eqb (Employee_id r) pk
                             then moved_to employee dest else r)
                 (employees db)
          /\ In (moved_to employee dest) (employees db')
          /\ Employee_company db' (moved_to employee dest) = Ok c).
Proof.
  split; [|split]; [| |intros; eapply same_company_transfer_succeeds; eauto].
  - intros env db today request cpk pk partial db' e v H Hd.
    destruct (EmployeeViewSet_update_stores _ _ _ _ _ _ _ _ _ H)
      as [employee [Hget [Hide [Hc [Hds [Hes Hin]]]]]].
    unfold EmployeeViewSet_update in H.
    inv_bind H. inv_bind_as H employee0 Hget0.
    assert (employee0 = employee) as -> by congruence. clear Hget0.
    inv_bind_as H attrs Hv.
    unfold EmployeeUpdateSerializer_is_valid in Hv. inv_bind_as Hv attrs0 Hti.
    assert (attrs = attrs0) as ->.
    { unfold EmployeeUpdateSerializer_validate in Hv.
      inv_bind Hv. inv_bind Hv. destruct (negb _); [discriminate | congruence]. }
    destruct (update_attrs_department _ _ _ _ _ _ _ Hti Hd) as [dest [Hat [Hpk Hvd]]].
    destruct (PrimaryKeyRelatedField_department_Ok _ _ _ _ Hpk) as [dpk [Hpv [Hgd Hid]]].
    apply validate_department_Ok in Hvd as [_ [cur [c [c' [Hcur [Hcd [Hcc Heq]]]]]]].
    unfold EmployeeUpdateSerializer_update in H.
    apply ModelSerializer_update_Ok in H as [He _].
    assert (Hdep : Employee_department e = Department_id dest).
    { rewrite He. simpl. rewrite stamped_lookup_ne by discriminate. now rewrite Hat. }
    exists employee, dest, cur, c, c'. subst dpk.
    assert (Hind : In dest (departments db)).
    { unfold get_department in Hgd.
      destruct (find _ _) as [x|] eqn:E; [|discriminate].
      injection Hgd as ->. now apply find_some in E as [E _]. }
    repeat (split; [assumption|]).
    rewrite (Employee_company_tables _ _ _ Hc Hds).
    unfold Employee_company, Employee_department_obj. rewrite Hdep, Hgd. exact Hcd.
  - intros env db today request cpk pk partial employee v dest cur c c'
      Hperm Hget Hd Hpk Hcur Hc Hc' Hne.
    destruct (update_fields_after_department env db employee partial (Request_data request))
      as [ret [errs Hrest]].
    exists errs.
    unfold EmployeeViewSet_update. rewrite Hperm, Hget. simpl.
    unfold EmployeeUpdateSerializer_is_valid, to_internal_value.
    unfold EmployeeUpdateSerializer_fields in Hrest |- *. simpl tl in Hrest.
    rewrite run_fields_cons.
    rewrite (run_field_present _ _ _ v);
      [|exact Hd|eapply PrimaryKeyRelatedField_department_not_null; eauto].
    cbn [Field_name Field_required Field_run].
    rewrite Hpk.
    unfold EmployeeUpdateSerializer_validate_department.
    rewrite bind_Ok_l, Hc, bind_Ok_l, Hcur, bind_Ok_l, Hc', bind_Ok_l.
    apply Z.eqb_neq in Hne. rewrite Hne. simpl negb. cbv iota.
    unfold fail at 1. rewrite bind_Raise_l.
    rewrite Hrest. reflexivity.
Qed.

(** Ann moves from Eng to Ops, both departments of Acme; the request names
    Ops by its key sent as text. *)
Lemma transfer_within_company_witness :
  exists db',
    EmployeeViewSet_update Example.env Example.db Example.today
      (Example.request Example.mona "PATCH" {[ "department" := VStr "2" ]}) 1 1 true
    = Ok (db', moved_to Example.ann Example.ops)
    /\ employees db'
       = map (fun r => if Z.eqb (Employee_id r) 1
                       then moved_to Example.ann Example.ops else r)
           (employees Example.db)
    /\ In (moved_to Example.ann Example.ops) (employees db')
    /\ Employee_company db' (moved_to Example.ann Example.ops) = Ok Example.acme.
Proof.
  apply (proj2 (proj2 transfer_only_within_company)
           Example.env Example.db Example.today
           (Example.request Example.mona "PATCH" {[ "department" := VStr "2" ]})
           1 1 (VStr "2") Example.ann Example.ops Example.eng Example.acme Example.acme);
    try reflexivity.
  - unfold consistent. simpl. split; intros H; [congruence | discriminate].
  - simpl. intros r [<-|[<-|[]]]; simpl; intros H; [discriminate | congruence].
Defined.

(** Moving Ann to Lab, a department of Bolt, is refused. *)
Example transfer_across_companies_refused :
  EmployeeViewSet_update Example.env Example.db Example.today
    (Example.request Example.mona "PATCH" {[ "department" := VInt 3 ]}) 1 1 true
  = Raise (DRFValidationError
             (Dict [("department",
                     Msg "Cannot transfer employee to a department in a different company")])).
Proof. vm_compute. reflexivity. Qed.

(** ** Creating employees *)

(** An employee the create endpoint stored has no hire date and is not
    hired. *)
Lemma created_employee_has_no_hire_date (env : Env) (db db' : DB) (request : Request)
    (company_pk : Z) (e : Employee) :
  EmployeeViewSet_create env db request company_pk = Ok (db', e) ->
  Employee_hired_on e = None /\ Employee_status e <> value_of HIRED.
Proof.
  intros H.
  pose proof (EmployeeViewSet_create_saved _ _ _ _ _ _ H) as Hsave.
  apply saved_row in Hsave as [Hc _].
  unfold EmployeeViewSet_create in H. inv_bind H. inv_bind_as H attrs Hv.
  unfold EmployeeCreateSerializer_is_valid in Hv. inv_bind_as Hv attrs0 Hti.
  assert (attrs = attrs0) as ->.
  { unfold EmployeeCreateSerializer_validate in Hv.
    inv_bind Hv. destruct (negb _); [discriminate|].
    inv_bind Hv. inv_bind Hv.
    destruct a1; try discriminate; destruct a2; try discriminate.
    destruct (negb _); [discriminate|]. destruct (negb _); [discriminate|]. congruence. }
  apply create_attrs_no_hired_on in Hti.
  unfold EmployeeCreateSerializer_create in H. inv_bind H.
  unfold Employee_objects_create in H.
  destruct (delete "company" attrs0 !! "department") as [[]|]; try discriminate.
  inv_bind H. injection H as _ <-.
  assert (Hn : Employee_hired_on
                 {| Employee_id := fresh_id (map Employee_id (employees db));
                    Employee_department := Department_id d;
                    Employee_name := str_or EmptyString (delete "company" attrs0 !! "name");
                    Employee_status :=
                      str_or (value_of APPLICATION_RECEIVED)
                        (delete "company" attrs0 !! "status");
                    Employee_email := str_or EmptyString (delete "company" attrs0 !! "email");
                    Employee_mobile := str_or EmptyString (delete "company" attrs0 !! "mobile");
                    Employee_address :=
                      str_or EmptyString (delete "company" attrs0 !! "address");
                    Employee_designation :=
                      str_or EmptyString (delete "company" attrs0 !! "designation");
                    Employee_hired_on :=
                      match delete "company" attrs0 !! "hired_on" with
                      | Some (VDate d0) => Some d0
                      | _ => None
                      end |} = None).
  { simpl. rewrite lookup_delete_ne by discriminate. now rewrite Hti. }
  split; [exact Hn|].
  intros Hs. apply Hc in Hs. contradiction.
Qed.

(** C7, where the code departs from it.  A creation request that passes
    the permission check, whose fields all validate, and whose body has no
    [status], does not create an employee with the default status: the
    serializer's [validate] reads [attrs["status"]], which is absent, and the
    [KeyError] leaves the view as a server error. *)
Theorem create_without_status_raises_KeyError
    (env : Env) (db : DB) (request : Request) (company_pk : Z)
    (attrs : gmap string value) :
  IsCompanyManager_has_permission db request company_pk = true ->
  to_internal_value false (EmployeeCreateSerializer_fields env db) (Request_data request)
  = Ok attrs ->
  Request_data request !! "status" = None ->
  EmployeeViewSet_create env db request company_pk = Raise (KeyError "status")
  /\ status_code (KeyError "status") = 500.
Proof.
  intros Hperm Hattrs Hst. split; [|reflexivity].
  unfold EmployeeViewSet_create, EmployeeCreateSerializer_is_valid.
  rewrite Hperm, Hattrs. simpl check_permissions. rewrite !bind_Ok_l.
  apply to_internal_value_Ok in Hattrs.
  pose proof (run_fields_outcome _ _ _ _ _
                (EmployeeCreateSerializer_fields_NoDup env db) Hattrs) as Hall.
  specialize (Hall (nth 7 (EmployeeCreateSerializer_fields env db)
                       {| Field_name := EmptyString; Field_required := false;
                          Field_run := Ok |})).
  simpl nth in Hall. specialize (Hall ltac:(simpl; auto 10)).
  unfold field_outcome, run_field in Hall.
  cbn [Field_name Field_required Field_run] in Hall. rewrite Hst in Hall.
  unfold EmployeeCreateSerializer_validate, getitem. now rewrite Hall.
Qed.

Lemma create_without_status_witness :
  EmployeeViewSet_create Example.env Example.db
    (Example.request Example.mona "POST" Example.new_hire_body) 1
  = Raise (KeyError "status")
  /\ status_code (KeyError "status") = 500.
Proof.
  eapply (create_without_status_raises_KeyError Example.env Example.db
            (Example.request Example.mona "POST" Example.new_hire_body) 1).
  - reflexivity.
  - vm_compute. reflexivity.
  - reflexivity.
Defined.

(** The same body with a status is stored, without a hire date. *)
Example create_with_status_is_stored :
  exists db' e,
    EmployeeViewSet_create Example.env Example.db
      (Example.request Example.mona "POST"
         (<["status" := VStr (value_of APPLICATION_RECEIVED)]> Example.new_hire_body)) 1
    = Ok (db', e)
    /\ Employee_status e = value_of APPLICATION_RECEIVED
    /\ Employee_hired_on e = None.
Proof. eexists _, _. vm_compute. repeat split. Qed.

(** Asking for [hired] at creation is refused by the model's [clean], with
    the model layer's validation error: it is not the framework's, and leaves
    the view as a server error as well. *)
Example create_hired_is_a_server_error :
  exists d,
    EmployeeViewSet_create Example.env Example.db
      (Example.request Example.mona "POST"
         (<["status" := VStr (value_of HIRED)]> Example.new_hire_body)) 1
    = Raise (DjangoValidationError d)
    /\ status_code (DjangoValidationError d) = 500.
Proof. eexists. vm_compute. split; reflexivity. Qed.

(** ** Department names within a company *)

Lemma fresh_id_cons (x : Z) (ids : list Z) :
  x = fresh_id ids -> fresh_id (x :: ids) <> x.
Proof. unfold fresh_id. simpl. lia. Qed.

(** C4, where the code departs from it.  The second [class Meta] in the
    body of [Department] replaces the first, so the model's options carry no
    unique constraint; the store then accepts a second department with the
    same company and the same name.  The only check left is the serializer's
    look-up before the insert: a request validated before another one's
    insert, and saved after it, is stored as a duplicate. *)
Theorem department_name_not_unique_in_store :
  constraints Department_meta = []
  /\ (forall db company name,
        exists db1 d1 db2 d2,
          Department_objects_create db company name = Ok (db1, d1)
          /\ Department_objects_create db1 company name = Ok (db2, d2)
          /\ In d1 (departments db2) /\ In d2 (departments db2)
          /\ Department_id d1 <> Department_id d2
          /\ Department_company d1 = Department_company d2
          /\ Department_name d1 = Department_name d2)
  /\ (let request := Example.request Example.omar "POST"
                       {[ "name" := VStr "Eng"; "company" := VInt 2 ]} in
      let db := {| companies := [Example.bolt];
                   departments := [];
                   employees := [] |} in
      exists attrs db1 d1 db2 d2,
        DepartmentCreateSerializer_is_valid Example.env db request (Request_data request)
        = Ok attrs
        /\ DepartmentCreateSerializer_create db attrs = Ok (db1, d1)
        /\ DepartmentCreateSerializer_is_valid Example.env db1 request (Request_data request)
           = fail "Department name must be unique within company"
        /\ DepartmentCreateSerializer_create db1 attrs = Ok (db2, d2)
        /\ departments db2
           = [ {| Department_id := 2; Department_company := 2; Department_name := "Eng" |};
               {| Department_id := 1; Department_company := 2; Department_name := "Eng" |} ]).
Proof.
  split; [reflexivity|]. split.
  - intros db company name.
    unfold Department_objects_create.
    replace (constraints Department_meta) with (@nil UniqueConstraint) by reflexivity.
    simpl. eexists _, _, _, _. repeat split; simpl; auto.
    apply not_eq_sym, fresh_id_cons. reflexivity.
  - intros request db. eexists _, _, _, _, _. vm_compute. repeat split.
Qed.

(** ** Who sees which companies *)

Lemma IsCompanyManager_has_permission_true (db : DB) (request : Request) (company_pk : Z) :
  IsCompanyManager_has_permission db request company_pk = true ->
  exists c, In c (companies db) /\ Company_id c = company_pk
            /\ Company_manager c = CustomUser_id (Request_user request).
Proof.
  unfold IsCompanyManager_has_permission. intros H.
  apply existsb_exists in H as [c [Hin H]].
  apply andb_true_iff in H as [H1 H2].
  exists c. split; [exact Hin|]. split; now apply Z.eqb_eq.
Qed.

(** A response that was rendered carries the data it was given. *)
Lemma Response_Ok {A} (db : DB) (nested : list Employee) (data r : A) :
  Response db nested data = Ok r -> r = data.
Proof.
  unfold Response. intros H. inv_bind H. inv_bind H. congruence.
Qed.

(** A response that holds no employee is rendered. *)
Lemma Response_no_employee {A} (db : DB) (data : A) :
  Response db [] data = Ok data.
Proof. reflexivity. Qed.

Lemma admin_data_holds_no_employee (db : DB) (cs : list Company) :
  CompanyData_nested (map (ReadOnlyAdminCompanySerializer db) cs) = [].
Proof.
  unfold CompanyData_nested. induction cs as [|c cs IH]; [reflexivity|]. exact IH.
Qed.

Lemma manager_data_holds_no_employee (db : DB) (cs : list Company) :
  (forall c d, In c cs -> In d (Company_departments db c) ->
               Department_employees db d = []) ->
  CompanyData_nested (map (ReadOnlyCompanySerializer db) cs) = [].
Proof.
  unfold CompanyData_nested. induction cs as [|c cs IH]; intros Hall; [reflexivity|].
  cbn [map flat_map]. rewrite IH by (intros c' d Hc'; apply Hall; now right).
  rewrite app_nil_r. cbn [ReadOnlyCompanySerializer CompanyData_departments].
  assert (Hc : forall d, In d (Company_departments db c) ->
                         Department_employees db d = [])
    by (intros d; apply Hall; now left).
  unfold DepartmentData_nested.
  induction (Company_departments db c) as [|d ds IHd]; [reflexivity|].
  cbn [map flat_map]. rewrite IHd by (intros d' Hd'; apply Hc; now right).
  cbn [ReadOnlyDepartmentSerializer DepartmentData_employees].
  rewrite (Hc d) by now left. reflexivity.
Qed.

(** C5, as the code has it.  (1) A company list that is answered to a GET
    lists exactly the companies that exist and that the user either may see
    as a superuser or manages; a superuser gets every company, rendered
    without nested departments.  (2) A superuser's GET is always answered.
    (3) So is the GET of a user who is not a superuser, when the departments
    of the companies this user manages hold no employee.  (4) The nested
    department and employee listings answer only the manager of the company
    in the path.  (5) For an account saved with a blank role, the role
    becomes admin exactly when the account is a superuser. *)
Theorem company_visibility_follows_is_superuser :
  (forall db request resp,
      Request_method request = "GET" ->
      CompanyViewSet_list db request = Ok resp ->
      (forall c, In c (map CompanyData_company (listed resp))
                 <-> In c (companies db)
                     /\ (CustomUser_is_superuser (Request_user request) = true
                         \/ Company_manager c = CustomUser_id (Request_user request)))
      /\ (CustomUser_is_superuser (Request_user request) = true ->
          map CompanyData_company (listed resp) = companies db
          /\ Forall (fun cd => CompanyData_departments cd = None) (listed resp)))
  /\ (forall db request,
        Request_method request = "GET" ->
        CustomUser_is_superuser (Request_user request) = true ->
        exists resp, CompanyViewSet_list db request = Ok resp)
  /\ (forall db request,
        Request_method request = "GET" ->
        CustomUser_is_superuser (Request_user request) = false ->
        (forall c d,
            In c (companies db) ->
            Company_manager c = CustomUser_id (Request_user request) ->
            In d (Company_departments db c) ->
            Department_employees db d = []) ->
        exists resp, CompanyViewSet_list db request = Ok resp)
  /\ (forall db request company_pk,
        (exists l, DepartmentViewSet_list db request company_pk = Ok l)
        \/ (exists l, EmployeeViewSet_list db request company_pk = Ok l) ->
        exists c, In c (companies db) /\ Company_id c = company_pk
                  /\ Company_manager c = CustomUser_id (Request_user request))
  /\ (forall u,
        CustomUser_role u = EmptyString ->
        CustomUser_is_admin (CustomUser_save u) = CustomUser_is_superuser u).
Proof.
  split; [|split; [|split; [|split]]].
  - intros db request resp Hm H.
    unfold CompanyViewSet_list, IsMangerOrReadOnly_has_permission,
      CompanyViewSet_get_serializer, CompanyViewSet_get_queryset in H.
    rewrite Hm in H. simpl check_permissions in H. rewrite bind_Ok_l in H.
    destruct (CustomUser_is_superuser (Request_user request)) eqn:Es;
      apply Response_Ok in H; subst resp; cbn [listed];
      rewrite map_map; simpl; rewrite map_id.
    + split; [intros c; tauto|]. intros _. split; [reflexivity|].
      apply List.Forall_forall. intros cd Hcd.
      apply in_map_iff in Hcd as [c [<- _]]. reflexivity.
    + split; [|discriminate]. intros c. rewrite filter_In, Z.eqb_eq.
      split; [tauto|]. intros [Hin [H|H]]; [discriminate | tauto].
  - intros db request Hm Es.
    unfold CompanyViewSet_list, IsMangerOrReadOnly_has_permission,
      CompanyViewSet_get_serializer, CompanyViewSet_get_queryset.
    rewrite Hm, Es. simpl check_permissions. rewrite bind_Ok_l.
    rewrite admin_data_holds_no_employee. eexists. apply Response_no_employee.
  - intros db request Hm Es Hall.
    unfold CompanyViewSet_list, IsMangerOrReadOnly_has_permission,
      CompanyViewSet_get_serializer, CompanyViewSet_get_queryset.
    rewrite Hm, Es. simpl check_permissions. rewrite bind_Ok_l.
    rewrite manager_data_holds_no_employee.
    + eexists. apply Response_no_employee.
    + intros c d Hc. apply filter_In in Hc as [Hc Hman].
      apply Z.eqb_eq in Hman. now apply Hall.
  - intros db request cpk [[l H]|[l H]];
      [unfold DepartmentViewSet_list in H | unfold EmployeeViewSet_list in H];
      inv_bind H; apply check_permissions_Ok in Ha;
      now apply IsCompanyManager_has_permission_true.
  - intros [id role su] Hr. simpl in Hr. subst role.
    unfold CustomUser_save, CustomUser_is_admin. simpl. now destruct su.
Qed.

(** Root, a superuser, is shown both companies; Omar, who manages Bolt and
    its empty department, is shown Bolt alone. *)
Lemma company_visibility_witness :
  (exists resp,
     CompanyViewSet_list Example.db (Example.request Example.root "GET" ∅) = Ok resp
     /\ map CompanyData_company (listed resp) = [Example.bolt; Example.acme])
  /\ (exists resp,
        CompanyViewSet_list Example.db (Example.request Example.omar "GET" ∅) = Ok resp
        /\ (In Example.bolt (map CompanyData_company (listed resp)))
        /\ ~ In Example.acme (map CompanyData_company (listed resp))).
Proof.
  split.
  - destruct (proj1 (proj2 company_visibility_follows_is_superuser) Example.db
                (Example.request Example.root "GET" ∅) eq_refl eq_refl) as [resp H].
    exists resp. split; [exact H|].
    exact (proj1 (proj2 (proj1 company_visibility_follows_is_superuser Example.db
                           (Example.request Example.root "GET" ∅) resp eq_refl H)
                    eq_refl)).
  - destruct (proj1 (proj2 (proj2 company_visibility_follows_is_superuser)) Example.db
                (Example.request Example.omar "GET" ∅) eq_refl eq_refl) as [resp H].
    + intros c d [<-|[<-|[]]] Hman; [|discriminate Hman].
      intros [<-|[]]. reflexivity.
    + exists resp. split; [exact H|].
      destruct (proj1 company_visibility_follows_is_superuser Example.db
                  (Example.request Example.omar "GET" ∅) resp eq_refl H) as [Hiff _].
      split.
      * apply Hiff. split; [now left | now right].
      * intros Hin. apply Hiff in Hin as [_ [Hs|Hm]]; discriminate.
Defined.

(** The claim as written makes the role decide.  Aida has the admin role
    and is no superuser: her list is empty although companies exist.  Root
    has the admin role and is a superuser: the departments of Acme, which
    Mona manages, are refused to Root on the nested route. *)
Lemma admin_role_does_not_decide_visibility :
  CustomUser_is_admin Example.aida = true
  /\ CompanyViewSet_list Example.db (Example.request Example.aida "GET" ∅)
     = Ok {| statistics := None; listed := [] |}
  /\ companies Example.db = [Example.bolt; Example.acme]
  /\ CustomUser_is_admin Example.root = true
  /\ DepartmentViewSet_get_queryset Example.db 1 = [Example.ops; Example.eng]
  /\ DepartmentViewSet_list Example.db (Example.request Example.root "GET" ∅) 1
     = Raise (PermissionDenied "You do not have permission to perform this action.")
  /\ EmployeeViewSet_list Example.db (Example.request Example.root "GET" ∅) 1
     = Raise (PermissionDenied "You do not have permission to perform this action.").
Proof. vm_compute. repeat split. Qed.

(** ** The statistics of the company list *)

(** A user who is not a superuser gets the bare list, without statistics. *)
Lemma list_without_statistics (db : DB) (request : Request) (resp : ListResponse) :
  CustomUser_is_superuser (Request_user request) = false ->
  CompanyViewSet_list db request = Ok resp ->
  statistics resp = None.
Proof.
  unfold CompanyViewSet_list. intros Hs H. inv_bind H. rewrite Hs in H.
  apply Response_Ok in H. now subst resp.
Qed.

(** C6, where the code departs from it.  The three counts are taken in one
    aggregate over the join of companies, departments and employees, so a
    company is counted once per joined row and a department once per
    employee.  In the example tenant there are two companies, three
    departments and two employees; the statistics say four, four and two.
    With a single company holding two empty departments they say two
    companies. *)
Theorem statistics_count_joined_rows :
  (exists resp,
     CompanyViewSet_list Example.db (Example.request Example.root "GET" ∅) = Ok resp
     /\ statistics resp
        = Some {| total_companies := 4; total_departments := 4; total_employees := 2 |})
  /\ Z.of_nat (length (companies Example.db)) = 2
  /\ Z.of_nat (length (departments Example.db)) = 3
  /\ Z.of_nat (length (employees Example.db)) = 2
  /\ total_companies
       (Company_objects_aggregate
          {| companies := [Example.acme];
             departments := [Example.ops; Example.eng];
             employees := [] |}) = 2.
Proof.
  split; [eexists; split; vm_compute; reflexivity|].
  vm_compute. repeat split.
Qed.

(** ** Company names *)

(** C9.  (1) A creation request that passes the permission check and whose
    validated name is the name of a company that exists, whoever manages it,
    is refused with the framework's validation error on [name], a 400.
    (2) A creation that succeeds adds one company whose name no company had
    before. *)
Theorem company_name_unique_on_create :
  (forall env db request v n c,
      IsMangerOrReadOnly_has_permission request = true ->
      Request_data request !! "name" = Some v ->
      v <> VNone ->
      CharField env v = inr n ->
      In c (companies db) ->
      Company_name c = n ->
      CompanyViewSet_create env db request
      = Raise (DRFValidationError
                 (Dict [("name", Msg "Company with this name already exists.")]))
      /\ status_code (DRFValidationError
                        (Dict [("name", Msg "Company with this name already exists.")]))
         = 400)
  /\ (forall env db request db' c,
        CompanyViewSet_create env db request = Ok (db', c) ->
        companies db' = c :: companies db
        /\ forall c0, In c0 (companies db) -> Company_name c0 <> Company_name c).
Proof.
  split.
  - intros env db request v n c Hperm Hd Hv Hn Hin Hc. split; [|reflexivity].
    unfold CompanyViewSet_create, CompanyCreateSerializer_is_valid, to_internal_value,
      CompanyCreateSerializer_fields.
    rewrite Hperm. simpl check_permissions. rewrite bind_Ok_l.
    rewrite run_fields_cons. unfold run_field. cbn [Field_name Field_required Field_run].
    rewrite Hd.
    assert (Hu : UniqueValidator_company_name db None n
                 = fail "Company with this name already exists.").
    { unfold UniqueValidator_company_name.
      replace (existsb _ (companies db)) with true; [reflexivity|].
      symmetry. apply existsb_exists. exists c. split; [exact Hin|].
      rewrite Hc, String.eqb_refl. reflexivity. }
    destruct v; try contradiction; rewrite Hn; simpl of_sum; rewrite bind_Ok_l, Hu;
      reflexivity.
  - intros env db request db' c H.
    unfold CompanyViewSet_create in H. inv_bind H. inv_bind H.
    unfold CompanyCreateSerializer_create in H.
    destruct (a0 !! "manager") as [[]|]; try discriminate.
    destruct (a0 !! "name") as [[]|]; try discriminate.
    unfold Company_objects_create in H.
    destruct (existsb _ (companies db)) eqn:E; [discriminate|].
    injection H as <- <-. simpl. split; [reflexivity|].
    intros c0 Hin Heq. apply not_true_iff_false in E. apply E.
    apply existsb_exists. exists c0. split; [exact Hin|]. now apply String.eqb_eq.
Qed.

(** Omar asks for a company named Acme; Mona already manages one. *)
Lemma company_name_unique_witness :
  CompanyViewSet_create Example.env Example.db
    (Example.request Example.omar "POST" {[ "name" := VStr "Acme" ]})
  = Raise (DRFValidationError
             (Dict [("name", Msg "Company with this name already exists.")])).
Proof.
  refine (proj1 (proj1 company_name_unique_on_create Example.env Example.db
                   (Example.request Example.omar "POST" {[ "name" := VStr "Acme" ]})
                   (VStr "Acme") "Acme" Example.acme _ _ _ _ _ _)).
  - reflexivity.
  - reflexivity.
  - discriminate.
  - reflexivity.
  - simpl. auto.
  - reflexivity.
Defined.

(** * Further properties of the code *)

(** ** Days employed *)

(** X1.  For an employee stored by an accepted status update, update or
    partial update: if its status is not [hired], [get_days_employed] is 0 on
    every day; if the body asked for [hired], the count read [n] days after
    the day of the request is [n] (nothing keeps it from being negative when
    read for an earlier day). *)
Theorem days_employed_counts_from_the_hiring_day
    (env : Env) (db db' : DB) (today : Z) (request : Request) (company_pk pk : Z)
    (partial : bool) (e : Employee) :
  EmployeeViewSet_update_status env db today request company_pk pk = Ok (db', e)
  \/ EmployeeViewSet_update env db today request company_pk pk partial = Ok (db', e) ->
  (Employee_status e <> value_of HIRED ->
   forall day, Employee_get_days_employed day e = 0)
  /\ (Request_data request !! "status" = Some (VStr (value_of HIRED)) ->
      forall n, Employee_get_days_employed (today + n) e = n).
Proof.
  intros H. split.
  - intros Hs day.
    assert (Hc : consistent e).
    { destruct H as [H|H];
        [apply EmployeeViewSet_update_status_saved in H
        |apply EmployeeViewSet_update_saved in H];
        now apply saved_row in H. }
    unfold Employee_get_days_employed.
    destruct (Employee_hired_on e) as [d|] eqn:E; [|reflexivity].
    exfalso. apply Hs, Hc. rewrite E. discriminate.
  - intros Hs n.
    assert (Hd : Employee_hired_on e = Some today).
    { destruct H as [H|H].
      - now apply EmployeeViewSet_update_status_not_Ok in H.
      - unfold EmployeeViewSet_update in H.
        inv_bind H. inv_bind H. inv_bind H.
        eapply (update_status_and_date env db db' today request a0 e
                  (Request_data request) a1 partial (value_of HIRED)); eauto. }
    unfold Employee_get_days_employed. rewrite Hd. lia.
Qed.

(** Ann is hired on day 100; read on day 130 she has been employed 30 days. *)
Lemma days_employed_witness :
  Employee_get_days_employed (Example.today + 30)
    (Employee_setattrs Example.ann
       {[ "status" := VStr (value_of HIRED); "hired_on" := VDate Example.today ]})
  = 30.
Proof.
  refine (proj2 (days_employed_counts_from_the_hiring_day
            Example.env Example.db
            {| companies := companies Example.db;
               departments := departments Example.db;
               employees := [Example.ben;
                             Employee_setattrs Example.ann
                               {[ "status" := VStr (value_of HIRED);
                                  "hired_on" := VDate Example.today ]}] |}
            Example.today
            (Example.request Example.mona "PATCH" {[ "status" := VStr (value_of HIRED) ]})
            1 1 true _ _) _ 30).
  - right. vm_compute. reflexivity.
  - reflexivity.
Defined.

(** ** Saving a user *)

(** X2.  [CustomUser.save] never leaves the role blank, keeps a role that
    was given, fills a blank one with admin for a superuser and manager
    otherwise, touches nothing else, and saving twice is saving once. *)
Theorem CustomUser_save_settles_the_role (u : CustomUser) :
  CustomUser_role (CustomUser_save u) <> EmptyString
  /\ (CustomUser_role u <> EmptyString -> CustomUser_save u = u)
  /\ (CustomUser_role u = EmptyString ->
      CustomUser_role (CustomUser_save u)
      = if CustomUser_is_superuser u then UserRole.ADMIN else UserRole.MANAGER)
  /\ CustomUser_id (CustomUser_save u) = CustomUser_id u
  /\ CustomUser_is_superuser (CustomUser_save u) = CustomUser_is_superuser u
  /\ CustomUser_save (CustomUser_save u) = CustomUser_save u.
Proof.
  destruct u as [id role su]. unfold CustomUser_save. simpl.
  destruct (String.eqb_spec role EmptyString) as [->|Hr]; simpl.
  - destruct su; simpl; repeat split; try discriminate; congruence.
  - apply String.eqb_neq in Hr as Hr'. rewrite Hr'. repeat split; congruence.
Qed.

(** A superuser created without a role, as [create_superuser] does. *)
Lemma CustomUser_save_witness :
  CustomUser_role
    (CustomUser_save {| CustomUser_id := 3; CustomUser_role := EmptyString;
                        CustomUser_is_superuser := true |})
  = UserRole.ADMIN.
Proof.
  exact (proj1 (proj2 (proj2 (CustomUser_save_settles_the_role
                                {| CustomUser_id := 3; CustomUser_role := EmptyString;
                                   CustomUser_is_superuser := true |}))) eq_refl).
Defined.

(** ** Counting *)

Lemma Count_app {A} (column : Company * option Department * option Employee -> option A)
    (l1 l2 : list (Company * option Department * option Employee)) :
  Count column (l1 ++ l2) = Count column l1 + Count column l2.
Proof.
  unfold Count. rewrite List.filter_app, length_app. lia.
Qed.

Lemma Count_nonneg {A} (column : Company * option Department * option Employee -> option A)
    (l : list (Company * option Department * option Employee)) :
  0 <= Count column l.
Proof. unfold Count. lia. Qed.

Lemma joined_rows_by_company (db : DB) :
  joined_rows db = flat_map (company_rows db) (companies db).
Proof. reflexivity. Qed.

Lemma Count_employees_department_rows (db : DB) (c : Company) (d : Department) :
  Count (fun r => Employee_id <$> r.2) (department_rows db c d)
  = Department_get_employees_count db d.
Proof.
  unfold department_rows, Department_get_employees_count, Count.
  destruct (Department_employees db d) as [|e es]; [reflexivity|].
  f_equal. rewrite <- (length_map (fun e0 => (c, Some d, Some e0)) (e :: es)).
  f_equal. apply forallb_filter_id. apply forallb_forall.
  intros r Hr. apply in_map_iff in Hr as [e0 [<- _]]. reflexivity.
Qed.

Lemma Count_employees_flat_map (db : DB) (c : Company) (ds : list Department) :
  Count (fun r => Employee_id <$> r.2) (flat_map (department_rows db c) ds)
  = fold_right Z.add 0 (map (Department_get_employees_count db) ds).
Proof.
  induction ds as [|d ds IH]; [reflexivity|].
  simpl. rewrite Count_app, Count_employees_department_rows, IH. reflexivity.
Qed.

Lemma Count_employees_company_rows (db : DB) (c : Company) :
  Count (fun r => Employee_id <$> r.2) (company_rows db c)
  = Company_get_employees_count db c.
Proof.
  unfold company_rows, Company_get_employees_count.
  destruct (Company_departments db c) as [|d ds] eqn:E; [reflexivity|].
  apply Count_employees_flat_map.
Qed.

(** X3.  The [total_employees] of the admin statistics is the sum, over all
    companies, of the employee counts the list shows per company. *)
Theorem total_employees_is_sum_of_company_counts (db : DB) :
  total_employees (Company_objects_aggregate db)
  = fold_right Z.add 0 (map (Company_get_employees_count db) (companies db)).
Proof.
  unfold Company_objects_aggregate. simpl. rewrite joined_rows_by_company.
  induction (companies db) as [|c cs IH]; [reflexivity|].
  simpl. rewrite Count_app, Count_employees_company_rows, IH. reflexivity.
Qed.

Lemma department_rows_nonempty (db : DB) (c : Company) (d : Department) :
  (1 <= length (department_rows db c d))%nat.
Proof.
  unfold department_rows. destruct (Department_employees db d); simpl; lia.
Qed.

Lemma Count_departments_department_rows (db : DB) (c : Company) (d : Department) :
  Count (fun r => Department_id <$> r.1.2) (department_rows db c d)
  = Z.of_nat (length (department_rows db c d)).
Proof.
  unfold Count. f_equal. f_equal. apply forallb_filter_id. apply forallb_forall.
  intros r Hr. unfold department_rows in Hr.
  destruct (Department_employees db d).
  - destruct Hr as [<-|[]]. reflexivity.
  - apply in_map_iff in Hr as [e0 [<- _]]. reflexivity.
Qed.

Lemma Count_departments_flat_map (db : DB) (c : Company) (ds : list Department) :
  Z.of_nat (length ds)
  <= Count (fun r => Department_id <$> r.1.2) (flat_map (department_rows db c) ds).
Proof.
  induction ds as [|d ds IH]; [unfold Count; simpl; lia|].
  simpl flat_map. rewrite Count_app, Count_departments_department_rows.
  pose proof (department_rows_nonempty db c d). simpl length. lia.
Qed.

Lemma Count_companies_all (l : list (Company * option Department * option Employee)) :
  Count (fun r => Some (Company_id r.1.1)) l = Z.of_nat (length l).
Proof.
  unfold Count. f_equal. f_equal. apply forallb_filter_id. apply forallb_forall.
  intros r _. reflexivity.
Qed.

Lemma company_rows_nonempty (db : DB) (c : Company) :
  (1 <= length (company_rows db c))%nat.
Proof.
  unfold company_rows. destruct (Company_departments db c) as [|d ds]; [simpl; lia|].
  simpl. rewrite length_app. pose proof (department_rows_nonempty db c d). lia.
Qed.

Lemma Count_departments_company_rows (db : DB) (c : Company) :
  Company_get_departments_count db c
  <= Count (fun r => Department_id <$> r.1.2) (company_rows db c).
Proof.
  unfold company_rows, Company_get_departments_count.
  destruct (Company_departments db c) as [|d ds] eqn:E; [unfold Count; simpl; lia|].
  apply Count_departments_flat_map.
Qed.

(** X4.  The statistics never undercount: [total_companies] is at least the
    number of companies and [total_departments] at least the sum of the
    department counts the list shows per company. *)
Theorem statistics_never_undercount (db : DB) :
  Z.of_nat (length (companies db)) <= total_companies (Company_objects_aggregate db)
  /\ fold_right Z.add 0 (map (Company_get_departments_count db) (companies db))
     <= total_departments (Company_objects_aggregate db).
Proof.
  unfold Company_objects_aggregate. simpl. rewrite joined_rows_by_company.
  rewrite Count_companies_all.
  induction (companies db) as [|c cs [IH1 IH2]]; [unfold Count; simpl; lia|].
  simpl flat_map. rewrite length_app, Count_app. simpl.
  pose proof (company_rows_nonempty db c).
  pose proof (Count_departments_company_rows db c). lia.
Qed.

Lemma length_filter_orb_disjoint {A} (p q : A -> bool) (l : list A) :
  (forall x, In x l -> p x = true -> q x = false) ->
  length (List.filter (fun x => p x || q x) l)
  = (length (List.filter p l) + length (List.filter q l))%nat.
Proof.
  induction l as [|a l IH]; intros H; [reflexivity|].
  simpl. specialize (IH ltac:(intros; apply H; simpl; auto)).
  destruct (p a) eqn:Ep; simpl.
  - rewrite (H a) by (simpl; auto). simpl. lia.
  - destruct (q a); simpl; lia.
Qed.

Lemma employees_of_company_departments (k : Z) (es : list Employee) (ds : list Department) :
  NoDup (map Department_id ds) ->
  fold_right Z.add 0
    (map (fun d => Z.of_nat (length (List.filter
                                       (fun e => Z.eqb (Employee_department e) (Department_id d))
                                       es)))
       (List.filter (fun d => Z.eqb (Department_company d) k) ds))
  = Z.of_nat (length (List.filter
                        (fun e => existsb (fun d => Z.eqb (Department_id d) (Employee_department e)
                                                      && Z.eqb (Department_company d) k) ds)
                        es)).
Proof.
  induction ds as [|d ds IH]; intros ND.
  - simpl. f_equal. induction es; simpl; auto.
  - apply NoDup_cons in ND as [Hn ND]. rewrite list_elem_of_In in Hn.
    specialize (IH ND). simpl List.filter at 2. simpl existsb.
    destruct (Z.eqb (Department_company d) k) eqn:Ek.
    + simpl. rewrite IH.
      rewrite (length_filter_orb_disjoint
                 (fun e => Z.eqb (Department_id d) (Employee_department e) && true)).
      * rewrite Nat2Z.inj_add. f_equal. f_equal. f_equal.
        apply List.filter_ext. intros e. rewrite andb_true_r. apply Z.eqb_sym.
      * intros e _ He. rewrite andb_true_r in He. apply Z.eqb_eq in He.
        apply not_true_is_false. intros Hex.
        apply existsb_exists in Hex as [d' [Hd' Hex]].
        apply andb_true_iff in Hex as [Hex _]. apply Z.eqb_eq in Hex.
        apply Hn. rewrite He, <- Hex. now apply in_map.
    + rewrite IH. f_equal. f_equal. apply List.filter_ext.
      intros e. now rewrite andb_false_r.
Qed.

(** X5.  When department keys are distinct, the employee count shown for a
    company is the number of employees the nested employee listing of that
    company returns. *)
Theorem company_count_is_size_of_employee_listing (db : DB) (c : Company) :
  NoDup (map Department_id (departments db)) ->
  Company_get_employees_count db c
  = Z.of_nat (length (EmployeeViewSet_get_queryset db (Company_id c))).
Proof.
  intros ND. unfold Company_get_employees_count, Company_departments,
    Department_get_employees_count, Department_employees, EmployeeViewSet_get_queryset.
  now apply employees_of_company_departments.
Qed.

Lemma company_count_witness :
  Company_get_employees_count Example.db Example.acme
  = Z.of_nat (length (EmployeeViewSet_get_queryset Example.db 1)).
Proof.
  apply (company_count_is_size_of_employee_listing Example.db Example.acme).
  apply (bool_decide_unpack _). vm_compute. exact I.
Defined.

(** ** What a successful create leaves behind *)

Lemma fresh_id_above (ids : list Z) (x : Z) : In x ids -> x < fresh_id ids.
Proof.
  unfold fresh_id. induction ids as [|y ids IH]; simpl; [contradiction|].
  intros [->|H]; [lia|]. specialize (IH H). lia.
Qed.

Lemma PrimaryKeyRelatedField_company_Ok (env : Env) (db : DB) (v : value) (c : Company) :
  PrimaryKeyRelatedField_company env db v = Ok c -> In c (companies db).
Proof.
  unfold PrimaryKeyRelatedField_company.
  destruct (pk_value env v) as [pk|]; [|discriminate].
  destruct (find _ _) as [c'|] eqn:E; [|discriminate].
  intros H; injection H as <-. now apply find_some in E as [E _].
Qed.

(** The key the body sent, as a number or as text, is the key of the row the
    field returns. *)
Lemma PrimaryKeyRelatedField_company_key (env : Env) (db : DB) (v : value) (c : Company) :
  PrimaryKeyRelatedField_company env db v = Ok c -> pk_value env v = Some (Company_id c).
Proof.
  unfold PrimaryKeyRelatedField_company.
  destruct (pk_value env v) as [pk|]; [|discriminate].
  destruct (find _ _) as [c'|] eqn:E; [|discriminate].
  intros H; injection H as <-. apply find_some in E as [_ E].
  apply Z.eqb_eq in E. now rewrite E.
Qed.

Lemma PrimaryKeyRelatedField_department_In (env : Env) (db : DB) (v : value)
    (d : Department) :
  PrimaryKeyRelatedField_department env db v = Ok d -> In d (departments db).
Proof.
  unfold PrimaryKeyRelatedField_department.
  destruct (pk_value env v) as [pk|]; [|discriminate].
  destruct (find _ _) as [d'|] eqn:E; [|discriminate].
  intros H; injection H as <-. now apply find_some in E as [E _].
Qed.

(** An entry of the validated data was produced by the run of its field. *)
Lemma run_fields_entry (partial : bool) (fs : list Field) (data ret : gmap string value)
    (errs : list (string * detail)) (f : Field) (x : value) :
  NoDup (map Field_name fs) ->
  run_fields partial fs data = Ok (ret, errs) ->
  In f fs ->
  ret !! Field_name f = Some x ->
  exists v, data !! Field_name f = Some v /\ Field_run f v = Ok x.
Proof.
  intros ND H Hf Hx.
  pose proof (run_fields_outcome _ _ _ _ _ ND H f Hf) as Ho.
  unfold field_outcome, run_field in Ho.
  destruct (data !! Field_name f) as [v|].
  - exists v. split; [reflexivity|].
    destruct v; try (destruct Ho as [Ho _]; congruence);
      (destruct (Field_run f _) as [y|[]]; try contradiction;
       [congruence | destruct Ho as [Ho _]; congruence]).
  - destruct partial; [congruence|]. destruct (Field_required f); [|congruence].
    destruct Ho as [Ho _]; congruence.
Qed.

Lemma CompanyCreateSerializer_validate_Ok (db : DB) (request : Request)
    (attrs validated_data : gmap string value) :
  CompanyCreateSerializer_validate db request attrs = Ok validated_data ->
  validated_data = <["manager" := VUser (Request_user request)]> attrs
  /\ forall c n, In c (companies db) ->
                 Company_manager c = CustomUser_id (Request_user request) ->
                 attrs !! "name" = Some (VStr n) ->
                 Company_name c <> n.
Proof.
  unfold CompanyCreateSerializer_validate.
  destruct (existsb _ (companies db)) eqn:E; [discriminate|].
  intros H; injection H as <-. split; [reflexivity|].
  intros c n Hin Hm Hn Hc. apply not_true_iff_false in E. apply E.
  apply existsb_exists. exists c. split; [exact Hin|].
  unfold dict_get. rewrite Hn. simpl.
  apply andb_true_iff. split; [now apply Z.eqb_eq | now apply String.eqb_eq].
Qed.

(** X6.  A company created through the API is owned by the requester, who
    has the manager role; its key is above every key in use; no department
    or employee row is touched; and when every department points at a
    company, the new company starts with no departments and no employees. *)
Theorem created_company_belongs_to_requester
    (env : Env) (db db' : DB) (request : Request) (c : Company) :
  Request_method request = "POST" ->
  CompanyViewSet_create env db request = Ok (db', c) ->
  CustomUser_role (Request_user request) = UserRole.MANAGER
  /\ Company_manager c = CustomUser_id (Request_user request)
  /\ (forall c0, In c0 (companies db) -> Company_id c0 < Company_id c)
  /\ departments db' = departments db
  /\ employees db' = employees db
  /\ (references_resolve db ->
      Company_get_departments_count db' c = 0
      /\ Company_get_employees_count db' c = 0).
Proof.
  intros Hm H. unfold CompanyViewSet_create in H.
  inv_bind_as H u Hperm. apply check_permissions_Ok in Hperm.
  unfold IsMangerOrReadOnly_has_permission in Hperm. rewrite Hm in Hperm.
  simpl in Hperm. apply String.eqb_eq in Hperm.
  inv_bind_as H vd Hv. unfold CompanyCreateSerializer_is_valid in Hv.
  inv_bind_as Hv attrs Hti.
  apply CompanyCreateSerializer_validate_Ok in Hv as [-> _].
  unfold CompanyCreateSerializer_create in H.
  rewrite lookup_insert_eq in H.
  destruct (<["manager":=_]> attrs !! "name") as [[ |n| | | | | ]|]; try discriminate.
  unfold Company_objects_create in H.
  destruct (existsb _ (companies db)); [discriminate|].
  injection H as <- <-. simpl.
  assert (Hfresh : forall c0, In c0 (companies db) ->
                              Company_id c0 < fresh_id (map Company_id (companies db))).
  { intros c0 Hin. apply fresh_id_above. now apply in_map. }
  repeat (split; [assumption || reflexivity|]).
  intros [Hd _].
  assert (Hnone : Company_departments
                    {| companies := {| Company_id := fresh_id (map Company_id (companies db));
                                       Company_manager := CustomUser_id (Request_user request);
                                       Company_name := n |} :: companies db;
                       departments := departments db;
                       employees := employees db |}
                    {| Company_id := fresh_id (map Company_id (companies db));
                       Company_manager := CustomUser_id (Request_user request);
                       Company_name := n |} = []).
  { unfold Company_departments. simpl.
    induction (departments db) as [|d ds IH]; [reflexivity|].
    simpl. destruct (Hd d ltac:(now left)) as [c0 [Hin Hid]].
    specialize (Hfresh c0 Hin).
    destruct (Z.eqb_spec (Department_company d) (fresh_id (map Company_id (companies db))));
      [lia|].
    apply IH. intros d' Hd'. apply Hd. now right. }
  unfold Company_get_departments_count, Company_get_employees_count.
  rewrite Hnone. split; reflexivity.
Qed.

Lemma created_company_witness :
  exists db' c,
    CompanyViewSet_create Example.env Example.db
      (Example.request Example.omar "POST" {[ "name" := VStr "Cobalt" ]}) = Ok (db', c)
    /\ Company_manager c = 2.
Proof.
  eexists _, _. split; [vm_compute; reflexivity|].
  refine (proj1 (proj2 (created_company_belongs_to_requester Example.env Example.db _
                          (Example.request Example.omar "POST" {[ "name" := VStr "Cobalt" ]})
                          _ eq_refl _))).
  vm_compute. reflexivity.
Defined.

Lemma DepartmentCreateSerializer_fields_NoDup (env : Env) (db : DB) :
  NoDup (map Field_name (DepartmentCreateSerializer_fields env db)).
Proof. apply (bool_decide_unpack _). vm_compute. exact I. Qed.

(** The company among the validated data of a department is a stored row. *)
Lemma department_attrs_company (env : Env) (db : DB) (partial : bool)
    (data attrs : gmap string value) (x : value) :
  to_internal_value partial (DepartmentCreateSerializer_fields env db) data = Ok attrs ->
  attrs !! "company" = Some x ->
  exists c, x = VCompany c /\ In c (companies db).
Proof.
  intros H Hx. apply to_internal_value_Ok in H.
  destruct (run_fields_entry _ _ _ _ _
              (nth 1 (DepartmentCreateSerializer_fields env db)
                 {| Field_name := EmptyString; Field_required := false; Field_run := Ok |})
              x (DepartmentCreateSerializer_fields_NoDup env db) H
              ltac:(simpl; auto) Hx) as [v [_ Hrun]].
  simpl in Hrun. inv_bind_as Hrun c Hc. injection Hrun as <-.
  exists c. split; [reflexivity|]. now apply PrimaryKeyRelatedField_company_Ok in Hc.
Qed.

(** The validated company and name of a department are what the fields made
    of the entries of the body. *)
Lemma department_attrs_body (env : Env) (db : DB) (partial : bool)
    (data attrs : gmap string value) :
  to_internal_value partial (DepartmentCreateSerializer_fields env db) data = Ok attrs ->
  (forall c, attrs !! "company" = Some (VCompany c) ->
             exists v, data !! "company" = Some v
                       /\ PrimaryKeyRelatedField_company env db v = Ok c)
  /\ (forall n, attrs !! "name" = Some (VStr n) ->
                exists w, data !! "name" = Some w /\ CharField env w = inr n).
Proof.
  intros H. apply to_internal_value_Ok in H. split.
  - intros c Hx.
    destruct (run_fields_entry _ _ _ _ _
                (nth 1 (DepartmentCreateSerializer_fields env db)
                   {| Field_name := EmptyString; Field_required := false; Field_run := Ok |})
                _ (DepartmentCreateSerializer_fields_NoDup env db) H
                ltac:(simpl; auto) Hx) as [v [Hv Hrun]].
    simpl in Hv, Hrun. inv_bind_as Hrun c' Hc. injection Hrun as ->.
    exists v. auto.
  - intros n Hx.
    destruct (run_fields_entry _ _ _ _ _
                (nth 0 (DepartmentCreateSerializer_fields env db)
                   {| Field_name := EmptyString; Field_required := false; Field_run := Ok |})
                _ (DepartmentCreateSerializer_fields_NoDup env db) H
                ltac:(simpl; auto) Hx) as [w [Hw Hrun]].
    simpl in Hw, Hrun. exists w. split; [exact Hw|].
    unfold of_sum in Hrun. destruct (CharField env w); [discriminate|].
    now injection Hrun as ->.
Qed.

Lemma DepartmentCreateSerializer_validate_Ok (db : DB) (request : Request)
    (attrs validated_data : gmap string value) :
  DepartmentCreateSerializer_validate db request attrs = Ok validated_data ->
  validated_data = attrs
  /\ exists c name,
       attrs !! "company" = Some (VCompany c)
       /\ attrs !! "name" = Some name
       /\ Company_manager c = CustomUser_id (Request_user request)
       /\ forall d n, In d (departments db) ->
                      Department_company d = Company_id c ->
                      name = VStr n ->
                      Department_name d <> n.
Proof.
  unfold DepartmentCreateSerializer_validate, getitem. intros H.
  destruct (attrs !! "company") as [[ | | | | |c| ]|]; try discriminate.
  rewrite bind_Ok_l in H.
  destruct (Z.eqb_spec (Company_manager c) (CustomUser_id (Request_user request)))
    as [Hm|Hm]; simpl in H; [|discriminate].
  destruct (attrs !! "name") as [name|]; [|discriminate].
  rewrite bind_Ok_l in H.
  destruct (existsb _ (departments db)) eqn:E; [discriminate|].
  injection H as <-. split; [reflexivity|].
  exists c, name. repeat (split; [reflexivity || assumption|]).
  intros d n Hin Hc -> Hn. apply not_true_iff_false in E. apply E.
  apply existsb_exists. exists d. split; [exact Hin|].
  apply andb_true_iff. split; [now apply Z.eqb_eq | now apply String.eqb_eq].
Qed.

(** X7.  A department created through the API lies in the company whose key
    the body sent under [company], as a number or as text; the requester
    manages that company, as they manage the company of the path; its name
    is what the field made of the body's [name]; no department of that
    company had this name when the request was validated; its key is above
    every key in use; and no other row is touched. *)
Theorem created_department_is_in_a_managed_company
    (env : Env) (db db' : DB) (request : Request) (company_pk : Z) (d : Department) :
  DepartmentViewSet_create env db request company_pk = Ok (db', d) ->
  (exists v c,
      Request_data request !! "company" = Some v
      /\ pk_value env v = Some (Department_company d)
      /\ PrimaryKeyRelatedField_company env db v = Ok c
      /\ In c (companies db) /\ Company_id c = Department_company d
      /\ Company_manager c = CustomUser_id (Request_user request))
  /\ (exists w, Request_data request !! "name" = Some w
                /\ CharField env w = inr (Department_name d))
  /\ (exists c, In c (companies db) /\ Company_id c = company_pk
                /\ Company_manager c = CustomUser_id (Request_user request))
  /\ (forall d0, In d0 (departments db) ->
                 Department_company d0 = Department_company d ->
                 Department_name d0 <> Department_name d)
  /\ (forall d0, In d0 (departments db) -> Department_id d0 < Department_id d)
  /\ departments db' = d :: departments db
  /\ companies db' = companies db
  /\ employees db' = employees db.
Proof.
  intros H. unfold DepartmentViewSet_create in H.
  inv_bind_as H u Hperm. apply check_permissions_Ok in Hperm.
  apply IsCompanyManager_has_permission_true in Hperm.
  inv_bind_as H vd Hv. unfold DepartmentCreateSerializer_is_valid in Hv.
  inv_bind_as Hv attrs Hti.
  apply DepartmentCreateSerializer_validate_Ok in Hv
    as [-> [c [name [Hc [Hn [Hman Hfree]]]]]].
  destruct (department_attrs_body _ _ _ _ _ Hti) as [Hbc Hbn].
  destruct (Hbc c Hc) as [v [Hv Hpk]].
  unfold DepartmentCreateSerializer_create in H. rewrite Hc, Hn in H.
  destruct name as [ |n| | | | | ]; try discriminate.
  destruct (Hbn n Hn) as [w [Hw Hcf]].
  unfold Department_objects_create in H.
  replace (constraints Department_meta) with (@nil UniqueConstraint) in H by reflexivity.
  simpl in H. injection H as <- <-. simpl.
  split.
  { exists v, c. split; [exact Hv|].
    split; [now apply PrimaryKeyRelatedField_company_key in Hpk|].
    split; [exact Hpk|].
    split; [now apply PrimaryKeyRelatedField_company_Ok in Hpk|]. auto. }
  split; [exists w; auto|]. split; [exact Hperm|].
  split; [intros d0 Hd0 Hco; now apply (Hfree d0 n)|].
  split; [intros d0 Hd0; apply fresh_id_above; now apply in_map|].
  auto.
Qed.

(** Mona adds Sales to Acme, naming Acme by its key sent as text. *)
Lemma created_department_witness :
  exists db' d,
    DepartmentViewSet_create Example.env Example.db
      (Example.request Example.mona "POST" {[ "name" := VStr "Sales"; "company" := VStr "1" ]})
      1 = Ok (db', d)
    /\ Department_company d = 1
    /\ departments db' = d :: departments Example.db.
Proof.
  eexists _, _. split; [vm_compute; reflexivity|].
  split; [reflexivity|].
  refine (proj1 (proj2 (proj2 (proj2 (proj2 (proj2
            (created_department_is_in_a_managed_company Example.env Example.db _
               (Example.request Example.mona "POST"
                  {[ "name" := VStr "Sales"; "company" := VStr "1" ]})
               1 _ _))))))).
  vm_compute. reflexivity.
Defined.

Lemma manages_true (db : DB) (u : CustomUser) (pk : Z) :
  manages db u pk = true ->
  exists c, In c (companies db) /\ Company_id c = pk
            /\ Company_manager c = CustomUser_id u.
Proof.
  unfold manages, User_companies. intros H.
  apply existsb_exists in H as [c [Hin Hid]].
  apply filter_In in Hin as [Hin Hm].
  exists c. split; [exact Hin|]. split; now apply Z.eqb_eq.
Qed.

Lemma EmployeeCreateSerializer_validate_Ok (env : Env) (db : DB) (request : Request)
    (attrs validated_data : gmap string value) :
  EmployeeCreateSerializer_validate env db request attrs = Ok validated_data ->
  validated_data = attrs
  /\ exists s c d,
       attrs !! "status" = Some (VStr s) /\ str_in s status_values = true
       /\ attrs !! "company" = Some (VCompany c)
       /\ attrs !! "department" = Some (VDepartment d)
       /\ manages db (Request_user request) (Company_id c) = true
       /\ exists d0, In d0 (departments db)
                     /\ Department_company d0 = Company_id c
                     /\ Department_id d0 = Department_id d.
Proof.
  unfold EmployeeCreateSerializer_validate, getitem. intros H.
  destruct (attrs !! "status") as [status|]; [|discriminate].
  rewrite bind_Ok_l in H.
  destruct status as [ |s| | | | | ]; cbv iota in H; cbn [negb] in H;
    try discriminate.
  destruct (str_in s status_values) eqn:Es; cbn [negb] in H; [|discriminate].
  destruct (attrs !! "company") as [company|]; [|discriminate].
  rewrite bind_Ok_l in H.
  destruct (attrs !! "department") as [department|]; [|discriminate].
  rewrite bind_Ok_l in H.
  destruct company as [ | | | | |c| ]; try discriminate.
  destruct department as [ | | | | | |d]; try discriminate.
  destruct (manages db (Request_user request) (Company_id c)) eqn:Em; cbn [negb] in H;
    [|discriminate].
  destruct (existsb _ (Company_departments db c)) eqn:Ed; cbn [negb] in H;
    [|discriminate].
  injection H as <-. split; [reflexivity|].
  apply existsb_exists in Ed as [d0 [Hin Hid]].
  apply filter_In in Hin as [Hin Hc].
  exists s, c, d. do 5 (split; [reflexivity || assumption|]).
  exists d0. split; [exact Hin|]. split; now apply Z.eqb_eq.
Qed.

Lemma Employee_base_save_insert (db db' : DB) (self : Employee) :
  Employee_base_save db self true = Ok db' ->
  employees db' = self :: employees db
  /\ forall e0, In e0 (employees db) ->
                Employee_id e0 <> Employee_id self
                /\ Employee_email e0 <> Employee_email self.
Proof.
  unfold Employee_base_save. simpl andb.
  destruct (existsb (fun e => Z.eqb (Employee_id e) (Employee_id self)) (employees db))
    eqn:Es; [discriminate|].
  destruct (existsb _ (List.filter _ _)) eqn:Ee; [discriminate|].
  intros H; injection H as <-. simpl. split; [reflexivity|].
  intros e0 Hin.
  assert (Hid : Employee_id e0 <> Employee_id self).
  { intros Hid. apply not_true_iff_false in Es. apply Es.
    apply existsb_exists. exists e0. split; [exact Hin | now apply Z.eqb_eq]. }
  split; [exact Hid|].
  intros Hm. apply not_true_iff_false in Ee. apply Ee.
  apply existsb_exists. exists e0. split; [|now apply String.eqb_eq].
  apply filter_In. split; [exact Hin|]. now apply negb_true_iff, Z.eqb_neq.
Qed.

(** X8.  An employee created through the API sits in a department of a
    company the requester manages; its status is one of the three that are
    not [hired] and it has no hire date; it is added in front of the table
    with a key and an email no employee had; companies and departments are
    untouched. *)
Theorem created_employee_is_in_a_managed_company
    (env : Env) (db db' : DB) (request : Request) (company_pk : Z) (e : Employee) :
  EmployeeViewSet_create env db request company_pk = Ok (db', e) ->
  (exists c d, In c (companies db)
               /\ Company_manager c = CustomUser_id (Request_user request)
               /\ In d (departments db)
               /\ Department_company d = Company_id c
               /\ Department_id d = Employee_department e)
  /\ In (Employee_status e)
        [value_of APPLICATION_RECEIVED; value_of INTERVIEW_SCHEDULED; value_of NOT_ACCEPTED]
  /\ Employee_hired_on e = None
  /\ employees db' = e :: employees db
  /\ (forall e0, In e0 (employees db) ->
                 Employee_id e0 < Employee_id e /\ Employee_email e0 <> Employee_email e)
  /\ companies db' = companies db
  /\ departments db' = departments db.
Proof.
  intros H.
  destruct (created_employee_has_no_hire_date _ _ _ _ _ _ H) as [Hho Hnh].
  pose proof (EmployeeViewSet_create_saved _ _ _ _ _ _ H) as Hsave.
  apply Employee_save_Ok in Hsave as [_ Hsave].
  destruct (Employee_base_save_tables _ _ _ _ Hsave) as [Hcs Hds].
  apply Employee_base_save_insert in Hsave as [Hes Hfree].
  unfold EmployeeViewSet_create in H. inv_bind H. inv_bind_as H vd Hv.
  unfold EmployeeCreateSerializer_is_valid in Hv. inv_bind_as Hv attrs Hti.
  apply EmployeeCreateSerializer_validate_Ok in Hv
    as [-> [s [c [d [Hs [Hin [Hc [Hd [Hman [d0 [Hd0 [Hd0c Hd0i]]]]]]]]]]]].
  unfold EmployeeCreateSerializer_create in H. inv_bind H.
  unfold Employee_objects_create in H.
  rewrite lookup_delete_ne in H by discriminate. rewrite Hd in H.
  inv_bind H. injection H as _ <-. simpl in *.
  assert (Hst : delete "company" attrs !! "status" = Some (VStr s))
    by (now rewrite lookup_delete_ne by discriminate).
  rewrite Hst in Hnh, Hes |- *. simpl in *.
  apply manages_true in Hman as [c' [Hc' [Hid Hm]]].
  split; [exists c', d0; repeat split; auto; congruence|].
  split.
  { unfold status_values in Hin. simpl in Hin.
    repeat match type of Hin with
           | (String.eqb ?a ?b || _) = true =>
               destruct (String.eqb_spec a b); [subst; simpl; tauto|]; simpl in Hin
           end.
    discriminate. }
  repeat (split; [assumption || reflexivity|]).
  split; [|auto].
  intros e0 He0. split; [|now apply Hfree].
  apply fresh_id_above. now apply in_map.
Qed.

Lemma created_employee_witness :
  exists db' e,
    EmployeeViewSet_create Example.env Example.db
      (Example.request Example.mona "POST"
         (<["status" := VStr (value_of APPLICATION_RECEIVED)]> Example.new_hire_body)) 1
    = Ok (db', e)
    /\ Employee_hired_on e = None.
Proof.
  eexists _, _. split; [vm_compute; reflexivity|].
  refine (proj1 (proj2 (proj2 (created_employee_is_in_a_managed_company
                                 Example.env Example.db _
                                 (Example.request Example.mona "POST"
                                    (<["status" := VStr (value_of APPLICATION_RECEIVED)]>
                                       Example.new_hire_body)) 1 _ _)))).
  vm_compute. reflexivity.
Defined.

(** ** Whose rows a request can reach *)

Lemma get_object_in_company (db : DB) (company_pk pk : Z) (employee : Employee) :
  EmployeeViewSet_get_object db company_pk pk = Ok employee ->
  In employee (employees db) /\ Employee_id employee = pk
  /\ exists d, In d (departments db)
               /\ Department_id d = Employee_department employee
               /\ Department_company d = company_pk.
Proof.
  unfold EmployeeViewSet_get_object, EmployeeViewSet_get_queryset.
  destruct (find _ _) as [r|] eqn:E; [|discriminate].
  intros H; injection H as <-.
  apply find_some in E as [Hin Hid].
  apply filter_In in Hin as [Hin Hd].
  apply existsb_exists in Hd as [d [Hd Hdd]].
  apply andb_true_iff in Hdd as [H1 H2].
  split; [exact Hin|]. split; [now apply Z.eqb_eq|].
  exists d. split; [exact Hd|]. split; now apply Z.eqb_eq.
Qed.

(** X9.  Whenever reading, updating, changing the status of or deleting an
    employee succeeds, the requester manages the company of the path, and the
    employee is a stored row whose department is a department of that
    company. *)
Theorem employee_views_stay_in_a_managed_company
    (env : Env) (db : DB) (today : Z) (request : Request) (company_pk pk : Z)
    (partial : bool) :
  (exists r, EmployeeViewSet_retrieve db today request company_pk pk = Ok r)
  \/ (exists r, EmployeeViewSet_update env db today request company_pk pk partial = Ok r)
  \/ (exists r, EmployeeViewSet_update_status env db today request company_pk pk = Ok r)
  \/ (exists r, EmployeeViewSet_destroy db request company_pk pk = Ok r) ->
  exists c d employee,
    In c (companies db) /\ Company_id c = company_pk
    /\ Company_manager c = CustomUser_id (Request_user request)
    /\ In employee (employees db) /\ Employee_id employee = pk
    /\ In d (departments db)
    /\ Department_id d = Employee_department employee
    /\ Department_company d = company_pk.
Proof.
  intros H.
  assert (Hboth :
    IsCompanyManager_has_permission db request company_pk = true
    /\ exists employee, EmployeeViewSet_get_object db company_pk pk = Ok employee).
  { destruct H as [[r H]|[[r H]|[[r H]|[r H]]]];
      [unfold EmployeeViewSet_retrieve in H
      |unfold EmployeeViewSet_update in H
      |now apply EmployeeViewSet_update_status_not_Ok in H
      |unfold EmployeeViewSet_destroy in H];
      inv_bind_as H u Hperm; apply check_permissions_Ok in Hperm;
      inv_bind_as H employee Hget; eauto. }
  destruct Hboth as [Hperm [employee Hget]].
  apply IsCompanyManager_has_permission_true in Hperm as [c [Hc [Hid Hm]]].
  apply get_object_in_company in Hget as [Hin [Hpk [d [Hd [Hdi Hdc]]]]].
  exists c, d, employee. auto 10.
Qed.

Lemma employee_views_witness :
  exists c d employee,
    In c (companies Example.db) /\ Company_id c = 1
    /\ Company_manager c = 1
    /\ In employee (employees Example.db) /\ Employee_id employee = 1
    /\ In d (departments Example.db)
    /\ Department_id d = Employee_department employee
    /\ Department_company d = 1.
Proof.
  apply (employee_views_stay_in_a_managed_company Example.env Example.db Example.today
           (Example.request Example.mona "DELETE" ∅) 1 1 true).
  right; right; right. eexists. vm_compute. reflexivity.
Defined.

(** ** Updating a company *)

Lemma CompanyViewSet_get_object_Ok (db : DB) (request : Request) (pk : Z) (c : Company) :
  CompanyViewSet_get_object db request pk = Ok c ->
  In c (companies db) /\ Company_id c = pk
  /\ (safe_method (Request_method request) = false ->
      Company_manager c = CustomUser_id (Request_user request)).
Proof.
  unfold CompanyViewSet_get_object.
  destruct (find _ _) as [obj|] eqn:E; [|discriminate].
  intros H. inv_bind_as H u Hperm. injection H as <-.
  apply check_permissions_Ok in Hperm.
  apply find_some in E as [Hin Hid].
  split.
  - unfold CompanyViewSet_get_queryset in Hin.
    destruct (CustomUser_is_superuser _); [exact Hin|].
    now apply filter_In in Hin as [Hin _].
  - split; [now apply Z.eqb_eq|].
    intros Hs. unfold IsMangerOrReadOnly_has_object_permission in Hperm.
    rewrite Hs in Hperm. now apply Z.eqb_eq.
Qed.

Lemma Company_save_Ok (db db' : DB) (self : Company) :
  Company_save db self = Ok db' ->
  (forall c0, In c0 (companies db) -> Company_id c0 <> Company_id self ->
              Company_name c0 <> Company_name self)
  /\ departments db' = departments db
  /\ employees db' = employees db
  /\ companies db'
     = if existsb (fun c => Z.eqb (Company_id c) (Company_id self)) (companies db)
       then map (fun c => if Z.eqb (Company_id c) (Company_id self) then self else c)
              (companies db)
       else self :: companies db.
Proof.
  unfold Company_save. intros H.
  destruct (existsb _ (List.filter _ _)) eqn:E; [discriminate|].
  injection H as <-. simpl. split; [|auto].
  intros c0 Hin Hid Hn. apply not_true_iff_false in E. apply E.
  apply existsb_exists. exists c0. split; [|now apply String.eqb_eq].
  apply filter_In. split; [exact Hin|]. now apply negb_true_iff, Z.eqb_neq.
Qed.





(** Sending the current name again is refused by the serializer's own check. *)
Example company_update_same_name_refused :
  CompanyViewSet_update Example.env Example.db
    (Example.request Example.mona "PUT" {[ "name" := VStr "Acme" ]}) 1 false
  = fail "Company name must be unique".
Proof. vm_compute. reflexivity. Qed.

(** ** Updating a department *)

Lemma DepartmentViewSet_get_object_Ok (db : DB) (company_pk pk : Z) (d : Department) :
  DepartmentViewSet_get_object db company_pk pk = Ok d ->
  In d (departments db) /\ Department_id d = pk /\ Department_company d = company_pk.
Proof.
  unfold DepartmentViewSet_get_object, DepartmentViewSet_get_queryset.
  destruct (find _ _) as [obj|] eqn:E; [|discriminate].
  intros H; injection H as <-.
  apply find_some in E as [Hin Hid]. apply filter_In in Hin as [Hin Hc].
  split; [exact Hin|]. split; now apply Z.eqb_eq.
Qed.

Lemma Department_save_Ok (db : DB) (self : Department) :
  Department_save db self
  = Ok {| companies := companies db;
          departments :=
            if existsb (fun d => Z.eqb (Department_id d) (Department_id self))
                 (departments db)
            then map (fun d => if Z.eqb (Department_id d) (Department_id self)
                               then self else d) (departments db)
            else self :: departments db;
          employees := employees db |}.
Proof. reflexivity. Qed.

(** X11.  A partial update of a department whose body has no [company],
    sent by the manager of the company of the path for a department of that
    company, with fields that validate, ends in [KeyError]: the serializer's
    [validate] reads [attrs["company"]]. *)
Theorem department_patch_without_company_raises_KeyError
    (env : Env) (db : DB) (request : Request) (company_pk pk : Z)
    (instance : Department) (attrs : gmap string value) :
  IsCompanyManager_has_permission db request company_pk = true ->
  DepartmentViewSet_get_object db company_pk pk = Ok instance ->
  Request_data request !! "company" = None ->
  to_internal_value true (DepartmentCreateSerializer_fields env db) (Request_data request)
  = Ok attrs ->
  DepartmentViewSet_update env db request company_pk pk true = Raise (KeyError "company")
  /\ status_code (KeyError "company") = 500.
Proof.
  intros Hperm Hget Hc Hti. split; [|reflexivity].
  unfold DepartmentViewSet_update. rewrite Hperm, Hget, Hti.
  simpl check_permissions. rewrite !bind_Ok_l.
  apply to_internal_value_Ok in Hti.
  pose proof (run_fields_partial_absent _ _ _ _ _ Hti Hc) as Ha.
  unfold DepartmentCreateSerializer_validate, getitem. now rewrite Ha.
Qed.

Lemma department_patch_witness :
  DepartmentViewSet_update Example.env Example.db
    (Example.request Example.mona "PATCH" {[ "name" := VStr "Platform" ]}) 1 1 true
  = Raise (KeyError "company")
  /\ status_code (KeyError "company") = 500.
Proof.
  eapply (department_patch_without_company_raises_KeyError Example.env Example.db
            (Example.request Example.mona "PATCH" {[ "name" := VStr "Platform" ]}) 1 1).
  - reflexivity.
  - reflexivity.
  - reflexivity.
  - vm_compute. reflexivity.
Defined.



(** ** The email of an updated employee *)

Lemma no_other_email (db : DB) (instance : Employee) (m : string) :
  existsb (fun e => String.eqb (Employee_email e) m
                      && negb (Z.eqb (Employee_id e) (Employee_id instance)))
    (employees db) = false
  <-> forall r, In r (employees db) -> Employee_id r <> Employee_id instance ->
                Employee_email r <> m.
Proof.
  split.
  - intros E r Hin Hid Hm. apply not_true_iff_false in E. apply E.
    apply existsb_exists. exists r. split; [exact Hin|].
    apply andb_true_iff. split; [now apply String.eqb_eq|].
    now apply negb_true_iff, Z.eqb_neq.
  - intros H. apply not_true_iff_false. intros E.
    apply existsb_exists in E as [r [Hin E]]. apply andb_true_iff in E as [E1 E2].
    apply String.eqb_eq in E1. apply negb_true_iff, Z.eqb_neq in E2.
    exact (H r Hin E2 E1).
Qed.




(** X14.  The uniqueness checks of the update serializer compare the
    address as sent, the row is stored as [str.lower] returns it: a partial
    update that carries only an email no other employee has, but whose
    lower-case form another employee has, passes validation and is refused
    by the store with an [IntegrityError], a server error. *)
Theorem email_differing_by_case_is_refused_by_the_store
    (env : Env) (db : DB) (today : Z) (request : Request) (company_pk pk : Z)
    (employee other : Employee) (cur : Department) (c : Company) (v : value) (m : string) :
  IsCompanyManager_has_permission db request company_pk = true ->
  EmployeeViewSet_get_object db company_pk pk = Ok employee ->
  Request_data request = {[ "email" := v ]} ->
  v <> VNone ->
  EmailField env v = inr m ->
  (forall r, In r (employees db) -> Employee_id r <> Employee_id employee ->
             Employee_email r <> m) ->
  In other (employees db) ->
  Employee_id other <> Employee_id employee ->
  Employee_email other = lower env m ->
  Employee_department_obj db employee = Ok cur ->
  Department_company_obj db cur = Ok c ->
  Company_manager c = CustomUser_id (Request_user request) ->
  consistent employee ->
  EmployeeViewSet_update env db today request company_pk pk true
  = Raise (IntegrityError "companies_employee.email")
  /\ status_code (IntegrityError "companies_employee.email") = 500.
Proof.
  intros Hperm Hget Hdata Hv Hm Hfree Hin Hid Hem Hcur Hc Hman Hcons.
  split; [|reflexivity].
  apply no_other_email in Hfree.
  assert (Hattrs :
    to_internal_value true (EmployeeUpdateSerializer_fields env db employee)
      (Request_data request) = Ok (<["email" := VStr (lower env m)]> ∅)).
  { unfold to_internal_value, EmployeeUpdateSerializer_fields. rewrite Hdata.
    rewrite run_fields_cons. unfold run_field at 1. cbn [Field_name].
    rewrite lookup_singleton_ne by discriminate.
    rewrite run_fields_cons. unfold run_field at 1. cbn [Field_name].
    rewrite lookup_singleton_ne by discriminate.
    rewrite run_fields_cons. unfold run_field at 1.
    cbn [Field_name Field_required Field_run]. rewrite lookup_singleton_eq.
    assert (Hrun : of_sum (EmailField env v) ≫= (fun s =>
              match s with
              | VStr m0 =>
                  UniqueValidator_email db (Some (Employee_id employee)) m0
                  ≫= fun _ => EmployeeUpdateSerializer_validate_email env db employee m0
                  ≫= fun m' => Ok (VStr m')
              | _ => Ok s
              end) = Ok (VStr (lower env m))).
    { rewrite Hm. simpl of_sum. rewrite bind_Ok_l.
      unfold UniqueValidator_email, EmployeeUpdateSerializer_validate_email.
      rewrite Hfree. rewrite !bind_Ok_l. reflexivity. }
    destruct v; try contradiction; rewrite Hrun;
      (rewrite run_fields_partial_skip;
       [reflexivity
       |simpl; intros f [<-|[<-|[<-|[<-|[]]]]]; reflexivity]). }
  assert (Hmanages : manages db (Request_user request) (Company_id c) = true).
  { unfold manages, User_companies. apply existsb_exists. exists c.
    split; [|apply Z.eqb_refl]. apply filter_In. split; [|now apply Z.eqb_eq].
    unfold Department_company_obj, get_company in Hc.
    destruct (find _ _) as [x|] eqn:E; [|discriminate].
    injection Hc as ->. now apply find_some in E as [E _]. }
  unfold EmployeeViewSet_update. rewrite Hperm, Hget. simpl check_permissions.
  rewrite !bind_Ok_l.
  unfold EmployeeUpdateSerializer_is_valid. rewrite Hattrs, bind_Ok_l.
  unfold EmployeeUpdateSerializer_validate.
  rewrite Hcur, bind_Ok_l, Hc, bind_Ok_l, Hmanages. simpl negb. cbv iota.
  rewrite bind_Ok_l.
  unfold EmployeeUpdateSerializer_update, ModelSerializer_update.
  set (stored := Employee_setattrs employee _).
  assert (Hst : Employee_status stored = Employee_status employee
                /\ Employee_hired_on stored = Employee_hired_on employee
                /\ Employee_id stored = Employee_id employee
                /\ Employee_email stored = lower env m) by (repeat split).
  destruct Hst as [Hs1 [Hs2 [Hs3 Hs4]]].
  unfold Employee_save.
  rewrite (Employee_clean_consistent stored)
    by (unfold consistent; rewrite Hs1, Hs2; exact Hcons).
  rewrite bind_Ok_l. unfold Employee_base_save. simpl andb. cbv iota.
  replace (existsb _ (List.filter _ (employees db))) with true; [reflexivity|].
  symmetry. apply existsb_exists. exists other.
  split; [|apply String.eqb_eq; congruence].
  apply filter_In. split; [exact Hin|]. apply negb_true_iff, Z.eqb_neq. congruence.
Qed.

Lemma email_differing_by_case_witness :
  EmployeeViewSet_update Example.env Example.db Example.today
    (Example.request Example.mona "PATCH" {[ "email" := VStr "BEN@acme.io" ]}) 1 1 true
  = Raise (IntegrityError "companies_employee.email")
  /\ status_code (IntegrityError "companies_employee.email") = 500.
Proof.
  apply (email_differing_by_case_is_refused_by_the_store Example.env Example.db
           Example.today
           (Example.request Example.mona "PATCH" {[ "email" := VStr "BEN@acme.io" ]})
           1 1 Example.ann Example.ben Example.eng Example.acme
           (VStr "BEN@acme.io") "BEN@acme.io"); try reflexivity; try discriminate.
  - simpl. intros r [<-|[<-|[]]]; simpl; intros H; [discriminate | congruence].
  - simpl. auto.
  - unfold consistent. simpl. split; intros H; [congruence | discriminate].
Defined.

(** ** Invariants of the store across requests *)

Section Rows.
Context {A : Type} (key : A -> Z).

Lemma NoDup_map_filter {B} (g : A -> B) (p : A -> bool) (l : list A) :
  NoDup (map g l) -> NoDup (map g (List.filter p l)).
Proof.
  induction l as [|a l IH]; simpl; intros ND; [constructor|].
  apply NoDup_cons in ND as [Hn ND]. destruct (p a); simpl; auto.
  apply NoDup_cons. split; [|auto].
  rewrite list_elem_of_In in *. intros Hin. apply Hn.
  apply in_map_iff in Hin as [x [Hx Hin]]. apply filter_In in Hin as [Hin _].
  apply in_map_iff. eauto.
Qed.

Lemma map_key_replace (x : A) (l : list A) :
  map key (map (fun r => if Z.eqb (key r) (key x) then x else r) l) = map key l.
Proof.
  rewrite map_map. apply map_ext. intros r.
  destruct (Z.eqb_spec (key r) (key x)); congruence.
Qed.

Lemma In_replace_cases (x : A) (l : list A) (r : A) :
  In r (map (fun r => if Z.eqb (key r) (key x) then x else r) l) ->
  (r = x /\ exists r0, In r0 l /\ key r0 = key x) \/ (In r l /\ key r <> key x).
Proof.
  rewrite in_map_iff. intros [r0 [Hr Hin]].
  destruct (Z.eqb_spec (key r0) (key x)); subst; eauto.
Qed.

Lemma NoDup_map_replace {B} (g : A -> B) (x : A) (l : list A) :
  NoDup (map key l) ->
  NoDup (map g l) ->
  (forall r, In r l -> key r <> key x -> g r <> g x) ->
  NoDup (map g (map (fun r => if Z.eqb (key r) (key x) then x else r) l)).
Proof.
  induction l as [|a l IH]; simpl; intros NK NG Hfree; [constructor|].
  apply NoDup_cons in NK as [HnK NK]. apply NoDup_cons in NG as [HnG NG].
  rewrite list_elem_of_In in HnK. rewrite list_elem_of_In in HnG.
  specialize (IH NK NG ltac:(intros; apply Hfree; auto)).
  apply NoDup_cons. split; [|exact IH].
  rewrite list_elem_of_In, in_map_iff. intros [r [Hg Hr]].
  apply In_replace_cases in Hr as [[-> [r0 [Hr0 Hk0]]]|[Hr Hk]];
    destruct (Z.eqb_spec (key a) (key x)) as [E|E].
  - apply HnK. rewrite E, <- Hk0. now apply in_map.
  - apply (Hfree a); auto.
  - apply (Hfree r); auto.
  - apply HnG. rewrite <- Hg. now apply in_map.
Qed.

Lemma NoDup_map_cons {B} (g : A -> B) (x : A) (l : list A) :
  NoDup (map g l) ->
  (forall r, In r l -> g r <> g x) ->
  NoDup (map g (x :: l)).
Proof.
  intros ND Hfree. simpl. apply NoDup_cons. split; [|exact ND].
  rewrite list_elem_of_In, in_map_iff. intros [r [Hg Hr]]. exact (Hfree r Hr Hg).
Qed.
End Rows.

(** *** What each writing view does to the tables *)

Lemma company_create_effect (env : Env) (db db' : DB) (request : Request) (c : Company) :
  CompanyViewSet_create env db request = Ok (db', c) ->
  companies db' = c :: companies db
  /\ departments db' = departments db
  /\ employees db' = employees db
  /\ (forall c0, In c0 (companies db) ->
                 Company_id c0 <> Company_id c /\ Company_name c0 <> Company_name c).
Proof.
  intros H. unfold CompanyViewSet_create in H. inv_bind H. inv_bind_as H vd Hv.
  unfold CompanyCreateSerializer_create in H.
  destruct (vd !! "manager") as [[ | | | |m| | ]|]; try discriminate.
  destruct (vd !! "name") as [[ |n| | | | | ]|]; try discriminate.
  unfold Company_objects_create in H.
  destruct (existsb _ (companies db)) eqn:E; [discriminate|].
  injection H as <- <-. simpl. repeat (split; [reflexivity|]).
  intros c0 Hin. split.
  - pose proof (fresh_id_above (map Company_id (companies db)) (Company_id c0)
                  ltac:(now apply in_map)). lia.
  - intros Hn. apply not_true_iff_false in E. apply E.
    apply existsb_exists. exists c0. split; [exact Hin | now apply String.eqb_eq].
Qed.

Lemma company_update_effect (env : Env) (db db' : DB) (request : Request) (pk : Z)
    (partial : bool) (c' : Company) :
  CompanyViewSet_update env db request pk partial = Ok (db', c') ->
  (exists c, In c (companies db) /\ Company_id c = Company_id c')
  /\ companies db'
     = map (fun c => if Z.eqb (Company_id c) (Company_id c') then c' else c) (companies db)
  /\ departments db' = departments db
  /\ employees db' = employees db
  /\ (forall c0, In c0 (companies db) -> Company_id c0 <> Company_id c' ->
                 Company_name c0 <> Company_name c').
Proof.
  intros H. unfold CompanyViewSet_update in H. inv_bind H.
  inv_bind_as H c Hget. apply CompanyViewSet_get_object_Ok in Hget as [Hin [Hid _]].
  inv_bind_as H attrs Hti. inv_bind_as H vd Hv.
  unfold CompanyCreateSerializer_update in H. inv_bind_as H db0 Hsave.
  injection H as <- <-.
  apply Company_save_Ok in Hsave as [Huniq [Hds [Hes Hcs]]]. simpl in *.
  split; [exists c; auto|].
  split; [|auto].
  rewrite Hcs.
  replace (existsb _ (companies db)) with true; [reflexivity|].
  symmetry. apply existsb_exists. exists c. split; [exact Hin | apply Z.eqb_refl].
Qed.

Lemma company_destroy_effect (db db' : DB) (request : Request) (pk : Z) :
  CompanyViewSet_destroy db request pk = Ok db' ->
  exists c, In c (companies db) /\ db' = Company_delete db c.
Proof.
  intros H. unfold CompanyViewSet_destroy in H. inv_bind H.
  inv_bind_as H c Hget. apply CompanyViewSet_get_object_Ok in Hget as [Hin _].
  injection H as <-. eauto.
Qed.

Lemma department_create_effect (env : Env) (db db' : DB) (request : Request)
    (company_pk : Z) (d : Department) :
  DepartmentViewSet_create env db request company_pk = Ok (db', d) ->
  companies db' = companies db
  /\ departments db' = d :: departments db
  /\ employees db' = employees db
  /\ (forall d0, In d0 (departments db) -> Department_id d0 <> Department_id d)
  /\ exists c, In c (companies db) /\ Company_id c = Department_company d.
Proof.
  intros H. unfold DepartmentViewSet_create in H. inv_bind H. inv_bind_as H vd Hv.
  unfold DepartmentCreateSerializer_is_valid in Hv. inv_bind_as Hv attrs Hti.
  apply DepartmentCreateSerializer_validate_Ok in Hv as [-> [c [name [Hc [Hn _]]]]].
  destruct (department_attrs_company _ _ _ _ _ _ Hti Hc) as [c' [Hc' Hin]].
  injection Hc' as <-.
  unfold DepartmentCreateSerializer_create in H. rewrite Hc, Hn in H.
  destruct name as [ |n| | | | | ]; try discriminate.
  unfold Department_objects_create in H.
  replace (constraints Department_meta) with (@nil UniqueConstraint) in H by reflexivity.
  simpl in H. injection H as <- <-. simpl. repeat (split; [reflexivity|]).
  split; [|eauto].
  intros d0 Hd0.
  pose proof (fresh_id_above (map Department_id (departments db)) (Department_id d0)
                ltac:(now apply in_map)). lia.
Qed.

Lemma department_update_effect (env : Env) (db db' : DB) (request : Request)
    (company_pk pk : Z) (partial : bool) (d' : Department) :
  DepartmentViewSet_update env db request company_pk pk partial = Ok (db', d') ->
  (exists d, In d (departments db) /\ Department_id d = Department_id d'
             /\ Department_company d = Department_company d')
  /\ companies db' = companies db
  /\ departments db'
     = map (fun d => if Z.eqb (Department_id d) (Department_id d') then d' else d)
         (departments db)
  /\ employees db' = employees db.
Proof.
  intros H. unfold DepartmentViewSet_update in H. inv_bind H.
  inv_bind_as H d Hget. apply DepartmentViewSet_get_object_Ok in Hget as [Hin _].
  inv_bind_as H attrs Hti. inv_bind_as H vd Hv.
  unfold DepartmentCreateSerializer_update in H. rewrite Department_save_Ok in H.
  rewrite bind_Ok_l in H. injection H as <- <-. simpl.
  split; [exists d; auto|]. split; [reflexivity|]. split; [|reflexivity].
  replace (existsb _ (departments db)) with true; [reflexivity|].
  symmetry. apply existsb_exists. exists d. split; [exact Hin | apply Z.eqb_refl].
Qed.

Lemma department_destroy_effect (db db' : DB) (request : Request) (company_pk pk : Z) :
  DepartmentViewSet_destroy db request company_pk pk = Ok db' ->
  exists d, In d (departments db) /\ db' = Department_delete db d.
Proof.
  intros H. unfold DepartmentViewSet_destroy in H. inv_bind H.
  inv_bind_as H d Hget. apply DepartmentViewSet_get_object_Ok in Hget as [Hin _].
  injection H as <-. eauto.
Qed.

Lemma employee_destroy_effect (db db' : DB) (request : Request) (company_pk pk : Z) :
  EmployeeViewSet_destroy db request company_pk pk = Ok db' ->
  exists e, In e (employees db) /\ db' = Employee_delete db e.
Proof.
  intros H. unfold EmployeeViewSet_destroy in H. inv_bind H.
  inv_bind_as H e Hget. apply get_object_found in Hget as [Hin _].
  injection H as <-. eauto.
Qed.

Lemma employee_create_effect (env : Env) (db db' : DB) (request : Request)
    (company_pk : Z) (e : Employee) :
  EmployeeViewSet_create env db request company_pk = Ok (db', e) ->
  companies db' = companies db
  /\ departments db' = departments db
  /\ employees db' = e :: employees db
  /\ (forall e0, In e0 (employees db) ->
                 Employee_id e0 <> Employee_id e /\ Employee_email e0 <> Employee_email e)
  /\ (exists d, In d (departments db) /\ Department_id d = Employee_department e)
  /\ consistent e.
Proof.
  intros H.
  pose proof (EmployeeViewSet_create_saved _ _ _ _ _ _ H) as Hsave.
  apply Employee_save_Ok in Hsave as [Hcons Hsave].
  destruct (Employee_base_save_tables _ _ _ _ Hsave) as [Hcs Hds].
  apply Employee_base_save_insert in Hsave as [Hes Hfree].
  repeat (split; [assumption|]). split; [|exact Hcons].
  unfold EmployeeViewSet_create in H. inv_bind H. inv_bind_as H vd Hv.
  unfold EmployeeCreateSerializer_is_valid in Hv. inv_bind_as Hv attrs Hti.
  apply EmployeeCreateSerializer_validate_Ok in Hv
    as [-> [s [c [d [Hs [_ [Hc [Hd [_ [d0 [Hd0 [_ Hd0i]]]]]]]]]]]].
  unfold EmployeeCreateSerializer_create in H. inv_bind H.
  unfold Employee_objects_create in H.
  rewrite lookup_delete_ne in H by discriminate. rewrite Hd in H.
  inv_bind H. injection H as _ <-. simpl. eauto.
Qed.

(** An update stores the row of the instance again, in a department that is
    the instance's or a stored one. *)
Lemma employee_serializer_update_effect (env : Env) (db db' : DB) (today : Z)
    (request : Request) (instance e : Employee) (data attrs : gmap string value)
    (partial : bool) :
  EmployeeUpdateSerializer_is_valid env db request instance data partial = Ok attrs ->
  EmployeeUpdateSerializer_update db today instance attrs = Ok (db', e) ->
  Employee_id e = Employee_id instance
  /\ Employee_save db e false = Ok db'
  /\ (Employee_department e = Employee_department instance
      \/ exists d, In d (departments db) /\ Department_id d = Employee_department e).
Proof.
  intros Hv H.
  pose proof (EmployeeUpdateSerializer_update_saved _ _ _ _ _ _ H) as Hsave.
  unfold EmployeeUpdateSerializer_update in H.
  apply ModelSerializer_update_Ok in H as [He _].
  split; [rewrite He; reflexivity|]. split; [exact Hsave|].
  unfold EmployeeUpdateSerializer_is_valid in Hv. inv_bind_as Hv attrs0 Hti.
  assert (attrs = attrs0) as ->.
  { unfold EmployeeUpdateSerializer_validate in Hv.
    inv_bind Hv. inv_bind Hv. destruct (negb _); [discriminate | congruence]. }
  rewrite He. simpl. rewrite stamped_lookup_ne by discriminate.
  destruct (attrs0 !! "department") as [x|] eqn:Ex; [|now left].
  pose proof Hti as Hti'. apply to_internal_value_Ok in Hti'.
  destruct (run_fields_entry _ _ _ _ _
              (nth 0 (EmployeeUpdateSerializer_fields env db instance)
                 {| Field_name := EmptyString; Field_required := false; Field_run := Ok |})
              x (EmployeeUpdateSerializer_fields_NoDup env db instance) Hti'
              ltac:(simpl; auto) Ex) as [v [Hv' _]].
  simpl in Hv'.
  destruct (update_attrs_department _ _ _ _ _ _ _ Hti Hv') as [dest [Hat [Hpk _]]].
  rewrite Ex in Hat. injection Hat as ->.
  right. exists dest. split; [|reflexivity].
  now apply PrimaryKeyRelatedField_department_In in Hpk.
Qed.

Lemma employee_update_effect (env : Env) (db db' : DB) (e : Employee) :
  (exists today request company_pk pk partial,
     EmployeeViewSet_update env db today request company_pk pk partial = Ok (db', e))
  \/ (exists today request company_pk pk,
        EmployeeViewSet_update_status env db today request company_pk pk = Ok (db', e)) ->
  exists instance,
    In instance (employees db)
    /\ Employee_id e = Employee_id instance
    /\ Employee_save db e false = Ok db'
    /\ (Employee_department e = Employee_department instance
        \/ exists d, In d (departments db) /\ Department_id d = Employee_department e).
Proof.
  intros [[today [request [cpk [pk [partial H]]]]]|[today [request [cpk [pk H]]]]].
  - unfold EmployeeViewSet_update in H. inv_bind H.
    inv_bind_as H instance Hget. inv_bind_as H attrs Hv.
    apply get_object_found in Hget as [Hin _].
    exists instance. split; [exact Hin|].
    eapply employee_serializer_update_effect; eauto.
  - now apply EmployeeViewSet_update_status_not_Ok in H.
Qed.

Lemma key_in_replace {A} (key : A -> Z) (x : A) (l : list A) (k : Z) :
  (exists r, In r l /\ key r = k) ->
  exists r, In r (map (fun r => if Z.eqb (key r) (key x) then x else r) l) /\ key r = k.
Proof.
  intros [r [Hin Hk]].
  exists (if Z.eqb (key r) (key x) then x else r). split.
  - apply in_map_iff. eauto.
  - destruct (Z.eqb_spec (key r) (key x)); congruence.
Qed.

Lemma Employee_base_save_free (db db' : DB) (self : Employee) (fi : bool) :
  Employee_base_save db self fi = Ok db' ->
  forall r, In r (employees db) -> Employee_id r <> Employee_id self ->
            Employee_email r <> Employee_email self.
Proof.
  unfold Employee_base_save.
  destruct (fi && _); [discriminate|].
  destruct (existsb _ (List.filter _ _)) eqn:E; [discriminate|].
  intros _ r Hin Hid Hm. apply not_true_iff_false in E. apply E.
  apply existsb_exists. exists r. split; [|now apply String.eqb_eq].
  apply filter_In. split; [exact Hin|]. now apply negb_true_iff, Z.eqb_neq.
Qed.

Lemma Forall_consistent_filter (p : Employee -> bool) (es : list Employee) :
  Forall consistent es -> Forall consistent (List.filter p es).
Proof.
  rewrite !List.Forall_forall. intros H e He. apply filter_In in He as [He _]. auto.
Qed.

Lemma well_formed_after_company_delete (db : DB) (c : Company) :
  well_formed db -> well_formed (Company_delete db c).
Proof.
  intros [[K1 [K2 K3]] [[R1 R2] [HE [HN HC]]]].
  unfold well_formed, keys_unique, references_resolve, emails_unique,
    company_names_unique, Company_delete. simpl.
  repeat split; try (now apply NoDup_map_filter).
  - intros d Hd. apply filter_In in Hd as [Hd Hne].
    destruct (R1 d Hd) as [c0 [Hc0 Hid]]. exists c0. split; [|exact Hid].
    apply filter_In. split; [exact Hc0|]. now rewrite Hid.
  - intros e He. apply filter_In in He as [He Hne].
    destruct (R2 e He) as [d [Hd Hid]]. exists d. split; [|exact Hid].
    apply filter_In. split; [exact Hd|].
    apply negb_true_iff. apply not_true_iff_false. intros Hc.
    apply negb_true_iff, not_true_iff_false in Hne. apply Hne.
    apply existsb_exists. exists d. split; [|now apply Z.eqb_eq].
    unfold Company_departments. apply filter_In. split; [exact Hd | exact Hc].
  - now apply Forall_consistent_filter.
Qed.

Lemma well_formed_after_department_delete (db : DB) (d : Department) :
  well_formed db -> well_formed (Department_delete db d).
Proof.
  intros [[K1 [K2 K3]] [[R1 R2] [HE [HN HC]]]].
  unfold well_formed, keys_unique, references_resolve, emails_unique,
    company_names_unique, Department_delete. simpl.
  repeat split; try assumption; try (now apply NoDup_map_filter).
  - intros d0 Hd0. apply filter_In in Hd0 as [Hd0 _]. auto.
  - intros e He. apply filter_In in He as [He Hne].
    destruct (R2 e He) as [d0 [Hd0 Hid]]. exists d0. split; [|exact Hid].
    apply filter_In. split; [exact Hd0|]. now rewrite Hid.
  - now apply Forall_consistent_filter.
Qed.

Lemma well_formed_after_employee_delete (db : DB) (e : Employee) :
  well_formed db -> well_formed (Employee_delete db e).
Proof.
  intros [[K1 [K2 K3]] [[R1 R2] [HE [HN HC]]]].
  unfold well_formed, keys_unique, references_resolve, emails_unique,
    company_names_unique, Employee_delete. simpl.
  repeat split; try assumption; try (now apply NoDup_map_filter).
  - intros e0 He0. apply filter_In in He0 as [He0 _]. auto.
  - now apply Forall_consistent_filter.
Qed.

Lemma well_formed_after_employee_save (db db' : DB) (e instance : Employee) :
  well_formed db ->
  In instance (employees db) ->
  Employee_id e = Employee_id instance ->
  Employee_save db e false = Ok db' ->
  (Employee_department e = Employee_department instance
   \/ exists d, In d (departments db) /\ Department_id d = Employee_department e) ->
  well_formed db'.
Proof.
  intros [[K1 [K2 K3]] [[R1 R2] [HE [HN HC]]]] Hin Hid Hsave Hdep.
  destruct (saved_row _ _ _ _ Hsave) as [Hc [_ Hall]].
  apply Employee_save_Ok in Hsave as [_ Hsave].
  pose proof (Employee_base_save_free _ _ _ _ Hsave) as Hfree.
  destruct (Employee_base_save_replace _ _ _ _ Hsave Hin Hid) as [Hcs [Hds Hes]].
  unfold well_formed, keys_unique, references_resolve, emails_unique,
    company_names_unique. rewrite Hcs, Hds, Hes.
  repeat split; try assumption.
  - now rewrite (map_key_replace Employee_id).
  - intros r Hr. apply (In_replace_cases Employee_id) in Hr as [[-> _]|[Hr _]]; [|auto].
    destruct Hdep as [Hdep|Hdep]; [|exact Hdep].
    rewrite Hdep. auto.
  - now apply (NoDup_map_replace Employee_id).
  - rewrite <- Hes. auto.
Qed.

Lemma step_well_formed (env : Env) (db db' : DB) :
  step env db db' -> well_formed db -> well_formed db'.
Proof.
  intros Hstep Hwf.
  destruct Hstep as [request c db' H|request pk partial c db' H|request pk db' H
                    |request cpk d db' H|request cpk pk partial d db' H|request cpk pk db' H
                    |request cpk e db' H|today request cpk pk partial e db' H
                    |today request cpk pk e db' H|request cpk pk db' H].
  - apply company_create_effect in H as [Hcs [Hds [Hes Hfree]]].
    destruct Hwf as [[K1 [K2 K3]] [[R1 R2] [HE [HN HC]]]].
    unfold well_formed, keys_unique, references_resolve, emails_unique,
      company_names_unique. rewrite Hcs, Hds, Hes.
    repeat split; try assumption.
    + apply NoDup_map_cons; [exact K1|]. intros r Hr. now apply Hfree.
    + intros d0 Hd0. destruct (R1 d0 Hd0) as [c0 [Hc0 Hid]].
      exists c0. split; [now right | exact Hid].
    + apply NoDup_map_cons; [exact HN|]. intros r Hr. now apply Hfree.
  - apply company_update_effect in H as [[c0 [Hc0 Hid]] [Hcs [Hds [Hes Hfree]]]].
    destruct Hwf as [[K1 [K2 K3]] [[R1 R2] [HE [HN HC]]]].
    unfold well_formed, keys_unique, references_resolve, emails_unique,
      company_names_unique. rewrite Hcs, Hds, Hes.
    repeat split; try assumption.
    + now rewrite (map_key_replace Company_id).
    + intros d0 Hd0. apply (key_in_replace Company_id). auto.
    + now apply (NoDup_map_replace Company_id).
  - apply company_destroy_effect in H as [c [_ ->]].
    now apply well_formed_after_company_delete.
  - apply department_create_effect in H as [Hcs [Hds [Hes [Hfree Hc]]]].
    destruct Hwf as [[K1 [K2 K3]] [[R1 R2] [HE [HN HC]]]].
    unfold well_formed, keys_unique, references_resolve, emails_unique,
      company_names_unique. rewrite Hcs, Hds, Hes.
    repeat split; try assumption.
    + apply NoDup_map_cons; [exact K2|]. intros r Hr. now apply Hfree.
    + intros d0 [<-|Hd0]; auto.
    + intros e0 He0. destruct (R2 e0 He0) as [d0 [Hd0 Hid]].
      exists d0. split; [now right | exact Hid].
  - apply department_update_effect in H as [[d0 [Hd0 [Hid Hco]]] [Hcs [Hds Hes]]].
    destruct Hwf as [[K1 [K2 K3]] [[R1 R2] [HE [HN HC]]]].
    unfold well_formed, keys_unique, references_resolve, emails_unique,
      company_names_unique. rewrite Hcs, Hds, Hes.
    repeat split; try assumption.
    + now rewrite (map_key_replace Department_id).
    + intros r Hr. apply (In_replace_cases Department_id) in Hr as [[-> _]|[Hr _]]; [|auto].
      rewrite <- Hco. auto.
    + intros e0 He0. apply (key_in_replace Department_id). auto.
  - apply department_destroy_effect in H as [d [_ ->]].
    now apply well_formed_after_department_delete.
  - apply employee_create_effect in H as [Hcs [Hds [Hes [Hfree [Hd Hc]]]]].
    destruct Hwf as [[K1 [K2 K3]] [[R1 R2] [HE [HN HC]]]].
    unfold well_formed, keys_unique, references_resolve, emails_unique,
      company_names_unique. rewrite Hcs, Hds, Hes.
    repeat split; try assumption.
    + apply NoDup_map_cons; [exact K3|]. intros r Hr. now apply Hfree.
    + intros e0 [<-|He0]; auto.
    + apply NoDup_map_cons; [exact HE|]. intros r Hr. now apply Hfree.
    + constructor; assumption.
  - destruct (employee_update_effect env db db' e) as [instance [Hin [Hid [Hsave Hdep]]]];
      [left; eauto 10|].
    eapply well_formed_after_employee_save; eauto.
  - destruct (employee_update_effect env db db' e) as [instance [Hin [Hid [Hsave Hdep]]]];
      [right; eauto 10|].
    eapply well_formed_after_employee_save; eauto.
  - apply employee_destroy_effect in H as [e [_ ->]].
    now apply well_formed_after_employee_delete.
Qed.

(** X15.  The empty store is well formed, and every sequence of successful
    requests to the writing views leads from a well-formed store to a
    well-formed one: primary keys stay pairwise distinct, every department
    points at a stored company and every employee at a stored department,
    employee emails and company names stay pairwise distinct, and every
    employee has a hire date exactly when it is hired. *)
Theorem requests_keep_the_store_well_formed (env : Env) :
  well_formed empty_db
  /\ forall db db', well_formed db -> rtc (step env) db db' -> well_formed db'.
Proof.
  split.
  - unfold well_formed, keys_unique, references_resolve, emails_unique,
      company_names_unique, empty_db. simpl.
    repeat split; try constructor; intros ? [].
  - intros db db' Hwf Hsteps. induction Hsteps as [|db db1 db2 Hstep _ IH]; [exact Hwf|].
    apply IH. eapply step_well_formed; eauto.
Qed.

(** Omar founds Cobalt in the empty store and opens a department in it. *)
Lemma requests_keep_well_formed_witness :
  well_formed
    {| companies := [ {| Company_id := 1; Company_manager := 2; Company_name := "Cobalt" |} ];
       departments :=
         [ {| Department_id := 1; Department_company := 1; Department_name := "Mine" |} ];
       employees := [] |}.
Proof.
  apply (proj2 (requests_keep_the_store_well_formed Example.env) empty_db).
  - exact (proj1 (requests_keep_the_store_well_formed Example.env)).
  - eapply rtc_l.
    + eapply (step_company_create Example.env empty_db
                (Example.request Example.omar "POST" {[ "name" := VStr "Cobalt" ]})).
      vm_compute. reflexivity.
    + eapply rtc_l; [|apply rtc_refl].
      eapply (step_department_create Example.env _
                (Example.request Example.omar "POST"
                   {[ "name" := VStr "Mine"; "company" := VInt 1 ]}) 1).
      vm_compute. reflexivity.
Defined.

(** ** Deleting a company *)

(** X16.  A company deletion that succeeds on an unsafe method was sent by
    the company's manager, who has the manager role.  Afterwards the
    companies are the others, the departments are those of the other
    companies, and the employees are those whose department is not one of the
    deleted company's. *)
Theorem company_destroy_cascades (db db' : DB) (request : Request) (pk : Z) :
  safe_method (Request_method request) = false ->
  CompanyViewSet_destroy db request pk = Ok db' ->
  (exists c, In c (companies db) /\ Company_id c = pk
             /\ Company_manager c = CustomUser_id (Request_user request))
  /\ CustomUser_role (Request_user request) = UserRole.MANAGER
  /\ (forall c0, In c0 (companies db') <-> In c0 (companies db) /\ Company_id c0 <> pk)
  /\ (forall d, In d (departments db')
                <-> In d (departments db) /\ Department_company d <> pk)
  /\ (forall e, In e (employees db')
                <-> In e (employees db)
                    /\ ~ exists d, In d (departments db)
                                   /\ Department_company d = pk
                                   /\ Department_id d = Employee_department e).
Proof.
  intros Hs H. unfold CompanyViewSet_destroy in H.
  inv_bind_as H u Hperm. apply check_permissions_Ok in Hperm.
  unfold IsMangerOrReadOnly_has_permission in Hperm. rewrite Hs in Hperm.
  apply String.eqb_eq in Hperm.
  inv_bind_as H c Hget. apply CompanyViewSet_get_object_Ok in Hget as [Hin [Hid Hm]].
  specialize (Hm Hs). injection H as <-.
  split; [exists c; auto|]. split; [exact Hperm|].
  unfold Company_delete, Company_departments. simpl. rewrite Hid.
  split; [|split].
  - intros c0. rewrite filter_In, negb_true_iff, Z.eqb_neq. tauto.
  - intros d. rewrite filter_In, negb_true_iff, Z.eqb_neq. tauto.
  - intros e. rewrite filter_In, negb_true_iff. split.
    + intros [He Hex]. split; [exact He|].
      intros [d [Hd [Hc Hi]]]. apply not_true_iff_false in Hex. apply Hex.
      apply existsb_exists. exists d. split; [|now apply Z.eqb_eq].
      apply filter_In. split; [exact Hd | now apply Z.eqb_eq].
    + intros [He Hex]. split; [exact He|].
      apply not_true_iff_false. intros Hx. apply Hex.
      apply existsb_exists in Hx as [d [Hd Hi]]. apply filter_In in Hd as [Hd Hc].
      exists d. split; [exact Hd|]. split; now apply Z.eqb_eq.
Qed.

(** Mona deletes Acme: she manages it and has the manager role. *)
Lemma company_destroy_witness :
  (exists c, In c (companies Example.db) /\ Company_id c = 1
             /\ Company_manager c = CustomUser_id Example.mona)
  /\ CustomUser_role Example.mona = UserRole.MANAGER.
Proof.
  destruct (company_destroy_cascades Example.db (Company_delete Example.db Example.acme)
              (Example.request Example.mona "DELETE" ∅) 1)
    as [Hc [Hr _]].
  - reflexivity.
  - vm_compute. reflexivity.
  - split; [exact Hc | exact Hr].
Defined.

(** ** The status of a stored employee *)

Lemma valid_transitions_lookup (s : string) (allowed : list string) :
  valid_transitions !! s = Some allowed ->
  (s = value_of APPLICATION_RECEIVED
   /\ allowed = [value_of INTERVIEW_SCHEDULED; value_of NOT_ACCEPTED])
  \/ (s = value_of INTERVIEW_SCHEDULED
      /\ allowed = [value_of HIRED; value_of NOT_ACCEPTED]).
Proof.
  unfold valid_transitions. rewrite lookup_insert. case_decide as E1.
  - intros H; injection H as <-. left. auto.
  - rewrite lookup_singleton. case_decide as E2; [|discriminate].
    intros H; injection H as <-. right. auto.
Qed.

Lemma validate_status_Ok_moves (env : Env) (instance : Employee) (value value' : string) :
  EmployeeUpdateSerializer_validate_status env (Some instance) value = Ok value' ->
  moves_along_table (Employee_status instance) value.
Proof.
  unfold EmployeeUpdateSerializer_validate_status, moves_along_table.
  destruct (negb (str_in value status_values)); [discriminate|].
  destruct (String.eqb_spec value (Employee_status instance)) as [E|E]; [auto|].
  destruct (str_in (Employee_status instance) _); [discriminate|].
  destruct (valid_transitions !! Employee_status instance) as [allowed|] eqn:Ev;
    simpl; [|discriminate].
  destruct (str_in value allowed) eqn:Ea; [|discriminate]. intros _.
  apply valid_transitions_lookup in Ev as [[Hs ->]|[Hs ->]]; simpl in Ea;
    repeat match type of Ea with
           | (String.eqb ?a ?b || _) = true =>
               destruct (String.eqb_spec a b); [subst; tauto|]; simpl in Ea
           end; discriminate.
Qed.

(** X17.  The status of an employee stored by an accepted update, partial
    update or status update is the status it had, or follows it in the
    table; an employee that was [hired] or [not accepted] keeps its status
    through every such request. *)
Theorem stored_status_moves_along_the_table
    (env : Env) (db db' : DB) (today : Z) (request : Request) (company_pk pk : Z)
    (partial : bool) (e : Employee) :
  EmployeeViewSet_update_status env db today request company_pk pk = Ok (db', e)
  \/ EmployeeViewSet_update env db today request company_pk pk partial = Ok (db', e) ->
  exists instance,
    EmployeeViewSet_get_object db company_pk pk = Ok instance
    /\ moves_along_table (Employee_status instance) (Employee_status e)
    /\ (Employee_status instance = value_of HIRED
        \/ Employee_status instance = value_of NOT_ACCEPTED ->
        Employee_status e = Employee_status instance).
Proof.
  intros H.
  assert (Hcore : exists instance data attrs p,
             EmployeeViewSet_get_object db company_pk pk = Ok instance
             /\ to_internal_value p (EmployeeUpdateSerializer_fields env db instance) data
                = Ok attrs
             /\ EmployeeUpdateSerializer_update db today instance attrs = Ok (db', e)).
  { destruct H as [H|H].
    - now apply EmployeeViewSet_update_status_not_Ok in H.
    - unfold EmployeeViewSet_update in H. inv_bind H.
      inv_bind_as H instance Hget. inv_bind_as H attrs Hv.
      unfold EmployeeUpdateSerializer_is_valid in Hv. inv_bind_as Hv attrs0 Hti.
      assert (attrs = attrs0) as ->.
      { unfold EmployeeUpdateSerializer_validate in Hv.
        inv_bind Hv. inv_bind Hv. destruct (negb _); [discriminate | congruence]. }
      eauto 10. }
  destruct Hcore as [instance [data [attrs [p [Hget [Hti Hu]]]]]].
  exists instance. split; [exact Hget|].
  assert (Hmove : moves_along_table (Employee_status instance) (Employee_status e)).
  { pose proof (update_attrs_status _ _ _ _ _ _ Hti) as Hst.
    unfold EmployeeUpdateSerializer_update in Hu.
    apply ModelSerializer_update_Ok in Hu as [He _].
    rewrite He. simpl. rewrite stamped_lookup_ne by discriminate.
    destruct (data !! "status") as [[ |s| | | | | ]|]; try contradiction.
    - destruct Hst as [Hst Hval]. rewrite Hst. simpl.
      eapply validate_status_Ok_moves; eauto.
    - rewrite Hst. simpl. now left. }
  split; [exact Hmove|].
  intros Hterm. destruct Hmove as [Hm|[[Hm _]|[Hm _]]]; [exact Hm| |];
    rewrite Hm in Hterm; destruct Hterm; discriminate.
Qed.

(** Ben is hired; sending [hired] again is accepted and leaves him hired. *)
Lemma stored_status_witness :
  exists instance,
    EmployeeViewSet_get_object Example.db 1 2 = Ok instance
    /\ Employee_status instance = value_of HIRED.
Proof.
  destruct (stored_status_moves_along_the_table Example.env Example.db
              {| companies := companies Example.db;
                 departments := departments Example.db;
                 employees :=
                   [Employee_setattrs Example.ben
                      {[ "status" := VStr (value_of HIRED);
                         "hired_on" := VDate Example.today ]};
                    Example.ann] |}
              Example.today
              (Example.request Example.mona "PATCH" {[ "status" := VStr (value_of HIRED) ]})
              1 2 true
              (Employee_setattrs Example.ben
                 {[ "status" := VStr (value_of HIRED); "hired_on" := VDate Example.today ]}))
    as [instance [Hget [_ _]]].
  - right. vm_compute. reflexivity.
  - exists instance. split; [exact Hget|].
    vm_compute in Hget. injection Hget as <-. reflexivity.
Defined.

(** ** Reading employees *)

Lemma get_company_resolves (db : DB) (e : Employee) :
  references_resolve db ->
  In e (employees db) ->
  exists d c, Employee_department_obj db e = Ok d
              /\ ReadOnlyEmployeeSerializer_get_company db e = Ok c.
Proof.
  intros [R1 R2] Hin.
  destruct (R2 e Hin) as [d [Hd Hid]].
  unfold ReadOnlyEmployeeSerializer_get_company, Employee_department_obj, get_department.
  destruct (find _ (departments db)) as [d'|] eqn:E.
  - apply find_some in E as [Hd' _].
    destruct (R1 d' Hd') as [c [Hc Hcid]].
    unfold Department_company_obj, get_company. rewrite bind_Ok_l.
    destruct (find _ (companies db)) as [c'|] eqn:E'; [eauto|].
    apply (find_none _ _ E') in Hc. apply Z.eqb_neq in Hc. contradiction.
  - apply (find_none _ _ E) in Hd. apply Z.eqb_neq in Hd. contradiction.
Qed.

Lemma company_entries_resolve (db : DB) (es : list Employee) :
  references_resolve db ->
  (forall e, In e es -> In e (employees db)) ->
  exists vs, company_entries db es = Ok vs
             /\ (es <> [] -> exists c vs', vs = VCompany c :: vs').
Proof.
  intros R. induction es as [|e es IH]; intros Hall.
  - exists []. split; [reflexivity | congruence].
  - destruct IH as [vs [Hvs _]]; [intros; apply Hall; now right|].
    destruct (get_company_resolves db e R) as [d [c [_ Hc]]]; [apply Hall; now left|].
    exists (VCompany c :: vs). split; [|eauto].
    cbn [company_entries]. rewrite Hc, bind_Ok_l, Hvs. reflexivity.
Qed.

(** A response that holds an employee is not rendered. *)
Lemma Response_with_employee {A} (db : DB) (nested : list Employee) (data : A) :
  references_resolve db ->
  (forall e, In e nested -> In e (employees db)) ->
  nested <> [] ->
  Response db nested data
  = Raise (TypeError "Object of type Company is not JSON serializable").
Proof.
  intros R Hall Hne.
  destruct (company_entries_resolve db nested R Hall) as [vs [Hvs Hc]].
  destruct (Hc Hne) as [c [vs' ->]].
  unfold Response. rewrite Hvs, bind_Ok_l. reflexivity.
Qed.

(** X18.  The data of an employee carry the company itself under [company],
    which the renderer cannot encode.  In a store whose references resolve,
    reading one employee, listing the employees of a company that has one,
    and listing the companies of a user who is not a superuser and manages a
    company with an employee, all end in [TypeError], a server error, once
    the permission check is passed. *)
Theorem employee_data_cannot_be_rendered :
  (forall db today request company_pk pk obj,
      references_resolve db ->
      IsCompanyManager_has_permission db request company_pk = true ->
      EmployeeViewSet_get_object db company_pk pk = Ok obj ->
      EmployeeViewSet_retrieve db today request company_pk pk
      = Raise (TypeError "Object of type Company is not JSON serializable"))
  /\ (forall db request company_pk e,
        references_resolve db ->
        IsCompanyManager_has_permission db request company_pk = true ->
        In e (EmployeeViewSet_get_queryset db company_pk) ->
        EmployeeViewSet_list db request company_pk
        = Raise (TypeError "Object of type Company is not JSON serializable"))
  /\ (forall db request c d e,
        references_resolve db ->
        Request_method request = "GET" ->
        CustomUser_is_superuser (Request_user request) = false ->
        In c (companies db) ->
        Company_manager c = CustomUser_id (Request_user request) ->
        In d (Company_departments db c) ->
        In e (Department_employees db d) ->
        CompanyViewSet_list db request
        = Raise (TypeError "Object of type Company is not JSON serializable"))
  /\ status_code (TypeError "Object of type Company is not JSON serializable") = 500.
Proof.
  split; [|split; [|split; [|reflexivity]]].
  - intros db today request cpk pk obj R Hperm Hget.
    unfold EmployeeViewSet_retrieve. rewrite Hperm, Hget. simpl check_permissions.
    rewrite !bind_Ok_l.
    apply get_object_found in Hget as [Hin _].
    destruct (get_company_resolves db obj R Hin) as [d [c [Hd Hc]]].
    unfold ReadOnlyEmployeeSerializer. rewrite Hd, bind_Ok_l, Hc, bind_Ok_l.
    reflexivity.
  - intros db request cpk e R Hperm Hin.
    unfold EmployeeViewSet_list. rewrite Hperm. simpl check_permissions.
    rewrite bind_Ok_l. apply Response_with_employee; [exact R| |].
    + intros e' He'. unfold EmployeeViewSet_get_queryset in He'.
      now apply filter_In in He' as [He' _].
    + intros E. rewrite E in Hin. contradiction.
  - intros db request c d e R Hm Hs Hc Hman Hd He.
    unfold CompanyViewSet_list, IsMangerOrReadOnly_has_permission,
      CompanyViewSet_get_serializer, CompanyViewSet_get_queryset.
    rewrite Hm, Hs. simpl check_permissions. rewrite bind_Ok_l.
    apply Response_with_employee; [exact R| |].
    + intros e' He'. unfold CompanyData_nested in He'.
      apply in_flat_map in He' as [cd [Hcd He']].
      apply in_map_iff in Hcd as [c' [<- _]].
      cbn [ReadOnlyCompanySerializer CompanyData_departments] in He'.
      unfold DepartmentData_nested in He'.
      apply in_flat_map in He' as [dd [Hdd He']].
      apply in_map_iff in Hdd as [d' [<- _]].
      cbn [ReadOnlyDepartmentSerializer DepartmentData_employees] in He'.
      unfold Department_employees in He'. now apply filter_In in He' as [He' _].
    + assert (Hin : In e (CompanyData_nested
                            (map (ReadOnlyCompanySerializer db)
                               (List.filter
                                  (fun c0 => Z.eqb (Company_manager c0)
                                               (CustomUser_id (Request_user request)))
                                  (companies db))))).
      { unfold CompanyData_nested. apply in_flat_map.
        exists (ReadOnlyCompanySerializer db c). split.
        - apply in_map. apply filter_In. split; [exact Hc | now apply Z.eqb_eq].
        - cbn [ReadOnlyCompanySerializer CompanyData_departments].
          unfold DepartmentData_nested. apply in_flat_map.
          exists (ReadOnlyDepartmentSerializer db d). split; [now apply in_map|].
          exact He. }
      intros E. rewrite E in Hin. contradiction.
Qed.

Lemma Example_references_resolve : references_resolve Example.db.
Proof.
  split.
  - intros d [<-|[<-|[<-|[]]]]; [exists Example.bolt | exists Example.acme
                                 | exists Example.acme]; simpl; auto.
  - intros e [<-|[<-|[]]]; exists Example.eng; simpl; auto.
Qed.

(** Mona reads Ann, an employee of the company she manages. *)
Lemma employee_data_witness :
  EmployeeViewSet_retrieve Example.db Example.today
    (Example.request Example.mona "GET" ∅) 1 1
  = Raise (TypeError "Object of type Company is not JSON serializable")
  /\ CompanyViewSet_list Example.db (Example.request Example.mona "GET" ∅)
     = Raise (TypeError "Object of type Company is not JSON serializable").
Proof.
  split.
  - apply (proj1 employee_data_cannot_be_rendered Example.db Example.today
             (Example.request Example.mona "GET" ∅) 1 1 Example.ann
             Example_references_resolve); reflexivity.
  - apply (proj1 (proj2 (proj2 employee_data_cannot_be_rendered)) Example.db
             (Example.request Example.mona "GET" ∅) Example.acme Example.eng Example.ann
             Example_references_resolve); try reflexivity; simpl; auto.
Defined.
